(** * teleop_ws relay: frame codec, peer registries, router, keepalive, signaling

    A shallow embedding of the Go relay (go-relay/twist.go, peer_manager.go,
    websocket.go, the message router and the HTTP signaling handler of
    package main) together with the properties of the relay fabric that the
    specification states. *)

From Stdlib Require Import ZArith Lia List.
From stdpp Require Import gmap strings list fin_maps.

Local Open Scope Z_scope.

(* ===================================================================== *)
(** ** Machine integers and bytes *)
(* ===================================================================== *)

Module Word.

(** [uint64(x)]: conversion to an unsigned 64-bit word wraps modulo 2^64. *)
Definition to_uint64 (x : Z) : Z := x mod 2 ^ 64.

(** [int64(x)]: two's complement reinterpretation of a 64-bit word. *)
Definition to_int64 (x : Z) : Z := (x + 2 ^ 63) mod 2 ^ 64 - 2 ^ 63.

(** [byte(x)]: the low eight bits. *)
Definition to_byte (x : Z) : Z := Z.land x 255.

Definition is_uint64 (x : Z) : Prop := 0 <= x < 2 ^ 64.
Definition is_byte (x : Z) : Prop := 0 <= x < 256.

(** [x += d] on a uint64 counter. *)
Definition add64 (x d : Z) : Z := to_uint64 (x + d).

End Word.

(* ===================================================================== *)
(** ** encoding/binary: little-endian 64-bit words *)
(* ===================================================================== *)

Module LittleEndian.
Import Word.

(** [binary.LittleEndian.PutUint64(b, v)]: b[i] = byte(v >> 8*i). *)
Definition PutUint64 (v : Z) : list Z :=
  [ to_byte v;
    to_byte (Z.shiftr v 8);
    to_byte (Z.shiftr v 16);
    to_byte (Z.shiftr v 24);
    to_byte (Z.shiftr v 32);
    to_byte (Z.shiftr v 40);
    to_byte (Z.shiftr v 48);
    to_byte (Z.shiftr v 56) ].

(** [binary.LittleEndian.Uint64(b)]:
    uint64(b[0]) | uint64(b[1])<<8 | ... | uint64(b[7])<<56.
    A slice shorter than 8 bytes makes the Go function panic on its bounds
    check; the decoder below only passes 8-byte slices. *)
Definition Uint64 (b : list Z) : Z :=
  match b with
  | b0 :: b1 :: b2 :: b3 :: b4 :: b5 :: b6 :: b7 :: _ =>
      Z.lor b0 (Z.lor (Z.shiftl b1 8) (Z.lor (Z.shiftl b2 16)
        (Z.lor (Z.shiftl b3 24) (Z.lor (Z.shiftl b4 32)
          (Z.lor (Z.shiftl b5 40) (Z.lor (Z.shiftl b6 48) (Z.shiftl b7 56)))))))
  | _ => 0
  end.

End LittleEndian.

(** Go slice expression [data[lo:hi]]. *)
Definition slice {A} (lo hi : nat) (data : list A) : list A :=
  firstn (hi - lo) (skipn lo data).

(* ===================================================================== *)
(** ** twist.go: the velocity frame codec *)
(* ===================================================================== *)

Module Twist.
Import Word LittleEndian.

Definition TwistMessageSize : nat := 56.
Definition TwistMessageSizeLegacy : nat := 48.

(** A [float64] is carried as its IEEE-754 binary64 bit pattern (a 64-bit
    word): sign bit 63, exponent bits 62..52, fraction bits 51..0.  NaN
    payloads, signalling NaNs and subnormals are all distinct patterns. *)
Definition float64 := Z.

(** [math.Float64bits] and [math.Float64frombits] reinterpret the same
    eight bytes. *)
Definition Float64bits (f : float64) : Z := f.
Definition Float64frombits (b : Z) : float64 := b.

(** The float comparison [f == 0]: true for +0.0 and for -0.0. *)
Definition float_is_zero (f : float64) : bool :=
  (f =? 0) || (f =? 2 ^ 63).

Record Vector3 := mkVector3 { X : float64; Y : float64; Z_ : float64 }.

Record TwistMessage := mkTwist {
  Linear : Vector3;
  Angular : Vector3;
  Timestamp : Z  (* uint64, milliseconds since epoch *)
}.

Inductive error :=
| ErrInvalidMessageSize (got : nat).

Inductive result :=
| Ok (twist : TwistMessage)
| Err (e : error).

(** The bytes [EncodeTwist] stores at [buf[48:56]]: the caller's timestamp,
    or [uint64(time.Now().UnixMilli())] when it is zero.  [now] is the
    clock reading (an int64). *)
Definition encoded_timestamp (now : Z) (twist : TwistMessage) : Z :=
  let ts := Timestamp twist in
  if ts =? 0 then to_uint64 now else ts.

Definition EncodeTwist (now : Z) (twist : TwistMessage) : list Z :=
  PutUint64 (Float64bits (X (Linear twist))) ++
  PutUint64 (Float64bits (Y (Linear twist))) ++
  PutUint64 (Float64bits (Z_ (Linear twist))) ++
  PutUint64 (Float64bits (X (Angular twist))) ++
  PutUint64 (Float64bits (Y (Angular twist))) ++
  PutUint64 (Float64bits (Z_ (Angular twist))) ++
  PutUint64 (encoded_timestamp now twist).

Definition DecodeTwist (data : list Z) : result :=
  if negb (Nat.eqb (length data) TwistMessageSize) &&
     negb (Nat.eqb (length data) TwistMessageSizeLegacy)
  then Err (ErrInvalidMessageSize (length data))
  else
    Ok {| Linear :=
            {| X := Float64frombits (Uint64 (slice 0 8 data));
               Y := Float64frombits (Uint64 (slice 8 16 data));
               Z_ := Float64frombits (Uint64 (slice 16 24 data)) |};
          Angular :=
            {| X := Float64frombits (Uint64 (slice 24 32 data));
               Y := Float64frombits (Uint64 (slice 32 40 data));
               Z_ := Float64frombits (Uint64 (slice 40 48 data)) |};
          Timestamp :=
            if Nat.leb TwistMessageSize (length data)
            then Uint64 (slice 48 56 data)
            else 0 |}.

(** [GetLatencyMs]: 0 when the timestamp is zero, else now - int64(ts). *)
Definition GetLatencyMs (now : Z) (t : TwistMessage) : Z :=
  if Timestamp t =? 0 then 0
  else to_int64 (now - to_int64 (Timestamp t)).

Definition IsZero (t : TwistMessage) : bool :=
  float_is_zero (X (Linear t)) && float_is_zero (Y (Linear t)) &&
  float_is_zero (Z_ (Linear t)) && float_is_zero (X (Angular t)) &&
  float_is_zero (Y (Angular t)) && float_is_zero (Z_ (Angular t)).

(** Every field of a Go [TwistMessage] is a 64-bit word. *)
Definition wf_twist (t : TwistMessage) : Prop :=
  is_uint64 (X (Linear t)) /\ is_uint64 (Y (Linear t)) /\
  is_uint64 (Z_ (Linear t)) /\ is_uint64 (X (Angular t)) /\
  is_uint64 (Y (Angular t)) /\ is_uint64 (Z_ (Angular t)) /\
  is_uint64 (Timestamp t).

End Twist.

(* ===================================================================== *)
(** ** Data of the relay: peers, socket clients, counters, traces *)
(* ===================================================================== *)

Local Open Scope string_scope.
Local Open Scope list_scope.
Local Open Scope Z_scope.

Definition bytes := list Z.

(** [PeerType] is a Go string type; its two named constants. *)
Definition PeerType := string.
Definition PeerTypeWeb : PeerType := "web".
Definition PeerTypePython : PeerType := "python".

(** [uuid.New().String()[:8]]: the first eight characters of a fresh UUID. *)
Definition short_id (uuid : string) : string := String.substring 0 8 uuid.

(** The part of a [webrtc.DataChannel] the relay looks at: its ready state
    and whether [dc.Send] reports an error. *)
Inductive DataChannelState :=
| DataChannelStateConnecting
| DataChannelStateOpen
| DataChannelStateClosing
| DataChannelStateClosed.

Module DataChannel.
Record t := mk {
  ReadyState : DataChannelState;
  SendErr : bool   (* [dc.Send(data)] returns a non-nil error *)
}.
End DataChannel.

Module Peer.
Record t := mk {
  ID : string;
  Type_ : PeerType;
  DataChannel : option DataChannel.t   (* nil until a channel is set up *)
}.
End Peer.

(** websocket.go [DataMessage], the JSON envelope of the data endpoint. *)
Module DataMessage.
Record t := mk {
  Type_ : string;
  PeerID : string;
  PeerType : string;
  Data : bytes;
  Timestamp : Z
}.
End DataMessage.

(** What a client's [Send] channel carries: a raw frame, or the bytes of a
    marshalled JSON envelope (kept unrendered). *)
Inductive Outbound :=
| Raw (data : bytes)
| Json (msg : DataMessage.t).

(** A buffered Go channel [make(chan []byte, cap)]. *)
Module Chan.
Record t := mk { buf : list Outbound; cap : nat }.

Definition make (n : nat) : t := {| buf := []; cap := n |}.

(** A send that does not wait: [Some] the channel after the send, [None]
    when the buffer is full (a plain [ch <- v] would block, a [select]
    with a [default] arm takes the default). *)
Definition try_send (ch : t) (v : Outbound) : option t :=
  if Nat.ltb (length (buf ch)) (cap ch)
  then Some {| buf := buf ch ++ [v]; cap := cap ch |}
  else None.

(** The writer's receive [<-ch]. *)
Definition recv (ch : t) : option (Outbound * t) :=
  match buf ch with
  | [] => None
  | v :: rest => Some (v, {| buf := rest; cap := cap ch |})
  end.
End Chan.

Module WSClient.
Record t := mk {
  ID : string;
  PeerType : string;
  Send : Chan.t
}.

Definition with_Send (c : t) (ch : Chan.t) : t :=
  {| ID := ID c; PeerType := PeerType c; Send := ch |}.
End WSClient.

(** [RouterStats] of the message router; the three counters are uint64. *)
Module RouterStats.
Record t := mk {
  MessagesReceived : Z;
  MessagesForwarded : Z;
  ParseErrors : Z
}.

Definition incReceived (s : t) : t :=
  {| MessagesReceived := Word.add64 (MessagesReceived s) 1;
     MessagesForwarded := MessagesForwarded s;
     ParseErrors := ParseErrors s |}.

Definition addForwarded (n : Z) (s : t) : t :=
  {| MessagesReceived := MessagesReceived s;
     MessagesForwarded := Word.add64 (MessagesForwarded s) (Word.to_uint64 n);
     ParseErrors := ParseErrors s |}.

Definition incParseErrors (s : t) : t :=
  {| MessagesReceived := MessagesReceived s;
     MessagesForwarded := MessagesForwarded s;
     ParseErrors := Word.add64 (ParseErrors s) 1 |}.

Definition wf (s : t) : Prop :=
  Word.is_uint64 (MessagesReceived s) /\
  Word.is_uint64 (MessagesForwarded s) /\
  Word.is_uint64 (ParseErrors s).
End RouterStats.

Inductive Transport := Datagram | Socket.

(** One frame handed to a transport: a [dc.Send] that returned nil, or an
    enqueue into a socket client's [Send] channel. *)
Module Delivery.
Record t := mk {
  transport : Transport;
  to_id : string;
  to_role : string;
  payload : bytes
}.
End Delivery.

(** The lines the relay logs. *)
Inductive LogLine :=
| LogRouterNonTwist (id : string) (size : nat)
| LogRouterTwist (id : string) (twist : Twist.TwistMessage) (latency : Z)
| LogRouterForwarded (n : Z) (kind : string)
| LogWSInvalidTwist (id : string) (e : Twist.error)
| LogWSTwist (id type_ : string) (twist : Twist.TwistMessage) (latency : Z)
| LogWSBridged (n : Z) (targetType : string)
| LogSendBufferFull (id : string)
| LogWSUnknownType (type_ : string)
| LogWSUpgradeError
| LogWSClientConnected (id type_ : string)
| LogWSClientDisconnected (id : string)
| LogWSReadError (id : string)
| LogWSParseError
| LogPeerCreated (id type_ : string)
| LogPeerRemoved (id : string)
| LogOfferProcessed (id type_ : string).

(** Which of the manager pointers are non-nil: [mr.wsManager],
    [m.router], [m.peerManager].  [main] sets all three. *)
Module Wiring.
Record t := mk {
  router_wsManager : bool;
  ws_router : bool;
  ws_peerManager : bool
}.
Definition full : t := mk true true true.
End Wiring.

(** The shared state of the process. *)
Record World := mkWorld {
  peers : gmap string Peer.t;             (* PeerManager.peers *)
  dataClients : gmap string WSClient.t;   (* WSManager.dataClients *)
  stats : RouterStats.t;                  (* MessageRouter.stats *)
  wire : list Delivery.t;                 (* frames handed to transports, oldest first *)
  logs : list LogLine;
  wiring : Wiring.t
}.

Definition set_peers (f : gmap string Peer.t -> gmap string Peer.t) (w : World) : World :=
  mkWorld (f (peers w)) (dataClients w) (stats w) (wire w) (logs w) (wiring w).
Definition set_dataClients
    (f : gmap string WSClient.t -> gmap string WSClient.t) (w : World) : World :=
  mkWorld (peers w) (f (dataClients w)) (stats w) (wire w) (logs w) (wiring w).
Definition set_stats (f : RouterStats.t -> RouterStats.t) (w : World) : World :=
  mkWorld (peers w) (dataClients w) (f (stats w)) (wire w) (logs w) (wiring w).
Definition deliver (d : Delivery.t) (w : World) : World :=
  mkWorld (peers w) (dataClients w) (stats w) (wire w ++ [d]) (logs w) (wiring w).
Definition log (l : LogLine) (w : World) : World :=
  mkWorld (peers w) (dataClients w) (stats w) (wire w) (logs w ++ [l]) (wiring w).

Definition emptyWorld : World :=
  mkWorld ∅ ∅ (RouterStats.mk 0 0 0) [] [] Wiring.full.

(* ===================================================================== *)
(** ** peer_manager.go: the registry of datagram-transport peers *)
(* ===================================================================== *)

Module PeerManager.

(** [CreatePeer].  [uuid] is the value of [uuid.New().String()] and
    [pcErr] the error of [NewPeerConnection], if any. *)
Definition CreatePeer (uuid : string) (pcErr : option string)
    (peerType : PeerType) (w : World) : World * (Peer.t + string) :=
  match pcErr with
  | Some err =>
      (w, inr (String.append "failed to create peer connection: " err))
  | None =>
      let peerID := short_id uuid in
      let peer := Peer.mk peerID peerType None in
      (log (LogPeerCreated peerID peerType)
           (set_peers (insert peerID peer) w),
       inl peer)
  end.

(** [setupDataChannel]: stores the channel in the peer object. *)
Definition setupDataChannel (peerID : string) (dc : DataChannel.t)
    (w : World) : World :=
  set_peers
    (alter (fun p => Peer.mk (Peer.ID p) (Peer.Type_ p) (Some dc)) peerID) w.

Definition GetPeer (peerID : string) (w : World) : option Peer.t :=
  peers w !! peerID.

(** [GetPeersByType]: the map is visited in some order; the model takes
    the order of [map_to_list]. *)
Definition GetPeersByType (peerType : PeerType) (w : World) : list Peer.t :=
  List.filter (fun peer => String.eqb (Peer.Type_ peer) peerType)
              (List.map snd (map_to_list (peers w))).

(** [RemovePeer]: [peer.Connection] is never nil for a created peer, so
    the connection is closed and the removal logged whenever the id was
    present. *)
Definition RemovePeer (peerID : string) (w : World) : World :=
  match peers w !! peerID with
  | Some _ => log (LogPeerRemoved peerID) (set_peers (delete peerID) w)
  | None => w
  end.

(** [SendToPeer]: [None] is a nil error. *)
Definition SendToPeer (peerID : string) (data : bytes) (w : World)
    : World * option string :=
  match GetPeer peerID w with
  | None => (w, Some "peer not found")
  | Some peer =>
      match Peer.DataChannel peer with
      | None => (w, Some "peer has no data channel")
      | Some dc =>
          match DataChannel.ReadyState dc with
          | DataChannelStateOpen =>
              if DataChannel.SendErr dc then (w, Some "send failed")
              else
                (deliver (Delivery.mk Datagram (Peer.ID peer)
                                      (Peer.Type_ peer) data) w,
                 None)
          | _ => (w, Some "data channel not open")
          end
      end
  end.

Definition broadcast_step (data : bytes) (acc : World * Z) (peer : Peer.t)
    : World * Z :=
  match SendToPeer (Peer.ID peer) data (fst acc) with
  | (w', None) => (w', snd acc + 1)
  | (w', Some _) => (w', snd acc)
  end.

(** [BroadcastToType]: returns the number of sends that succeeded. *)
Definition BroadcastToType (peerType : PeerType) (data : bytes) (w : World)
    : World * Z :=
  fold_left (broadcast_step data) (GetPeersByType peerType w) (w, 0).

Definition PeerCount (w : World) : nat := size (peers w).

Definition Close (w : World) : World := set_peers (fun _ => ∅) w.

End PeerManager.

(* ===================================================================== *)
(** ** websocket.go: the registry of socket-transport data clients *)
(* ===================================================================== *)

Module WSManager.

(** The capacity given to [make(chan []byte, 256)]. *)
Definition sendBufferSize : nat := 256.

(** The [select] of both fan-out loops:
      select { case client.Send <- data: n++ ; default: log "Send buffer full" } *)
Definition enqueue_or_drop (key : string) (client : WSClient.t)
    (data : bytes) (acc : World * Z) : World * Z :=
  match Chan.try_send (WSClient.Send client) (Raw data) with
  | Some ch' =>
      (deliver (Delivery.mk Socket (WSClient.ID client)
                            (WSClient.PeerType client) data)
         (set_dataClients (insert key (WSClient.with_Send client ch'))
                          (fst acc)),
       snd acc + 1)
  | None => (log (LogSendBufferFull (WSClient.ID client)) (fst acc), snd acc)
  end.

Definition forward_step (senderID targetType : string) (data : bytes)
    (acc : World * Z) (kc : string * WSClient.t) : World * Z :=
  if negb (String.eqb (WSClient.ID (snd kc)) senderID) &&
     String.eqb (WSClient.PeerType (snd kc)) targetType
  then enqueue_or_drop (fst kc) (snd kc) data acc
  else acc.

(** [forwardData]: socket clients of the opposite type, the sender's id
    excluded. *)
Definition forwardData (senderID senderType : string) (data : bytes)
    (w : World) : World :=
  let targetType :=
    if String.eqb senderType "python" then "web" else "python" in
  let '(w', forwarded) :=
    fold_left (forward_step senderID targetType data)
              (map_to_list (dataClients w)) (w, 0) in
  if Wiring.ws_router (wiring w') && (0 <? forwarded)
  then set_stats (RouterStats.addForwarded forwarded) w'
  else w'.

Definition broadcast_step (targetType : string) (data : bytes)
    (acc : World * Z) (kc : string * WSClient.t) : World * Z :=
  if String.eqb (WSClient.PeerType (snd kc)) targetType
  then enqueue_or_drop (fst kc) (snd kc) data acc
  else acc.

(** [BroadcastToType]: bridging from the datagram transport. *)
Definition BroadcastToType (targetType : string) (data : bytes) (w : World)
    : World * Z :=
  fold_left (broadcast_step targetType data)
            (map_to_list (dataClients w)) (w, 0).

(** [removeDataClient]: closes the channel and deletes the record. *)
Definition removeDataClient (id : string) (w : World) : World :=
  match dataClients w !! id with
  | Some _ =>
      log (LogWSClientDisconnected id) (set_dataClients (delete id) w)
  | None => w
  end.

(** [HandleDataWS] after the upgrade: registers the client and queues the
    welcome envelope.  [typeParam] is the [type] query parameter, [now]
    the clock in milliseconds. *)
Definition HandleDataWS (upgradeOk : bool) (typeParam uuid : string)
    (now : Z) (w : World) : World :=
  if negb upgradeOk then log LogWSUpgradeError w
  else
    let peerType := if String.eqb typeParam "" then "web" else typeParam in
    let clientID := short_id uuid in
    let welcome := DataMessage.mk "welcome" clientID peerType [] now in
    match Chan.try_send (Chan.make sendBufferSize) (Json welcome) with
    | Some ch =>
        log (LogWSClientConnected clientID peerType)
            (set_dataClients
               (insert clientID (WSClient.mk clientID peerType ch)) w)
    | None => w
    end.

Definition GetDataClientCount (w : World) : nat := size (dataClients w).

End WSManager.

(* ===================================================================== *)
(** ** MessageRouter: the datagram inbound path *)
(* ===================================================================== *)

Module MessageRouter.
Import Twist.

(** One arm of the [switch from.Type]: datagram peers of [target], then
    (when a socket manager is attached) socket clients of [target]. *)
Definition route_to (target kind : string) (data : bytes) (w : World)
    : World :=
  let '(w1, sent) := PeerManager.BroadcastToType target data w in
  let w2 := set_stats (RouterStats.addForwarded sent) w1 in
  let '(w3, sent') :=
    if Wiring.router_wsManager (wiring w2) then
      let '(w3, wsSent) := WSManager.BroadcastToType target data w2 in
      (set_stats (RouterStats.addForwarded wsSent) w3, sent + wsSent)
    else (w2, sent) in
  if 0 <? sent' then log (LogRouterForwarded sent' kind) w3 else w3.

(** [HandleMessage]; [now] is the clock in milliseconds. *)
Definition HandleMessage (now : Z) (from : Peer.t) (data : bytes)
    (w : World) : World :=
  let w := set_stats RouterStats.incReceived w in
  match DecodeTwist data with
  | Err _ =>
      set_stats RouterStats.incParseErrors
        (log (LogRouterNonTwist (Peer.ID from) (length data)) w)
  | Ok twist =>
      let w :=
        if negb (IsZero twist)
        then log (LogRouterTwist (Peer.ID from) twist
                                 (GetLatencyMs now twist)) w
        else w in
      if String.eqb (Peer.Type_ from) PeerTypeWeb
      then route_to PeerTypePython "Python" data w
      else if String.eqb (Peer.Type_ from) PeerTypePython
      then route_to PeerTypeWeb "web" data w
      else w
  end.

End MessageRouter.

(* ===================================================================== *)
(** ** websocket.go: inbound paths of a data client *)
(* ===================================================================== *)

Module WSInbound.
Import Twist.

(** [handleBinaryData]. *)
Definition handleBinaryData (now : Z) (c : WSClient.t) (data : bytes)
    (w : World) : World :=
  let w :=
    if Wiring.ws_router (wiring w)
    then set_stats RouterStats.incReceived w else w in
  match DecodeTwist data with
  | Err e => log (LogWSInvalidTwist (WSClient.ID c) e) w
  | Ok twist =>
      let w :=
        if negb (IsZero twist)
        then log (LogWSTwist (WSClient.ID c) (WSClient.PeerType c) twist
                             (GetLatencyMs now twist)) w
        else w in
      let w :=
        WSManager.forwardData (WSClient.ID c) (WSClient.PeerType c) data w in
      if Wiring.ws_peerManager (wiring w) then
        let targetType :=
          if String.eqb (WSClient.PeerType c) "web"
          then PeerTypePython else PeerTypeWeb in
        let '(w', sent) := PeerManager.BroadcastToType targetType data w in
        if 0 <? sent then
          let w' := log (LogWSBridged sent targetType) w' in
          if Wiring.ws_router (wiring w')
          then set_stats (RouterStats.addForwarded sent) w'
          else w'
        else w'
      else w
  end.

(** [handleDataMessage].  The reply to a JSON ping is a plain channel
    send into the client's own buffer, which waits when the buffer is
    full: [None] stands for the reader being suspended there.  The
    client's channel is the one held by its registry record. *)
Definition handleDataMessage (now : Z) (c : WSClient.t)
    (msg : DataMessage.t) (w : World) : option World :=
  if String.eqb (DataMessage.Type_ msg) "twist" then
    Some (WSManager.forwardData (WSClient.ID c) (WSClient.PeerType c)
                                (DataMessage.Data msg) w)
  else if String.eqb (DataMessage.Type_ msg) "ping" then
    let pong := DataMessage.mk "pong" (WSClient.ID c) "" [] now in
    match dataClients w !! WSClient.ID c with
    | Some c0 =>
        match Chan.try_send (WSClient.Send c0) (Json pong) with
        | Some ch' =>
            Some (set_dataClients
                    (insert (WSClient.ID c) (WSClient.with_Send c0 ch')) w)
        | None => None
        end
    | None => Some w
    end
  else Some (log (LogWSUnknownType (DataMessage.Type_ msg)) w).

End WSInbound.

(* ===================================================================== *)
(** ** websocket.go: keepalive and the pumps of a data client *)
(* ===================================================================== *)

Module Keepalive.

(** [time.Duration] counts nanoseconds; instants are nanoseconds too. *)
Definition Second : Z := 1000000000.

Definition pingInterval : Z := 30 * Second.
Definition pongTimeout : Z := 10 * Second.
Definition writeTimeout : Z := 10 * Second.
Definition maxMessageSize : Z := 1024 * 1024.

(** [time.Time.UnixMilli]. *)
Definition UnixMilli (t : Z) : Z := t / 1000000.

(** The part of a [websocket.Conn] the pumps set. *)
Record Conn := mkConn {
  readLimit : Z;
  readDeadline : Z;
  writeDeadline : Z;
  closed : bool
}.

Definition SetReadLimit (n : Z) (c : Conn) : Conn :=
  mkConn n (readDeadline c) (writeDeadline c) (closed c).
Definition SetReadDeadline (t : Z) (c : Conn) : Conn :=
  mkConn (readLimit c) t (writeDeadline c) (closed c).
Definition SetWriteDeadline (t : Z) (c : Conn) : Conn :=
  mkConn (readLimit c) (readDeadline c) t (closed c).
Definition Close (c : Conn) : Conn :=
  mkConn (readLimit c) (readDeadline c) (writeDeadline c) true.

(** The handler installed by [SetPongHandler]; [t] is [time.Now()]. *)
Definition pongHandler (t : Z) (c : Conn) : Conn :=
  SetReadDeadline (t + (pongTimeout + pingInterval)) c.

(** What reaches the reader, each with its arrival instant: a pong control
    frame, a binary frame, a text frame with the outcome of
    [json.Unmarshal], or a read error (close frame, broken connection). *)
Inductive Incoming :=
| InPong (t : Z)
| InBinary (t : Z) (message : bytes)
| InText (t : Z) (parsed : option DataMessage.t)
| InError (t : Z) (unexpected : bool).

Definition arrival (ev : Incoming) : Z :=
  match ev with
  | InPong t | InBinary t _ | InText t _ | InError t _ => t
  end.

(** The [for] loop of [readPumpData].  [c.Conn.ReadMessage()] fails once
    the read deadline has passed with nothing read: an event that arrives
    after the deadline, or the end of the input, ends the loop.  Pong
    frames are consumed inside [ReadMessage] by the pong handler.  The
    result is [None] when the reader is suspended on its own full buffer. *)
Fixpoint readLoop (c : WSClient.t) (conn : Conn) (events : list Incoming)
    (w : World) : option (Conn * World) :=
  match events with
  | [] => Some (conn, w)
  | ev :: rest =>
      if readDeadline conn <? arrival ev then Some (conn, w)
      else
        match ev with
        | InPong t => readLoop c (pongHandler t conn) rest w
        | InBinary t message =>
            readLoop c conn rest
              (WSInbound.handleBinaryData (UnixMilli t) c message w)
        | InText t None => readLoop c conn rest (log LogWSParseError w)
        | InText t (Some msg) =>
            match WSInbound.handleDataMessage (UnixMilli t) c msg w with
            | Some w' => readLoop c conn rest w'
            | None => None
            end
        | InError t unexpected =>
            Some (conn,
                  if unexpected
                  then log (LogWSReadError (WSClient.ID c)) w else w)
        end
  end.

(** The deferred function of [readPumpData]. *)
Definition readPump_exit (c : WSClient.t) (st : Conn * World)
    : Conn * World :=
  (Close (fst st), WSManager.removeDataClient (WSClient.ID c) (snd st)).

(** The reader from a given connection state on. *)
Definition readPump_from (c : WSClient.t) (conn : Conn)
    (events : list Incoming) (w : World) : option (Conn * World) :=
  option_map (readPump_exit c) (readLoop c conn events w).

(** [readPumpData], started at instant [t0]. *)
Definition readPumpData (c : WSClient.t) (t0 : Z) (conn : Conn)
    (events : list Incoming) (w : World) : option (Conn * World) :=
  readPump_from c
    (SetReadDeadline (t0 + (pongTimeout + pingInterval))
                     (SetReadLimit maxMessageSize conn))
    events w.




(** Frames written to the socket by the writer. *)
Inductive Written :=
| PingMessage
| BinaryMessage (data : bytes)
| TextMessage (out : Outbound)
| CloseMessage.

(** The frame kind chosen by [writePumpData] for a dequeued message:
    binary unless it is empty or starts with an opening brace. *)
Definition frame_of (out : Outbound) : Written :=
  match out with
  | Raw (b :: rest) => if b =? 123 then TextMessage out
                       else BinaryMessage (b :: rest)
  | _ => TextMessage out
  end.


(** One message arm of the writer's [select]. *)
Definition writePump_message (t : Z) (c : WSClient.t) (conn : Conn)
    : option (Conn * WSClient.t * Written) :=
  match Chan.recv (WSClient.Send c) with
  | Some (out, ch') =>
      Some (SetWriteDeadline (t + writeTimeout) conn,
            WSClient.with_Send c ch', frame_of out)
  | None => None
  end.







End Keepalive.

(* ===================================================================== *)
(** ** SignalingHandler: the /offer admission *)
(* ===================================================================== *)

Module Signaling.

Definition StatusOK : Z := 200.
Definition StatusBadRequest : Z := 400.
Definition StatusMethodNotAllowed : Z := 405.
Definition StatusInternalServerError : Z := 500.

Record OfferRequest := mkOffer {
  offerSDP : string;
  offerType : string;
  offerPeerType : string
}.

Record ErrorResponse := mkError { Error : string; Details : string }.

Record AnswerResponse := mkAnswer {
  SDP : string;
  Type_ : string;
  PeerID : string
}.

Inductive Body :=
| ErrorBody (e : ErrorResponse)
| AnswerBody (a : AnswerResponse).

Record Response := mkResponse { status : Z; body : Body }.

(** What the surroundings answer during one admission: the UUID drawn and
    the error (if any) of each call into the transport library. *)
Record Admission := mkAdmission {
  uuid : string;
  newPeerConnection : option string;
  setRemoteDescription : option string;
  createAnswer : option string;
  setLocalDescription : option string;
  localSDP : string
}.

Definition sendError (st : Z) (message details : string) : Response :=
  mkResponse st (ErrorBody (mkError message details)).

(** [handleOffer].  [req] is the outcome of decoding the body as JSON. *)
Definition handleOffer (method : string) (req : string + OfferRequest)
    (env : Admission) (w : World) : World * Response :=
  if negb (String.eqb method "POST") then
    (w, sendError StatusMethodNotAllowed "Method not allowed" "Use POST")
  else
    match req with
    | inl err => (w, sendError StatusBadRequest "Invalid JSON" err)
    | inr req =>
        let peerType :=
          if negb (String.eqb (offerPeerType req) PeerTypeWeb) &&
             negb (String.eqb (offerPeerType req) PeerTypePython)
          then PeerTypeWeb else offerPeerType req in
        match PeerManager.CreatePeer (uuid env) (newPeerConnection env)
                                     peerType w with
        | (w, inr err) =>
            (w, sendError StatusInternalServerError
                          "Failed to create peer" err)
        | (w, inl peer) =>
            match setRemoteDescription env with
            | Some err =>
                (PeerManager.RemovePeer (Peer.ID peer) w,
                 sendError StatusBadRequest "Invalid SDP offer" err)
            | None =>
                match createAnswer env with
                | Some err =>
                    (PeerManager.RemovePeer (Peer.ID peer) w,
                     sendError StatusInternalServerError
                               "Failed to create answer" err)
                | None =>
                    match setLocalDescription env with
                    | Some err =>
                        (PeerManager.RemovePeer (Peer.ID peer) w,
                         sendError StatusInternalServerError
                           "Failed to set local description" err)
                    | None =>
                        (log (LogOfferProcessed (Peer.ID peer) peerType) w,
                         mkResponse StatusOK
                           (AnswerBody (mkAnswer (localSDP env) "answer"
                                                 (Peer.ID peer))))
                    end
                end
            end
        end
    end.

End Signaling.

(** The keys of the peer registry are the ids of the records it holds: it
    is only ever written as [pm.peers[peerID] = peer] with
    [peer.ID = peerID]. *)
Definition peers_keyed (w : World) : Prop :=
  forall k p, peers w !! k = Some p -> Peer.ID p = k.

(** Every socket client's channel was made with capacity 256 and holds no
    more than that. *)
Definition buffers_bounded (w : World) : Prop :=
  forall k c, dataClients w !! k = Some c ->
    Chan.cap (WSClient.Send c) = WSManager.sendBufferSize /\
    (length (Chan.buf (WSClient.Send c)) <= WSManager.sendBufferSize)%nat.

(* ===================================================================== *)
(** ** The fan-out loops in closed form *)
(* ===================================================================== *)

(** The two [range m.dataClients] loops differ only in the test that
    selects a client. *)
Definition select_step (sel : WSClient.t -> bool) (data : bytes)
    (acc : World * Z) (kc : string * WSClient.t) : World * Z :=
  if sel (snd kc) then WSManager.enqueue_or_drop (fst kc) (snd kc) data acc
  else acc.

Definition sel_forward (senderID targetType : string) (c : WSClient.t) : bool :=
  negb (String.eqb (WSClient.ID c) senderID) &&
  String.eqb (WSClient.PeerType c) targetType.

Definition sel_broadcast (targetType : string) (c : WSClient.t) : bool :=
  String.eqb (WSClient.PeerType c) targetType.

Definition has_room (c : WSClient.t) : bool :=
  Nat.ltb (length (Chan.buf (WSClient.Send c))) (Chan.cap (WSClient.Send c)).

Definition enqueued (data : bytes) (c : WSClient.t) : WSClient.t :=
  WSClient.with_Send c
    (Chan.mk (Chan.buf (WSClient.Send c) ++ [Raw data])
             (Chan.cap (WSClient.Send c))).

Definition socket_delivery (data : bytes) (kc : string * WSClient.t)
    : Delivery.t :=
  Delivery.mk Socket (WSClient.ID (snd kc)) (WSClient.PeerType (snd kc)) data.

Definition taken (sel : WSClient.t -> bool) (kc : string * WSClient.t) : bool :=
  sel (snd kc) && has_room (snd kc).

Definition dropped (sel : WSClient.t -> bool) (kc : string * WSClient.t) : bool :=
  sel (snd kc) && negb (has_room (snd kc)).

Definition store_enqueued (data : bytes) (m : gmap string WSClient.t)
    (kc : string * WSClient.t) : gmap string WSClient.t :=
  <[fst kc := enqueued data (snd kc)]> m.

(** What one loop does to one client record. *)
Definition after_fanout (sel : WSClient.t -> bool) (data : bytes)
    (c : WSClient.t) : WSClient.t :=
  if sel c && has_room c then enqueued data c else c.

(** The delivery a [SendToPeer(peer.ID, data)] makes, if it makes one. *)
Definition datagram_delivery (data : bytes) (w : World) (peer : Peer.t)
    : option Delivery.t :=
  match peers w !! Peer.ID peer with
  | Some p =>
      match Peer.DataChannel p with
      | Some dc =>
          match DataChannel.ReadyState dc with
          | DataChannelStateOpen =>
              if DataChannel.SendErr dc then None
              else Some (Delivery.mk Datagram (Peer.ID p) (Peer.Type_ p) data)
          | _ => None
          end
      | None => None
      end
  | None => None
  end.

(** The role a frame of a given origin role is fanned out to on the socket
    side, and on the datagram side of the socket inbound path. *)
Definition opposite_socket (senderType : string) : string :=
  if String.eqb senderType "python" then "web" else "python".

Definition opposite_bridge (senderType : string) : string :=
  if String.eqb senderType "web" then PeerTypePython else PeerTypeWeb.

(** The three ways a frame enters the relay. *)
Inductive Inbound :=
| FromDatagram (from : Peer.t) (data : bytes)
| FromSocketBinary (c : WSClient.t) (data : bytes)
| FromSocketJson (c : WSClient.t) (msg : DataMessage.t).

Definition origin_transport (i : Inbound) : Transport :=
  match i with
  | FromDatagram _ _ => Datagram
  | FromSocketBinary _ _ | FromSocketJson _ _ => Socket
  end.

Definition origin_id (i : Inbound) : string :=
  match i with
  | FromDatagram from _ => Peer.ID from
  | FromSocketBinary c _ | FromSocketJson c _ => WSClient.ID c
  end.

Definition origin_role (i : Inbound) : string :=
  match i with
  | FromDatagram from _ => Peer.Type_ from
  | FromSocketBinary c _ | FromSocketJson c _ => WSClient.PeerType c
  end.

(** The entry point that serves each of them. *)
Definition route (now : Z) (i : Inbound) (w : World) : option World :=
  match i with
  | FromDatagram from data => Some (MessageRouter.HandleMessage now from data w)
  | FromSocketBinary c data => Some (WSInbound.handleBinaryData now c data w)
  | FromSocketJson c msg => WSInbound.handleDataMessage now c msg w
  end.

(** Every registered peer and client has role [r]. *)
Definition all_of_role (r : string) (w : World) : Prop :=
  (forall k p, peers w !! k = Some p -> Peer.Type_ p = r) /\
  (forall k c, dataClients w !! k = Some c -> WSClient.PeerType c = r).

(** The frames one fan-out hands to each transport. *)
Definition datagram_fanout (target : string) (data : bytes) (w : World)
    : list Delivery.t :=
  omap (datagram_delivery data w) (PeerManager.GetPeersByType target w).

Definition socket_fanout (sel : WSClient.t -> bool) (data : bytes) (w : World)
    : list Delivery.t :=
  List.map (socket_delivery data)
           (List.filter (taken sel) (map_to_list (dataClients w))).

(** Where a delivery made for a given inbound frame may go. *)
Definition delivered_as (i : Inbound) (d : Delivery.t) : Prop :=
  match i with
  | FromDatagram from data =>
      Delivery.payload d = data /\
      ((Peer.Type_ from = PeerTypeWeb /\ Delivery.to_role d = PeerTypePython) \/
       (Peer.Type_ from = PeerTypePython /\ Delivery.to_role d = PeerTypeWeb))
  | FromSocketBinary c data =>
      Delivery.payload d = data /\
      ((Delivery.transport d = Socket /\
        Delivery.to_role d = opposite_socket (WSClient.PeerType c) /\
        Delivery.to_id d <> WSClient.ID c) \/
       (Delivery.transport d = Datagram /\
        Delivery.to_role d = opposite_bridge (WSClient.PeerType c)))
  | FromSocketJson c msg =>
      Delivery.payload d = DataMessage.Data msg /\
      DataMessage.Type_ msg = "twist" /\
      Delivery.transport d = Socket /\
      Delivery.to_role d = opposite_socket (WSClient.PeerType c) /\
      Delivery.to_id d <> WSClient.ID c
  end.

(** The frames one arm of the router's switch hands out. *)
Definition router_fanout (target : string) (data : bytes) (w : World)
    : list Delivery.t :=
  datagram_fanout target data w ++
  (if Wiring.router_wsManager (wiring w)
   then socket_fanout (sel_broadcast target) data w else []).

(** All frames handed out for one inbound frame. *)
Definition fanned (i : Inbound) (w : World) : list Delivery.t :=
  match i with
  | FromDatagram from data =>
      match Twist.DecodeTwist data with
      | Twist.Err _ => []
      | Twist.Ok _ =>
          if String.eqb (Peer.Type_ from) PeerTypeWeb
          then router_fanout PeerTypePython data w
          else if String.eqb (Peer.Type_ from) PeerTypePython
          then router_fanout PeerTypeWeb data w
          else []
      end
  | FromSocketBinary c data =>
      match Twist.DecodeTwist data with
      | Twist.Err _ => []
      | Twist.Ok _ =>
          socket_fanout
            (sel_forward (WSClient.ID c) (opposite_socket (WSClient.PeerType c)))
            data w ++
          (if Wiring.ws_peerManager (wiring w)
           then datagram_fanout (opposite_bridge (WSClient.PeerType c)) data w
           else [])
      end
  | FromSocketJson c msg =>
      if String.eqb (DataMessage.Type_ msg) "twist"
      then socket_fanout
             (sel_forward (WSClient.ID c) (opposite_socket (WSClient.PeerType c)))
             (DataMessage.Data msg) w
      else []
  end.

(** The record a delivery is addressed to is in the registry of its
    transport, under the delivery's id and role. *)
Definition registered (w : World) (d : Delivery.t) : Prop :=
  match Delivery.transport d with
  | Datagram =>
      exists p, peers w !! Delivery.to_id d = Some p /\
                Peer.Type_ p = Delivery.to_role d
  | Socket =>
      exists k c, dataClients w !! k = Some c /\
                  WSClient.ID c = Delivery.to_id d /\
                  WSClient.PeerType c = Delivery.to_role d /\
                  has_room c = true
  end.

(** What a fan-out loop that selects with [sel] owes each client record:
    the bound on every buffer is kept; a record that is not selected, or is
    selected with a full buffer, is left as it was (and the full one is
    logged); a selected record with room gets the frame at the tail of its
    buffer and a delivery on the wire. *)
Definition enqueue_policy (sel : WSClient.t -> bool) (data : bytes)
    (w w' : World) : Prop :=
  buffers_bounded w' /\
  exists ds ls,
    wire w' = wire w ++ ds /\ logs w' = logs w ++ ls /\
    forall k c, dataClients w !! k = Some c ->
      (sel c = false -> dataClients w' !! k = Some c) /\
      (sel c = true ->
       length (Chan.buf (WSClient.Send c)) = WSManager.sendBufferSize ->
       dataClients w' !! k = Some c /\
       In (LogSendBufferFull (WSClient.ID c)) ls) /\
      (sel c = true ->
       (length (Chan.buf (WSClient.Send c)) < WSManager.sendBufferSize)%nat ->
       dataClients w' !! k = Some (enqueued data c) /\
       In (socket_delivery data (k, c)) ds).

(* ===================================================================== *)
(** ** The states the relay reaches *)
(* ===================================================================== *)

(** One action of the process: an admission, a channel being attached, a
    peer or client leaving, an inbound frame, a write of the writer pump. *)
Inductive step (w : World) : World -> Prop :=
| step_create uuid pcErr peerType :
    step w (fst (PeerManager.CreatePeer uuid pcErr peerType w))
| step_channel id dc :
    step w (PeerManager.setupDataChannel id dc w)
| step_remove id :
    step w (PeerManager.RemovePeer id w)
| step_offer method req env :
    step w (fst (Signaling.handleOffer method req env w))
| step_connect ok ty uuid now :
    step w (WSManager.HandleDataWS ok ty uuid now w)
| step_disconnect id :
    step w (WSManager.removeDataClient id w)
| step_route now i w' :
    route now i w = Some w' -> step w w'
| step_write t id c conn conn' c' frame :
    dataClients w !! id = Some c ->
    Keepalive.writePump_message t c conn = Some (conn', c', frame) ->
    step w (set_dataClients (insert id c') w).

Inductive reachable : World -> Prop :=
| reach_start : reachable emptyWorld
| reach_step w w' : reachable w -> step w w' -> reachable w'.

(* ===================================================================== *)
(** ** Sample data *)
(* ===================================================================== *)

Module Sample.

(** linear.y = 1.5, linear.z the least subnormal, angular.x a quiet NaN
    with payload 1, angular.y = -0.0; a nonzero timestamp. *)
Definition twist : Twist.TwistMessage :=
  Twist.mkTwist
    (Twist.mkVector3 0 4609434218613702656 1)
    (Twist.mkVector3 9221120237041090561 9223372036854775808 0)
    1700000000000.

(** The same velocities with no timestamp yet. *)
Definition unstamped : Twist.TwistMessage :=
  Twist.mkTwist (Twist.Linear twist) (Twist.Angular twist) 0.

Definition frame : bytes := Twist.EncodeTwist 0 twist.

(** Three bytes: not a frame. *)
Definition junk : bytes := [1; 2; 3].

Definition openChannel : DataChannel.t :=
  DataChannel.mk DataChannelStateOpen false.

Definition webPeer : Peer.t := Peer.mk "aaaa0001" "web" (Some openChannel).
Definition pyPeer : Peer.t := Peer.mk "bbbb0002" "python" (Some openChannel).

Definition webClient : WSClient.t :=
  WSClient.mk "cccc0003" "web" (Chan.make 256).
Definition pyClient : WSClient.t :=
  WSClient.mk "dddd0004" "python" (Chan.make 256).
(** A python client whose buffer is full. *)
Definition stuckClient : WSClient.t :=
  WSClient.mk "eeee0005" "python" (Chan.mk (repeat (Raw junk) 256) 256).
Definition webClient2 : WSClient.t :=
  WSClient.mk "ffff0006" "web" (Chan.make 256).

(** One peer of each role on either transport, and a stuck python
    client. *)
Definition world : World :=
  mkWorld
    (<["aaaa0001" := webPeer]> (<["bbbb0002" := pyPeer]> ∅))
    (<["cccc0003" := webClient]>
       (<["dddd0004" := pyClient]> (<["eeee0005" := stuckClient]> ∅)))
    (RouterStats.mk 0 0 0) [] [] Wiring.full.

(** Controllers only. *)
Definition webOnly : World :=
  mkWorld
    (<["aaaa0001" := webPeer]> ∅)
    (<["cccc0003" := webClient]> (<["ffff0006" := webClient2]> ∅))
    (RouterStats.mk 0 0 0) [] [] Wiring.full.

Definition twistEnvelope (data : bytes) : DataMessage.t :=
  DataMessage.mk "twist" "" "" data 0.

End Sample.

(* ===================================================================== *)
(** ** twist.go: the remaining operations on frames *)
(* ===================================================================== *)

Module TwistOps.
Import Word Twist.

(** [NewTwistMessage]: zero velocities and the clock reading [now]
    (milliseconds, an int64) as timestamp. *)
Definition NewTwistMessage (now : Z) : TwistMessage :=
  mkTwist (mkVector3 0 0 0) (mkVector3 0 0 0) (to_uint64 now).

Definition EmergencyStop (now : Z) : TwistMessage := NewTwistMessage now.

Definition IsEmergencyStop (t : TwistMessage) : bool := IsZero t.

Definition Clone (t : TwistMessage) : TwistMessage :=
  mkTwist
    (mkVector3 (X (Linear t)) (Y (Linear t)) (Z_ (Linear t)))
    (mkVector3 (X (Angular t)) (Y (Angular t)) (Z_ (Angular t)))
    (Timestamp t).

(** A frame with its timestamp replaced. *)
Definition with_Timestamp (t : TwistMessage) (ts : Z) : TwistMessage :=
  mkTwist (Linear t) (Angular t) ts.

End TwistOps.

(** A Go [[]byte]: every element is a byte. *)
Definition bytes_ok (data : bytes) : Prop := Forall Word.is_byte data.

(** The two eight-byte words the float comparison [f == 0] accepts: +0.0
    and -0.0, little-endian. *)
Definition stop_word (word : bytes) : Prop :=
  word = [0; 0; 0; 0; 0; 0; 0; 0] \/ word = [0; 0; 0; 0; 0; 0; 0; 128].

(* ===================================================================== *)
(** ** peer_manager.go: creating a data channel *)
(* ===================================================================== *)

Module PeerChannel.

(** [CreateDataChannel]: [createErr] is the error of
    [peer.Connection.CreateDataChannel], [dc] the channel it returns. *)
Definition CreateDataChannel (peer : Peer.t) (createErr : option string)
    (dc : DataChannel.t) (w : World) : World * option string :=
  match createErr with
  | Some err =>
      (w, Some (String.append "failed to create data channel: " err))
  | None => (PeerManager.setupDataChannel (Peer.ID peer) dc w, None)
  end.

End PeerChannel.

(* ===================================================================== *)
(** ** The counters and the fan-out in closed form *)
(* ===================================================================== *)

(** The counters after one arm of the router's switch. *)
Definition arm_stats (target : string) (data : bytes) (w : World)
    (s : RouterStats.t) : RouterStats.t :=
  let dg := Z.of_nat (length (datagram_fanout target data w)) in
  let sk := Z.of_nat (length (socket_fanout (sel_broadcast target) data w)) in
  if Wiring.router_wsManager (wiring w)
  then RouterStats.addForwarded sk (RouterStats.addForwarded dg s)
  else RouterStats.addForwarded dg s.

(** The counters after [HandleMessage]. *)
Definition router_stats (from : Peer.t) (data : bytes) (w : World)
    : RouterStats.t :=
  let s := RouterStats.incReceived (stats w) in
  match Twist.DecodeTwist data with
  | Twist.Err _ => RouterStats.incParseErrors s
  | Twist.Ok _ =>
      if String.eqb (Peer.Type_ from) PeerTypeWeb
      then arm_stats PeerTypePython data w s
      else if String.eqb (Peer.Type_ from) PeerTypePython
      then arm_stats PeerTypeWeb data w s
      else s
  end.

(** The counters after [handleBinaryData]. *)
Definition binary_stats (c : WSClient.t) (data : bytes) (w : World)
    : RouterStats.t :=
  let s0 := if Wiring.ws_router (wiring w)
            then RouterStats.incReceived (stats w) else stats w in
  match Twist.DecodeTwist data with
  | Twist.Err _ => s0
  | Twist.Ok _ =>
      let n1 := Z.of_nat (length (socket_fanout
                   (sel_forward (WSClient.ID c)
                      (opposite_socket (WSClient.PeerType c))) data w)) in
      let s1 := if Wiring.ws_router (wiring w) && (0 <? n1)
                then RouterStats.addForwarded n1 s0 else s0 in
      if Wiring.ws_peerManager (wiring w) then
        let n2 := Z.of_nat (length (datagram_fanout
                     (opposite_bridge (WSClient.PeerType c)) data w)) in
        if (0 <? n2) && Wiring.ws_router (wiring w)
        then RouterStats.addForwarded n2 s1 else s1
      else s1
  end.

(** The bytes an inbound frame carries. *)
Definition inbound_bytes (i : Inbound) : bytes :=
  match i with
  | FromDatagram _ data | FromSocketBinary _ data => data
  | FromSocketJson _ msg => DataMessage.Data msg
  end.

(** Whom a delivery is addressed to. *)
Definition target (d : Delivery.t) : Transport * string :=
  (Delivery.transport d, Delivery.to_id d).

(** The keys of the client registry are the ids of its records: it is only
    ever written as [m.dataClients[clientID] = client] with
    [client.ID = clientID]. *)
Definition clients_keyed (w : World) : Prop :=
  forall k c, dataClients w !! k = Some c -> WSClient.ID c = k.

(** The number of registered peers and clients whose role is not [r]. *)
Definition strangers (r : string) (w : World) : nat :=
  (length (List.filter (fun p => negb (String.eqb (Peer.Type_ p) r))
                       (List.map snd (map_to_list (peers w)))) +
   length (List.filter (fun kc => negb (String.eqb (WSClient.PeerType (snd kc)) r))
                       (map_to_list (dataClients w))))%nat.

(* ===================================================================== *)
(** ** websocket.go: the counts of the data pool *)
(* ===================================================================== *)

Module WSCounts.

(** One iteration of [GetDataClientsByType]: a record of type "web" adds
    to [web], any other record to [python]. *)
Definition count_step (acc : nat * nat) (kc : string * WSClient.t)
    : nat * nat :=
  if String.eqb (WSClient.PeerType (snd kc)) "web"
  then (S (fst acc), snd acc) else (fst acc, S (snd acc)).

(** [GetDataClientsByType]: the pair [(web, python)]. *)
Definition GetDataClientsByType (w : World) : nat * nat :=
  fold_left count_step (map_to_list (dataClients w)) (0%nat, 0%nat).

End WSCounts.

(* ===================================================================== *)
(** ** SignalingHandler: /status and /ice *)
(* ===================================================================== *)

Module Endpoints.
Import Signaling.

Definition StatusNotFound : Z := 404.

Record StatusResponse := mkStatus {
  Status : string;
  PeerCount : nat;
  WebPeers : nat;
  PyPeers : nat
}.

Record ICECandidateRequest := mkICE {
  icePeerID : string;
  iceCandidate : string;
  iceSDPMid : string;
  iceSDPMLine : Z
}.

(** What [sendJSON] writes: the status code with an error body, the status
    report, or a one-entry JSON object. *)
Inductive Reply :=
| ReplyError (st : Z) (e : ErrorResponse)
| ReplyStatus (st : Z) (s : StatusResponse)
| ReplyObject (st : Z) (key value : string).

Definition code (r : Reply) : Z :=
  match r with
  | ReplyError st _ | ReplyStatus st _ | ReplyObject st _ _ => st
  end.

(** [handleStatus]. *)
Definition handleStatus (method : string) (w : World) : Reply :=
  if negb (String.eqb method "GET") then
    ReplyError StatusMethodNotAllowed (mkError "Method not allowed" "Use GET")
  else
    let webPeers := length (PeerManager.GetPeersByType PeerTypeWeb w) in
    let pyPeers := length (PeerManager.GetPeersByType PeerTypePython w) in
    ReplyStatus StatusOK
      (mkStatus "running" (PeerManager.PeerCount w) webPeers pyPeers).

(** The line [handleICE] logs on success. *)
Inductive EndpointLog := LogICEAdded (peerID : string).

(** [handleICE].  [req] is the outcome of decoding the body as JSON and
    [addErr] the error of [peer.Connection.AddICECandidate], if any.  The
    registry is only read. *)
Definition handleICE (method : string) (req : string + ICECandidateRequest)
    (addErr : option string) (w : World) : Reply * list EndpointLog :=
  if negb (String.eqb method "POST") then
    (ReplyError StatusMethodNotAllowed
                (mkError "Method not allowed" "Use POST"), [])
  else
    match req with
    | inl err => (ReplyError StatusBadRequest (mkError "Invalid JSON" err), [])
    | inr req =>
        match PeerManager.GetPeer (icePeerID req) w with
        | None =>
            (ReplyError StatusNotFound
                        (mkError "Peer not found" (icePeerID req)), [])
        | Some peer =>
            match addErr with
            | Some err =>
                (ReplyError StatusBadRequest
                            (mkError "Failed to add ICE candidate" err), [])
            | None =>
                (ReplyObject StatusOK "status" "ok",
                 [LogICEAdded (icePeerID req)])
            end
        end
    end.

End Endpoints.

(* ===================================================================== *)
(** ** SignalingHandler: the routes as they are served *)
(* ===================================================================== *)

Module Routes.
Import Signaling.

(** The three headers [corsMiddleware] sets on every response. *)
Definition corsHeaders : list (string * string) :=
  [("Access-Control-Allow-Origin", "*");
   ("Access-Control-Allow-Methods", "GET, POST, OPTIONS");
   ("Access-Control-Allow-Headers", "Content-Type")].

(** What reaches the caller: the headers, the status code and the body
    written by [sendJSON], if any. *)
Record Reply := mkReply {
  headers : list (string * string);
  code : Z;
  sent : option Body
}.

(** [corsMiddleware]: a preflight request is answered 200 with the
    headers alone and [next] is not called.  Every handler wrapped here
    answers through [sendJSON], which sets the content type, the status
    code and the body. *)
Definition corsMiddleware (next : string -> World -> World * Response)
    (method : string) (w : World) : World * Reply :=
  if String.eqb method "OPTIONS" then (w, mkReply corsHeaders StatusOK None)
  else
    let r := next method w in
    (fst r,
     mkReply (corsHeaders ++ [("Content-Type", "application/json")])
             (status (snd r)) (Some (body (snd r)))).

(** The /offer route as [RegisterRoutes] installs it:
    [sh.corsMiddleware(sh.handleOffer)]. *)
Definition offerRoute (method : string) (req : string + OfferRequest)
    (env : Admission) (w : World) : World * Reply :=
  corsMiddleware (fun m => handleOffer m req env) method w.

End Routes.

(** Every registered peer is a web or a python peer. *)
Definition roles_known (w : World) : Prop :=
  forall k p, peers w !! k = Some p ->
    Peer.Type_ p = PeerTypeWeb \/ Peer.Type_ p = PeerTypePython.

(* ===================================================================== *)
(** ** websocket.go: the signaling pool *)
(* ===================================================================== *)

Module SignalingWS.

Record SignalingMessage := mkMsg {
  Type_ : string;
  PeerID : string;
  PeerType : string;
  SDP : string;
  Candidate : bytes;
  Error : string;
  Timestamp : Z
}.

(** [msg.PeerID = senderID]. *)
Definition with_PeerID (msg : SignalingMessage) (id : string)
    : SignalingMessage :=
  mkMsg (Type_ msg) id (PeerType msg) (SDP msg) (Candidate msg) (Error msg)
        (Timestamp msg).

(** A signaling client: its [Send] channel holds marshalled signaling
    messages and was made with capacity 256. *)
Record Client := mkClient {
  ID : string;
  Role : string;
  Send : list SignalingMessage
}.

Definition sendCap : nat := 256.

Definition with_Send (c : Client) (b : list SignalingMessage) : Client :=
  mkClient (ID c) (Role c) b.

(** A send that does not wait, as in [Chan.try_send]. *)
Definition try_send (b : list SignalingMessage) (v : SignalingMessage)
    : option (list SignalingMessage) :=
  if Nat.ltb (length b) sendCap then Some (b ++ [v]) else None.

Inductive Log :=
| LogUpgradeError
| LogConnected (id role : string)
| LogDisconnected (id : string)
| LogBufferFull (id : string)
| LogOffer (id : string)
| LogAnswer (id : string)
| LogICE (id : string)
| LogUnknownType (type_ : string).

(** [WSManager.signalingClients] and the log lines of the signaling
    side. *)
Record Pool := mkPool {
  signalingClients : gmap string Client;
  slogs : list Log
}.

Definition emptyPool : Pool := mkPool ∅ [].

Definition slog (l : Log) (p : Pool) : Pool :=
  mkPool (signalingClients p) (slogs p ++ [l]).

(** [HandleSignalingWS] after the upgrade. *)
Definition HandleSignalingWS (upgradeOk : bool) (typeParam uuid : string)
    (now : Z) (p : Pool) : Pool :=
  if negb upgradeOk then slog LogUpgradeError p
  else
    let peerType := if String.eqb typeParam "" then "web" else typeParam in
    let clientID := short_id uuid in
    let welcome := mkMsg "welcome" clientID peerType "" [] "" now in
    match try_send [] welcome with
    | Some b =>
        slog (LogConnected clientID peerType)
             (mkPool (<[clientID := mkClient clientID peerType b]>
                        (signalingClients p))
                     (slogs p))
    | None => p
    end.

(** One iteration of the loop of [broadcastSignaling]. *)
Definition broadcast_step (senderID : string) (msg : SignalingMessage)
    (p : Pool) (kc : string * Client) : Pool :=
  if negb (String.eqb (ID (snd kc)) senderID) then
    match try_send (Send (snd kc)) msg with
    | Some b =>
        mkPool (<[fst kc := with_Send (snd kc) b]> (signalingClients p))
               (slogs p)
    | None => slog (LogBufferFull (ID (snd kc))) p
    end
  else p.

(** [broadcastSignaling]: the sender's id is written into the message
    before it is marshalled. *)
Definition broadcastSignaling (senderID : string) (msg : SignalingMessage)
    (p : Pool) : Pool :=
  fold_left (broadcast_step senderID (with_PeerID msg senderID))
            (map_to_list (signalingClients p)) p.

(** [handleSignalingMessage].  As on the data side, the reply to a ping
    is a plain channel send into the client's own buffer: [None] stands
    for the reader being suspended on a full buffer. *)
Definition handleSignalingMessage (now : Z) (c : Client)
    (msg : SignalingMessage) (p : Pool) : option Pool :=
  if String.eqb (Type_ msg) "offer" then
    Some (broadcastSignaling (ID c) msg (slog (LogOffer (ID c)) p))
  else if String.eqb (Type_ msg) "answer" then
    Some (broadcastSignaling (ID c) msg (slog (LogAnswer (ID c)) p))
  else if String.eqb (Type_ msg) "ice" then
    Some (broadcastSignaling (ID c) msg (slog (LogICE (ID c)) p))
  else if String.eqb (Type_ msg) "ping" then
    let pong := mkMsg "pong" (ID c) "" "" [] "" now in
    match signalingClients p !! ID c with
    | Some c0 =>
        match try_send (Send c0) pong with
        | Some b =>
            Some (mkPool (<[ID c := with_Send c0 b]> (signalingClients p))
                         (slogs p))
        | None => None
        end
    | None => Some p
    end
  else Some (slog (LogUnknownType (Type_ msg)) p).

(** [removeSignalingClient]. *)
Definition removeSignalingClient (id : string) (p : Pool) : Pool :=
  match signalingClients p !! id with
  | Some _ =>
      slog (LogDisconnected id)
           (mkPool (delete id (signalingClients p)) (slogs p))
  | None => p
  end.

Definition GetSignalingClientCount (p : Pool) : nat :=
  size (signalingClients p).

(** What one broadcast from [senderID] does to one client record. *)
Definition relayed (senderID : string) (msg : SignalingMessage)
    (c : Client) : Client :=
  if negb (String.eqb (ID c) senderID) && Nat.ltb (length (Send c)) sendCap
  then with_Send c (Send c ++ [with_PeerID msg senderID]) else c.

(** The relayed message kinds. *)
Definition relayed_kind (ty : string) : bool :=
  String.eqb ty "offer" || String.eqb ty "answer" || String.eqb ty "ice".

End SignalingWS.

(** The frames a run of broadcasts to [ty] offers the socket pool, one
    after the other, with no writer draining in between. *)
Definition flood (ty : string) (frames : list bytes) (w : World) : World :=
  fold_left (fun w data => fst (WSManager.BroadcastToType ty data w))
            frames w.

(* ===================================================================== *)
(** ** Sample requests and signaling clients *)
(* ===================================================================== *)

Module SampleSignaling.

(** An offer that names a role the relay does not know. *)
Definition offer : Signaling.OfferRequest :=
  Signaling.mkOffer "v=0" "offer" "robot".

(** An admission on which every transport call succeeds. *)
Definition admission : Signaling.Admission :=
  Signaling.mkAdmission "12345678-9abc-4def-8012-3456789abcde"
                        None None None None "v=0 answer".

Definition caller : SignalingWS.Client :=
  SignalingWS.mkClient "aaaa1111" "web" [].
Definition callee : SignalingWS.Client :=
  SignalingWS.mkClient "bbbb2222" "python" [].

Definition pool : SignalingWS.Pool :=
  SignalingWS.mkPool
    (<["aaaa1111" := caller]> (<["bbbb2222" := callee]> ∅)) [].

(** An SDP offer whose sender wrote another id into it. *)
Definition sdpOffer : SignalingWS.SignalingMessage :=
  SignalingWS.mkMsg "offer" "bbbb2222" "web" "v=0" [] "" 0.

(** The state after one python client has connected to /ws/data. *)
Definition connected : World :=
  WSManager.HandleDataWS true "python"
    "dddd0004-9abc-4def-8012-3456789abcde" 0 emptyWorld.

(** A frame whose first byte is the opening brace: linear.x has the bit
    pattern 0x7B, a subnormal. *)
Definition braceTwist : Twist.TwistMessage :=
  Twist.mkTwist (Twist.mkVector3 123 0 0) (Twist.mkVector3 0 0 0) 1.

Definition braceFrame : bytes := Twist.EncodeTwist 0 braceTwist.

Definition idleConn : Keepalive.Conn := Keepalive.mkConn 0 0 0 false.

(** A socket client that connected with a type of its own. *)
Definition robot : WSClient.t :=
  WSClient.mk "9999aaaa" "robot" (Chan.make 256).

End SampleSignaling.

(* ===================================================================== *)
(** ** Codec lemmas *)
(* ===================================================================== *)

Section LittleEndianFacts.
Import Word LittleEndian.

Lemma to_byte_testbit v n :
  0 <= n -> Z.testbit (to_byte v) n = Z.testbit v n && (n <? 8).
Proof.
  intros Hn. unfold to_byte.
  change 255 with (Z.ones 8).
  rewrite Z.land_spec, Z.testbit_ones by lia.
  destruct (Z.testbit v n); simpl; [|reflexivity].
  destruct (Z.ltb_spec n 8), (Z.leb_spec 0 n); simpl; auto; lia.
Qed.

Lemma to_byte_range v : is_byte (to_byte v).
Proof.
  unfold is_byte, to_byte. change 255 with (Z.ones 8).
  rewrite Z.land_ones by lia. apply Z.mod_pos_bound. lia.
Qed.

(** The byte stored for shift [s] holds bits s .. s+7. *)
Lemma byte_slot_testbit v s n :
  0 <= s -> 0 <= n ->
  Z.testbit (Z.shiftl (to_byte (Z.shiftr v s)) s) n
  = Z.testbit v n && (s <=? n) && (n <? s + 8).
Proof.
  intros Hs Hn.
  rewrite Z.shiftl_spec by lia.
  destruct (Z.leb_spec s n) as [Hle|Hlt].
  - rewrite to_byte_testbit by lia.
    rewrite Z.shiftr_spec by lia.
    replace (n - s + s) with n by lia.
    rewrite Bool.andb_true_r.
    f_equal.
    destruct (Z.ltb_spec (n - s) 8), (Z.ltb_spec n (s + 8));
      auto; lia.
  - rewrite Z.testbit_neg_r by lia.
    rewrite Bool.andb_false_r. reflexivity.
Qed.

Lemma Uint64_PutUint64 v : Uint64 (PutUint64 v) = to_uint64 v.
Proof.
  unfold Uint64, PutUint64, to_uint64.
  apply Z.bits_inj'. intros n Hn.
  rewrite <- Z.land_ones, Z.land_spec, Z.testbit_ones by lia.
  rewrite !Z.lor_spec.
  rewrite !byte_slot_testbit by lia.
  rewrite to_byte_testbit by lia.
  destruct (Z.testbit v n); simpl.
  2:{ reflexivity. }
  repeat match goal with
         | |- context [?a <=? ?b] => destruct (Z.leb_spec a b); try lia
         | |- context [?a <? ?b] => destruct (Z.ltb_spec a b); try lia
         end; reflexivity.
Qed.

Lemma Uint64_PutUint64_id v : is_uint64 v -> Uint64 (PutUint64 v) = v.
Proof.
  intros Hv. rewrite Uint64_PutUint64. unfold to_uint64.
  apply Z.mod_small. exact Hv.
Qed.

Lemma PutUint64_length v : length (PutUint64 v) = 8%nat.
Proof. reflexivity. Qed.

Lemma to_uint64_range x : is_uint64 (to_uint64 x).
Proof. unfold is_uint64, to_uint64. apply Z.mod_pos_bound. lia. Qed.

End LittleEndianFacts.

Section CodecFacts.
Import Word LittleEndian Twist.

(** Decoding seven consecutive little-endian words. *)
Lemma DecodeTwist_words a b c d e f g :
  DecodeTwist (PutUint64 a ++ PutUint64 b ++ PutUint64 c ++ PutUint64 d ++
               PutUint64 e ++ PutUint64 f ++ PutUint64 g)
  = Ok (mkTwist (mkVector3 (to_uint64 a) (to_uint64 b) (to_uint64 c))
                (mkVector3 (to_uint64 d) (to_uint64 e) (to_uint64 f))
                (to_uint64 g)).
Proof.
  unfold DecodeTwist, Float64frombits.
  change (length (PutUint64 a ++ PutUint64 b ++ PutUint64 c ++ PutUint64 d ++
                  PutUint64 e ++ PutUint64 f ++ PutUint64 g)) with 56%nat.
  change (slice 0 8 _) with (PutUint64 a).
  change (slice 8 16 _) with (PutUint64 b).
  change (slice 16 24 _) with (PutUint64 c).
  change (slice 24 32 _) with (PutUint64 d).
  change (slice 32 40 _) with (PutUint64 e).
  change (slice 40 48 _) with (PutUint64 f).
  change (slice 48 56 _) with (PutUint64 g).
  rewrite !Uint64_PutUint64. reflexivity.
Qed.

Lemma EncodeTwist_length now t : length (EncodeTwist now t) = 56%nat.
Proof. reflexivity. Qed.

Lemma encoded_timestamp_nonzero now t :
  Timestamp t <> 0 -> encoded_timestamp now t = Timestamp t.
Proof.
  intros H. unfold encoded_timestamp.
  destruct (Z.eqb_spec (Timestamp t) 0); [contradiction | reflexivity].
Qed.

Lemma DecodeTwist_EncodeTwist now t :
  wf_twist t -> Timestamp t <> 0 -> DecodeTwist (EncodeTwist now t) = Ok t.
Proof.
  intros (H1 & H2 & H3 & H4 & H5 & H6 & H7) Hts.
  unfold EncodeTwist. rewrite DecodeTwist_words.
  rewrite encoded_timestamp_nonzero by assumption.
  unfold Float64bits, to_uint64.
  rewrite !Z.mod_small by assumption.
  destruct t as [[] [] ?]; reflexivity.
Qed.

Lemma slice_timestamp now t :
  slice 48 56 (EncodeTwist now t) = PutUint64 (encoded_timestamp now t).
Proof. reflexivity. Qed.

End CodecFacts.

(* ===================================================================== *)
(** ** Properties of the frame codec *)
(* ===================================================================== *)

Section CodecProperties.
Import Word LittleEndian Twist.

(** C4.  For every frame whose timestamp is nonzero, encoding, decoding
    the 56 bytes and encoding again gives the first encoding byte for
    byte, whatever the clock reads at either encoding and whatever bit
    patterns (NaN payloads, subnormals) the six doubles carry. *)
Theorem EncodeTwist_roundtrip (now now' : Z) (f : TwistMessage) :
  wf_twist f ->
  Timestamp f <> 0 ->
  length (EncodeTwist now f) = 56%nat /\
  exists g, DecodeTwist (EncodeTwist now f) = Ok g /\
            EncodeTwist now' g = EncodeTwist now f.
Proof.
  intros Hwf Hts. split; [reflexivity|].
  exists f. split.
  - apply DecodeTwist_EncodeTwist; assumption.
  - unfold EncodeTwist.
    rewrite !encoded_timestamp_nonzero by assumption. reflexivity.
Qed.

(** C5.  [DecodeTwist] fails with the invalid-size error, and yields no
    frame, on every input whose length is neither 48 nor 56, and succeeds
    on every input of length 48 or 56. *)
Theorem DecodeTwist_size (data : list Z) :
  (length data <> 48%nat -> length data <> 56%nat ->
     DecodeTwist data = Err (ErrInvalidMessageSize (length data))) /\
  (length data = 48%nat \/ length data = 56%nat ->
     exists twist, DecodeTwist data = Ok twist).
Proof.
  unfold DecodeTwist, TwistMessageSize, TwistMessageSizeLegacy. split.
  - intros H48 H56.
    destruct (Nat.eqb_spec (length data) 56); [contradiction|].
    destruct (Nat.eqb_spec (length data) 48); [contradiction|].
    reflexivity.
  - intros [H|H]; rewrite H; simpl; eexists; reflexivity.
Qed.

(** C6.  Bytes 48..55 written by [EncodeTwist] are the little-endian
    clock reading exactly when the frame's timestamp is zero; a nonzero
    timestamp is written unchanged, reads back as itself, and makes the
    whole encoding independent of the clock. *)
Theorem EncodeTwist_timestamp (now : Z) (f : TwistMessage) :
  (Timestamp f = 0 ->
     slice 48 56 (EncodeTwist now f) = PutUint64 (to_uint64 now)) /\
  (Timestamp f <> 0 ->
     slice 48 56 (EncodeTwist now f) = PutUint64 (Timestamp f) /\
     (is_uint64 (Timestamp f) ->
        Uint64 (slice 48 56 (EncodeTwist now f)) = Timestamp f) /\
     forall now', EncodeTwist now' f = EncodeTwist now f).
Proof.
  rewrite slice_timestamp. split.
  - intros H. unfold encoded_timestamp. rewrite H. reflexivity.
  - intros H. rewrite encoded_timestamp_nonzero by assumption.
    split; [reflexivity|]. split.
    + intros Hr. apply Uint64_PutUint64_id. exact Hr.
    + intros now'. unfold EncodeTwist.
      rewrite !encoded_timestamp_nonzero by assumption. reflexivity.
Qed.

End CodecProperties.

(* ===================================================================== *)
(** ** The fan-out loops *)
(* ===================================================================== *)

Section FanoutFacts.

Lemma enqueue_or_drop_room k c data w n :
  has_room c = true ->
  WSManager.enqueue_or_drop k c data (w, n)
  = (deliver (socket_delivery data (k, c))
       (set_dataClients (insert k (enqueued data c)) w), n + 1).
Proof.
  unfold has_room, WSManager.enqueue_or_drop, Chan.try_send.
  intros ->. reflexivity.
Qed.

Lemma enqueue_or_drop_full k c data w n :
  has_room c = false ->
  WSManager.enqueue_or_drop k c data (w, n)
  = (log (LogSendBufferFull (WSClient.ID c)) w, n).
Proof.
  unfold has_room, WSManager.enqueue_or_drop, Chan.try_send.
  intros ->. reflexivity.
Qed.

(** The loop over any list of records, from any accumulator. *)
Lemma select_loop sel data l : forall w n,
  let r := fold_left (select_step sel data) l (w, n) in
  peers (fst r) = peers w /\
  stats (fst r) = stats w /\
  wiring (fst r) = wiring w /\
  wire (fst r)
    = wire w ++ List.map (socket_delivery data) (List.filter (taken sel) l) /\
  logs (fst r)
    = logs w ++ List.map (fun kc => LogSendBufferFull (WSClient.ID (snd kc)))
                         (List.filter (dropped sel) l) /\
  snd r = n + Z.of_nat (length (List.filter (taken sel) l)) /\
  dataClients (fst r)
    = fold_left (store_enqueued data) (List.filter (taken sel) l)
                (dataClients w).
Proof.
  induction l as [|[k c] l IH]; intros w n.
  - cbn. rewrite !app_nil_r. repeat split; lia.
  - cbn [fold_left List.filter].
    destruct (sel c) eqn:Hsel; [destruct (has_room c) eqn:Hroom|].
    + assert (Hstep : select_step sel data (w, n) (k, c)
                = (deliver (socket_delivery data (k, c))
                     (set_dataClients (insert k (enqueued data c)) w), n + 1)).
      { unfold select_step. cbn [fst snd]. rewrite Hsel.
        apply enqueue_or_drop_room. assumption. }
      assert (Ht : taken sel (k, c) = true)
        by (unfold taken; cbn [snd]; rewrite Hsel, Hroom; reflexivity).
      assert (Hd : dropped sel (k, c) = false)
        by (unfold dropped; cbn [snd]; rewrite Hsel, Hroom; reflexivity).
      rewrite Hstep, Ht, Hd.
      destruct (IH (deliver (socket_delivery data (k, c))
                      (set_dataClients (insert k (enqueued data c)) w))
                   (n + 1)) as (H1 & H2 & H3 & H4 & H5 & H6 & H7).
      cbn zeta.
      split; [rewrite H1; reflexivity|].
      split; [rewrite H2; reflexivity|].
      split; [rewrite H3; reflexivity|].
      split; [rewrite H4; cbn [deliver wire List.map];
              rewrite <- app_assoc; reflexivity|].
      split; [rewrite H5; reflexivity|].
      split; [rewrite H6; cbn [length]; lia|].
      rewrite H7; reflexivity.
    + assert (Hstep : select_step sel data (w, n) (k, c)
                = (log (LogSendBufferFull (WSClient.ID c)) w, n)).
      { unfold select_step. cbn [fst snd]. rewrite Hsel.
        apply enqueue_or_drop_full. assumption. }
      assert (Ht : taken sel (k, c) = false)
        by (unfold taken; cbn [snd]; rewrite Hsel, Hroom; reflexivity).
      assert (Hd : dropped sel (k, c) = true)
        by (unfold dropped; cbn [snd]; rewrite Hsel, Hroom; reflexivity).
      rewrite Hstep, Ht, Hd.
      destruct (IH (log (LogSendBufferFull (WSClient.ID c)) w) n)
        as (H1 & H2 & H3 & H4 & H5 & H6 & H7).
      cbn zeta.
      split; [rewrite H1; reflexivity|].
      split; [rewrite H2; reflexivity|].
      split; [rewrite H3; reflexivity|].
      split; [rewrite H4; reflexivity|].
      split; [rewrite H5; cbn [log logs List.map snd];
              rewrite <- app_assoc; reflexivity|].
      split; [rewrite H6; reflexivity|].
      rewrite H7; reflexivity.
    + assert (Hstep : select_step sel data (w, n) (k, c) = (w, n))
        by (unfold select_step; cbn [fst snd]; rewrite Hsel; reflexivity).
      assert (Ht : taken sel (k, c) = false)
        by (unfold taken; cbn [snd]; rewrite Hsel; reflexivity).
      assert (Hd : dropped sel (k, c) = false)
        by (unfold dropped; cbn [snd]; rewrite Hsel; reflexivity).
      rewrite Hstep, Ht, Hd. apply IH.
Qed.

Lemma filter_keys_NoDup {A} (P : string * A -> bool) (l : list (string * A)) :
  NoDup (List.map fst l) -> NoDup (List.map fst (List.filter P l)).
Proof.
  induction l as [|a l IH]; cbn; intros Hnd; [constructor|].
  apply NoDup_cons in Hnd as [Hnotin Hnd].
  destruct (P a); cbn; [|auto].
  apply NoDup_cons. split; [|auto].
  intros Hin. apply Hnotin.
  apply list_elem_of_In in Hin. apply list_elem_of_In.
  apply in_map_iff in Hin as (x & Hx & Hin).
  apply filter_In in Hin as [Hin _].
  apply in_map_iff. exists x. auto.
Qed.

Lemma store_fold_lookup data (l : list (string * WSClient.t)) :
  NoDup (List.map fst l) ->
  forall m0,
    (forall k c, In (k, c) l ->
       fold_left (store_enqueued data) l m0 !! k = Some (enqueued data c)) /\
    (forall k, ~ In k (List.map fst l) ->
       fold_left (store_enqueued data) l m0 !! k = m0 !! k).
Proof.
  induction l as [|[k1 c1] l IH]; intros Hnd m0.
  - split; [intros k c []|reflexivity].
  - cbn [List.map fst] in Hnd. apply NoDup_cons in Hnd as [Hnotin Hnd].
    rewrite list_elem_of_In in Hnotin.
    destruct (IH Hnd (store_enqueued data m0 (k1, c1))) as [IHin IHout].
    cbn [fold_left]. split.
    + intros k c [Heq|Hin].
      * inversion Heq; subst k1 c1.
        rewrite IHout by assumption.
        unfold store_enqueued. cbn [fst snd]. apply lookup_insert_eq.
      * apply IHin. assumption.
    + intros k Hk. cbn [List.map fst] in Hk.
      rewrite IHout by (intros H; apply Hk; right; exact H).
      unfold store_enqueued. cbn [fst snd].
      apply lookup_insert_ne. intros ->. apply Hk. left. reflexivity.
Qed.

(** Pointwise effect of a loop on the registry it ranges over. *)
Lemma fanout_lookup sel data (m : gmap string WSClient.t) k :
  fold_left (store_enqueued data)
            (List.filter (taken sel) (map_to_list m)) m !! k
  = after_fanout sel data <$> m !! k.
Proof.
  pose proof (NoDup_fst_map_to_list m) as Hnd.
  apply (filter_keys_NoDup (taken sel)) in Hnd.
  destruct (store_fold_lookup data _ Hnd m) as [Hin Hout].
  destruct (m !! k) as [c|] eqn:Hk; cbn.
  - unfold after_fanout.
    destruct (sel c && has_room c) eqn:Hsel.
    + apply Hin. apply filter_In. split.
      * apply list_elem_of_In, elem_of_map_to_list. exact Hk.
      * exact Hsel.
    + rewrite Hout; [exact Hk|].
      intros H. apply in_map_iff in H as ([k' c'] & Hfst & H).
      cbn in Hfst. subst k'.
      apply filter_In in H as [H Ht].
      apply list_elem_of_In, elem_of_map_to_list in H.
      rewrite Hk in H. inversion H; subst c'.
      unfold taken in Ht. cbn [snd] in Ht. congruence.
  - rewrite Hout; [exact Hk|].
    intros H. apply in_map_iff in H as ([k' c'] & Hfst & H).
    cbn in Hfst. subst k'.
    apply filter_In in H as [H _].
    apply list_elem_of_In, elem_of_map_to_list in H. congruence.
Qed.

(** Membership in the lists a loop takes and drops. *)
Lemma in_taken sel (m : gmap string WSClient.t) k c :
  In (k, c) (List.filter (taken sel) (map_to_list m)) <->
  m !! k = Some c /\ sel c = true /\ has_room c = true.
Proof.
  rewrite filter_In, <- list_elem_of_In, elem_of_map_to_list.
  unfold taken. cbn [snd]. rewrite Bool.andb_true_iff. tauto.
Qed.

Lemma in_dropped sel (m : gmap string WSClient.t) k c :
  In (k, c) (List.filter (dropped sel) (map_to_list m)) <->
  m !! k = Some c /\ sel c = true /\ has_room c = false.
Proof.
  rewrite filter_In, <- list_elem_of_In, elem_of_map_to_list.
  unfold dropped. cbn [snd].
  rewrite Bool.andb_true_iff, Bool.negb_true_iff. tauto.
Qed.

(** [WSManager.BroadcastToType] in closed form. *)
Lemma ws_broadcast_spec target data w :
  let r := WSManager.BroadcastToType target data w in
  let took := List.filter (taken (sel_broadcast target))
                          (map_to_list (dataClients w)) in
  peers (fst r) = peers w /\
  stats (fst r) = stats w /\
  wiring (fst r) = wiring w /\
  wire (fst r) = wire w ++ List.map (socket_delivery data) took /\
  logs (fst r)
    = logs w ++ List.map (fun kc => LogSendBufferFull (WSClient.ID (snd kc)))
                 (List.filter (dropped (sel_broadcast target))
                              (map_to_list (dataClients w))) /\
  snd r = Z.of_nat (length took) /\
  forall k, dataClients (fst r) !! k
            = after_fanout (sel_broadcast target) data <$> dataClients w !! k.
Proof.
  unfold WSManager.BroadcastToType.
  change (WSManager.broadcast_step target data)
    with (select_step (sel_broadcast target) data).
  destruct (select_loop (sel_broadcast target) data
              (map_to_list (dataClients w)) w 0)
    as (H1 & H2 & H3 & H4 & H5 & H6 & H7).
  cbn zeta. repeat split; try assumption.
  intros k. rewrite H7. apply fanout_lookup.
Qed.

(** [WSManager.forwardData] in closed form. *)
Lemma forwardData_spec senderID senderType data w :
  let w' := WSManager.forwardData senderID senderType data w in
  let sel := sel_forward senderID (opposite_socket senderType) in
  let took := List.filter (taken sel) (map_to_list (dataClients w)) in
  peers w' = peers w /\
  wiring w' = wiring w /\
  wire w' = wire w ++ List.map (socket_delivery data) took /\
  logs w'
    = logs w ++ List.map (fun kc => LogSendBufferFull (WSClient.ID (snd kc)))
                 (List.filter (dropped sel) (map_to_list (dataClients w))) /\
  stats w'
    = (if Wiring.ws_router (wiring w) && (0 <? Z.of_nat (length took))
       then RouterStats.addForwarded (Z.of_nat (length took)) (stats w)
       else stats w) /\
  forall k, dataClients w' !! k = after_fanout sel data <$> dataClients w !! k.
Proof.
  unfold WSManager.forwardData.
  change (WSManager.forward_step senderID
            (if String.eqb senderType "python" then "web" else "python") data)
    with (select_step (sel_forward senderID (opposite_socket senderType)) data).
  destruct (select_loop (sel_forward senderID (opposite_socket senderType))
              data (map_to_list (dataClients w)) w 0)
    as (H1 & H2 & H3 & H4 & H5 & H6 & H7).
  cbn zeta in *.
  destruct (fold_left _ _ _) as [w1 n1]. cbn [fst snd] in *.
  rewrite H3, H6. rewrite Z.add_0_l.
  destruct (Wiring.ws_router (wiring w) && _);
    cbn [set_stats peers wiring wire logs stats dataClients];
    (repeat split; try assumption; try congruence;
     intros k; rewrite H7; apply fanout_lookup).
Qed.

Lemma datagram_delivery_peers data w w' peer :
  peers w = peers w' ->
  datagram_delivery data w peer = datagram_delivery data w' peer.
Proof. unfold datagram_delivery. intros ->. reflexivity. Qed.

Lemma pm_broadcast_step data w n peer :
  PeerManager.broadcast_step data (w, n) peer
  = match datagram_delivery data w peer with
    | Some d => (deliver d w, n + 1)
    | None => (w, n)
    end.
Proof.
  unfold PeerManager.broadcast_step, PeerManager.SendToPeer,
    PeerManager.GetPeer, datagram_delivery. cbn [fst snd].
  destruct (peers w !! Peer.ID peer) as [p|]; [|reflexivity].
  destruct (Peer.DataChannel p) as [dc|]; [|reflexivity].
  destruct (DataChannel.ReadyState dc); try reflexivity.
  destruct (DataChannel.SendErr dc); reflexivity.
Qed.

Lemma pm_loop data w0 l : forall w n,
  peers w = peers w0 ->
  let r := fold_left (PeerManager.broadcast_step data) l (w, n) in
  peers (fst r) = peers w /\
  dataClients (fst r) = dataClients w /\
  stats (fst r) = stats w /\
  logs (fst r) = logs w /\
  wiring (fst r) = wiring w /\
  wire (fst r) = wire w ++ omap (datagram_delivery data w0) l /\
  snd r = n + Z.of_nat (length (omap (datagram_delivery data w0) l)).
Proof.
  induction l as [|peer l IH]; intros w n Hp.
  - cbn. rewrite app_nil_r. repeat split; lia.
  - cbn [fold_left]. rewrite pm_broadcast_step.
    rewrite (datagram_delivery_peers data w w0 peer Hp).
    cbn [omap list_omap].
    destruct (datagram_delivery data w0 peer) as [d|].
    + destruct (IH (deliver d w) (n + 1) Hp)
        as (H1 & H2 & H3 & H4 & H5 & H6 & H7).
      cbn zeta.
      split; [rewrite H1; reflexivity|].
      split; [rewrite H2; reflexivity|].
      split; [rewrite H3; reflexivity|].
      split; [rewrite H4; reflexivity|].
      split; [rewrite H5; reflexivity|].
      split; [rewrite H6; cbn [deliver wire];
              rewrite <- app_assoc; reflexivity|].
      rewrite H7. cbn [length]. lia.
    + apply IH. assumption.
Qed.

(** [PeerManager.BroadcastToType] in closed form. *)
Lemma pm_broadcast_spec target data w :
  let r := PeerManager.BroadcastToType target data w in
  let ds := omap (datagram_delivery data w)
                 (PeerManager.GetPeersByType target w) in
  peers (fst r) = peers w /\
  dataClients (fst r) = dataClients w /\
  stats (fst r) = stats w /\
  logs (fst r) = logs w /\
  wiring (fst r) = wiring w /\
  wire (fst r) = wire w ++ ds /\
  snd r = Z.of_nat (length ds).
Proof.
  unfold PeerManager.BroadcastToType.
  destruct (pm_loop data w (PeerManager.GetPeersByType target w) w 0 eq_refl)
    as (H1 & H2 & H3 & H4 & H5 & H6 & H7).
  cbn zeta. repeat split; assumption.
Qed.

Lemma in_GetPeersByType target w peer :
  In peer (PeerManager.GetPeersByType target w) <->
  (exists k, peers w !! k = Some peer) /\ Peer.Type_ peer = target.
Proof.
  unfold PeerManager.GetPeersByType.
  rewrite filter_In, in_map_iff, String.eqb_eq. split.
  - intros [([k p] & Hp & Hin) Ht]. cbn in Hp. subst p.
    split; [|exact Ht]. exists k.
    apply elem_of_map_to_list, list_elem_of_In. exact Hin.
  - intros [[k Hk] Ht]. split; [|exact Ht].
    exists (k, peer). split; [reflexivity|].
    apply list_elem_of_In, elem_of_map_to_list. exact Hk.
Qed.

(** A datagram delivery goes to a registered peer of the target type. *)
Lemma datagram_delivery_role target data w d :
  peers_keyed w ->
  In d (omap (datagram_delivery data w)
             (PeerManager.GetPeersByType target w)) ->
  Delivery.transport d = Datagram /\
  Delivery.to_role d = target /\
  Delivery.payload d = data /\
  exists p, peers w !! Delivery.to_id d = Some p /\ Peer.Type_ p = target.
Proof.
  intros Hkeyed Hin.
  apply list_elem_of_In, list_elem_of_omap in Hin as (peer & Hpeer & Hd).
  apply list_elem_of_In, in_GetPeersByType in Hpeer as [[k Hk] Ht].
  pose proof (Hkeyed k peer Hk) as Hid.
  unfold datagram_delivery in Hd. rewrite Hid, Hk in Hd.
  destruct (Peer.DataChannel peer) as [dc|]; [|discriminate].
  destruct (DataChannel.ReadyState dc); try discriminate.
  destruct (DataChannel.SendErr dc); [discriminate|].
  inversion Hd; subst d. cbn.
  repeat split; try assumption.
  exists peer. rewrite Hid. auto.
Qed.

Lemma in_socket_fanout sel data w d :
  In d (socket_fanout sel data w) <->
  exists k c, dataClients w !! k = Some c /\ sel c = true /\
              has_room c = true /\ d = socket_delivery data (k, c).
Proof.
  unfold socket_fanout. rewrite in_map_iff. split.
  - intros ([k c] & Hd & Hin). apply in_taken in Hin as (H1 & H2 & H3).
    exists k, c. auto.
  - intros (k & c & H1 & H2 & H3 & Hd). exists (k, c).
    split; [auto|]. apply in_taken. auto.
Qed.

Lemma socket_fanout_nil sel data w :
  (forall k c, dataClients w !! k = Some c -> sel c = false) ->
  socket_fanout sel data w = [].
Proof.
  intros H. destruct (socket_fanout sel data w) as [|d l] eqn:E; [reflexivity|].
  assert (Hin : In d (socket_fanout sel data w)) by (rewrite E; left; reflexivity).
  apply in_socket_fanout in Hin as (k & c & Hk & Hsel & _).
  rewrite (H k c Hk) in Hsel. discriminate.
Qed.

Lemma datagram_fanout_nil target data w :
  (forall k p, peers w !! k = Some p -> Peer.Type_ p <> target) ->
  datagram_fanout target data w = [].
Proof.
  intros H. unfold datagram_fanout.
  destruct (PeerManager.GetPeersByType target w) as [|p l] eqn:E;
    [reflexivity|].
  assert (Hin : In p (PeerManager.GetPeersByType target w))
    by (rewrite E; left; reflexivity).
  apply in_GetPeersByType in Hin as [[k Hk] Ht].
  exfalso. exact (H k p Hk Ht).
Qed.

Lemma socket_fanout_ext sel data w w' :
  dataClients w = dataClients w' ->
  socket_fanout sel data w = socket_fanout sel data w'.
Proof. unfold socket_fanout. intros ->. reflexivity. Qed.

Lemma datagram_fanout_ext target data w w' :
  peers w = peers w' ->
  datagram_fanout target data w = datagram_fanout target data w'.
Proof.
  unfold datagram_fanout, PeerManager.GetPeersByType, datagram_delivery.
  intros ->. reflexivity.
Qed.

(** One arm of the router's switch, in closed form. *)
Lemma route_to_spec target kind data w :
  let w' := MessageRouter.route_to target kind data w in
  let dg := datagram_fanout target data w in
  let sk := if Wiring.router_wsManager (wiring w)
            then socket_fanout (sel_broadcast target) data w else [] in
  peers w' = peers w /\
  wiring w' = wiring w /\
  wire w' = wire w ++ dg ++ sk /\
  stats w'
    = (if Wiring.router_wsManager (wiring w)
       then RouterStats.addForwarded (Z.of_nat (length sk))
              (RouterStats.addForwarded (Z.of_nat (length dg)) (stats w))
       else RouterStats.addForwarded (Z.of_nat (length dg)) (stats w)) /\
  forall k, dataClients w' !! k
            = (if Wiring.router_wsManager (wiring w)
               then after_fanout (sel_broadcast target) data <$>
                      dataClients w !! k
               else dataClients w !! k).
Proof.
  unfold MessageRouter.route_to.
  pose proof (pm_broadcast_spec target data w) as Hpm. cbn zeta in Hpm.
  destruct (PeerManager.BroadcastToType target data w) as [w1 sent].
  cbn [fst snd] in Hpm. destruct Hpm as (P1 & P2 & P3 & P4 & P5 & P6 & P7).
  fold (datagram_fanout target data w) in P6, P7.
  cbn [set_stats wiring]. rewrite P5.
  destruct (Wiring.router_wsManager (wiring w)).
  - pose proof (ws_broadcast_spec target data
                  (set_stats (RouterStats.addForwarded sent) w1)) as Hws.
    cbn zeta in Hws.
    destruct (WSManager.BroadcastToType target data _) as [w3 wsSent].
    cbn [fst snd set_stats peers stats wiring wire logs dataClients] in Hws.
    destruct Hws as (S1 & S2 & S3 & S4 & S5 & S6 & S7).
    rewrite P2 in S4, S6, S7.
    fold (socket_fanout (sel_broadcast target) data w) in S4.
    assert (Hlen : length (socket_fanout (sel_broadcast target) data w)
                   = length (List.filter (taken (sel_broadcast target))
                               (map_to_list (dataClients w))))
      by (unfold socket_fanout; apply length_map).
    cbn zeta.
    destruct (0 <? sent + wsSent);
      cbn [log set_stats peers stats wiring wire logs dataClients];
      (split; [congruence|]); (split; [congruence|]);
      (split; [rewrite S4, P6, <- app_assoc; reflexivity|]);
      (split; [rewrite S2, P3, S6, P7, Hlen; reflexivity|]);
      exact S7.
  - cbn zeta.
    destruct (0 <? sent);
      cbn [log set_stats peers stats wiring wire logs dataClients];
      (split; [congruence|]); (split; [congruence|]);
      (split; [rewrite P6, app_nil_r; reflexivity|]);
      (split; [rewrite P3, P7; reflexivity|]);
      intros k; rewrite P2; reflexivity.
Qed.

Lemma HandleMessage_decode_error now from data w e :
  Twist.DecodeTwist data = Twist.Err e ->
  MessageRouter.HandleMessage now from data w
  = set_stats RouterStats.incParseErrors
      (log (LogRouterNonTwist (Peer.ID from) (length data))
           (set_stats RouterStats.incReceived w)).
Proof. unfold MessageRouter.HandleMessage. intros ->. reflexivity. Qed.

Lemma handleBinaryData_decode_error now c data w e :
  Twist.DecodeTwist data = Twist.Err e ->
  WSInbound.handleBinaryData now c data w
  = log (LogWSInvalidTwist (WSClient.ID c) e)
        (if Wiring.ws_router (wiring w)
         then set_stats RouterStats.incReceived w else w).
Proof. unfold WSInbound.handleBinaryData. intros ->. reflexivity. Qed.

(** The datagram inbound path: what reaches the wire and the registries. *)
Lemma HandleMessage_wire now from data w :
  let w' := MessageRouter.HandleMessage now from data w in
  peers w' = peers w /\ wiring w' = wiring w /\
  wire w' = wire w ++ fanned (FromDatagram from data) w.
Proof.
  unfold MessageRouter.HandleMessage, fanned.
  destruct (Twist.DecodeTwist data) as [twist|e].
  2:{ cbn. rewrite app_nil_r. auto. }
  set (w0 := if negb (Twist.IsZero twist) then _ else _).
  assert (H0 : peers w0 = peers w /\ wiring w0 = wiring w /\
               wire w0 = wire w /\ dataClients w0 = dataClients w)
    by (subst w0; destruct (negb _); cbn; auto).
  destruct H0 as (Hp & Hw & Hwire & Hdc).
  assert (Hfan : forall t, router_fanout t data w0 = router_fanout t data w).
  { intros t. unfold router_fanout. rewrite Hw.
    rewrite (datagram_fanout_ext t data w0 w Hp).
    rewrite (socket_fanout_ext _ data w0 w Hdc). reflexivity. }
  assert (Harm : forall t kind,
             let w' := MessageRouter.route_to t kind data w0 in
             peers w' = peers w /\ wiring w' = wiring w /\
             wire w' = wire w ++ router_fanout t data w).
  { intros t kind.
    destruct (route_to_spec t kind data w0) as (R1 & R2 & R3 & _).
    cbn zeta. rewrite R1, R2, R3.
    fold (router_fanout t data w0). rewrite Hfan, Hp, Hw, Hwire. auto. }
  cbn zeta.
  destruct (String.eqb (Peer.Type_ from) PeerTypeWeb); [apply Harm|].
  destruct (String.eqb (Peer.Type_ from) PeerTypePython); [apply Harm|].
  rewrite app_nil_r. auto.
Qed.

(** The socket binary inbound path. *)
Lemma handleBinaryData_wire now c data w :
  let w' := WSInbound.handleBinaryData now c data w in
  peers w' = peers w /\ wiring w' = wiring w /\
  wire w' = wire w ++ fanned (FromSocketBinary c data) w.
Proof.
  unfold WSInbound.handleBinaryData, fanned.
  set (w0 := if Wiring.ws_router (wiring w) then _ else w).
  assert (H0 : peers w0 = peers w /\ wiring w0 = wiring w /\
               wire w0 = wire w /\ dataClients w0 = dataClients w)
    by (subst w0; destruct (Wiring.ws_router _); cbn; auto).
  destruct (Twist.DecodeTwist data) as [twist|e].
  2:{ cbn. rewrite app_nil_r. tauto. }
  set (w1 := if negb (Twist.IsZero twist) then _ else w0).
  assert (H1 : peers w1 = peers w /\ wiring w1 = wiring w /\
               wire w1 = wire w /\ dataClients w1 = dataClients w)
    by (subst w1; destruct (negb _); cbn; tauto).
  clearbody w1. clear H0. destruct H1 as (Hp & Hw & Hwire & Hdc).
  destruct (forwardData_spec (WSClient.ID c) (WSClient.PeerType c) data w1)
    as (F1 & F2 & F3 & _).
  set (w2 := WSManager.forwardData _ _ data w1) in *.
  fold (socket_fanout
          (sel_forward (WSClient.ID c) (opposite_socket (WSClient.PeerType c)))
          data w1) in F3.
  rewrite (socket_fanout_ext _ data w1 w Hdc) in F3.
  rewrite F2, Hw.
  destruct (Wiring.ws_peerManager (wiring w)).
  2:{ cbn zeta. rewrite app_nil_r. split; [congruence|]. split; congruence. }
  fold (opposite_bridge (WSClient.PeerType c)).
  pose proof (pm_broadcast_spec (opposite_bridge (WSClient.PeerType c))
                data w2) as Hpm.
  cbn zeta in Hpm.
  destruct (PeerManager.BroadcastToType _ data w2) as [w3 sent].
  cbn [fst snd] in Hpm. destruct Hpm as (P1 & P2 & P3 & P4 & P5 & P6 & P7).
  fold (datagram_fanout (opposite_bridge (WSClient.PeerType c)) data w2) in P6.
  rewrite (datagram_fanout_ext _ data w2 w) in P6 by congruence.
  cbn zeta.
  destruct (0 <? sent); [|split; [congruence|]; split; [congruence|];
                          rewrite P6, F3, Hwire, <- app_assoc; reflexivity].
  cbn [log wiring]. rewrite P5, F2, Hw.
  destruct (Wiring.ws_router (wiring w));
    cbn [log set_stats peers wiring wire];
    (split; [congruence|]); (split; [congruence|]);
    rewrite P6, F3, Hwire, <- app_assoc; reflexivity.
Qed.

(** The JSON inbound path. *)
Lemma handleDataMessage_wire now c msg w w' :
  WSInbound.handleDataMessage now c msg w = Some w' ->
  peers w' = peers w /\ wiring w' = wiring w /\ stats w' =
    (if String.eqb (DataMessage.Type_ msg) "twist"
     then stats (WSManager.forwardData (WSClient.ID c) (WSClient.PeerType c)
                                       (DataMessage.Data msg) w)
     else stats w) /\
  wire w' = wire w ++ fanned (FromSocketJson c msg) w.
Proof.
  unfold WSInbound.handleDataMessage, fanned.
  destruct (String.eqb (DataMessage.Type_ msg) "twist").
  - intros H. inversion H; subst w'.
    destruct (forwardData_spec (WSClient.ID c) (WSClient.PeerType c)
                (DataMessage.Data msg) w) as (F1 & F2 & F3 & _).
    auto.
  - destruct (String.eqb (DataMessage.Type_ msg) "ping").
    + destruct (dataClients w !! WSClient.ID c) as [c0|].
      * destruct (Chan.try_send _ _); [|discriminate].
        intros H. inversion H; subst w'. cbn. rewrite app_nil_r. auto.
      * intros H. inversion H; subst w'. rewrite app_nil_r. auto.
    + intros H. inversion H; subst w'. cbn. rewrite app_nil_r. auto.
Qed.

(** Every entry point appends exactly [fanned] to the wire. *)
Lemma route_wire now i w w' :
  route now i w = Some w' ->
  peers w' = peers w /\ wiring w' = wiring w /\
  wire w' = wire w ++ fanned i w.
Proof.
  destruct i as [from data|c data|c msg]; cbn [route]; intros H.
  - inversion H; subst w'. apply HandleMessage_wire.
  - inversion H; subst w'. apply handleBinaryData_wire.
  - apply handleDataMessage_wire in H as (H1 & H2 & _ & H4). auto.
Qed.

Lemma opposite_socket_neq r : opposite_socket r <> r.
Proof.
  unfold opposite_socket.
  destruct (String.eqb_spec r "python") as [->|Hne]; [discriminate|].
  intros H. apply Hne. symmetry. exact H.
Qed.

Lemma opposite_bridge_neq r : opposite_bridge r <> r.
Proof.
  unfold opposite_bridge.
  destruct (String.eqb_spec r "web") as [->|Hne]; [discriminate|].
  intros H. apply Hne. symmetry. exact H.
Qed.

Lemma in_router_fanout target data w d :
  peers_keyed w ->
  In d (router_fanout target data w) ->
  Delivery.payload d = data /\ Delivery.to_role d = target.
Proof.
  intros Hk Hin. unfold router_fanout in Hin.
  apply in_app_or in Hin as [Hin|Hin].
  - apply (datagram_delivery_role target data w d Hk) in Hin. tauto.
  - destruct (Wiring.router_wsManager (wiring w)); [|destruct Hin].
    apply in_socket_fanout in Hin as (k & c & _ & Hsel & _ & ->).
    unfold sel_broadcast in Hsel. apply String.eqb_eq in Hsel.
    cbn. auto.
Qed.

Lemma in_forward_fanout senderID senderType data w d :
  In d (socket_fanout (sel_forward senderID (opposite_socket senderType))
                      data w) ->
  Delivery.payload d = data /\ Delivery.transport d = Socket /\
  Delivery.to_role d = opposite_socket senderType /\
  Delivery.to_id d <> senderID.
Proof.
  intros Hin.
  apply in_socket_fanout in Hin as (k & c & _ & Hsel & _ & ->).
  unfold sel_forward in Hsel.
  apply Bool.andb_true_iff in Hsel as [Hid Hty].
  apply Bool.negb_true_iff, String.eqb_neq in Hid.
  apply String.eqb_eq in Hty. cbn. auto.
Qed.

(** Where the frames of one inbound frame go. *)
Lemma fanned_delivered_as i w d :
  peers_keyed w -> In d (fanned i w) -> delivered_as i d.
Proof.
  intros Hk. destruct i as [from data|c data|c msg]; cbn [fanned delivered_as].
  - destruct (Twist.DecodeTwist data); [|intros []].
    destruct (String.eqb_spec (Peer.Type_ from) PeerTypeWeb) as [Hw|_].
    { intros Hin. apply in_router_fanout in Hin as [? ?]; auto. }
    destruct (String.eqb_spec (Peer.Type_ from) PeerTypePython) as [Hp|_].
    { intros Hin. apply in_router_fanout in Hin as [? ?]; auto. }
    intros [].
  - destruct (Twist.DecodeTwist data); [|intros []].
    intros Hin. apply in_app_or in Hin as [Hin|Hin].
    + apply in_forward_fanout in Hin as (? & ? & ? & ?); auto.
    + destruct (Wiring.ws_peerManager (wiring w)); [|destruct Hin].
      apply (datagram_delivery_role _ data w d Hk) in Hin
        as (? & ? & ? & _). auto.
  - destruct (String.eqb_spec (DataMessage.Type_ msg) "twist"); [|intros []].
    intros Hin. apply in_forward_fanout in Hin as (? & ? & ? & ?); auto.
Qed.

Lemma delivered_as_role i d :
  delivered_as i d -> Delivery.to_role d <> origin_role i.
Proof.
  destruct i as [from data|c data|c msg]; cbn [delivered_as origin_role].
  - intros [_ [[Hf Hd]|[Hf Hd]]]; rewrite Hf, Hd; discriminate.
  - intros [_ [(_ & Hd & _)|(_ & Hd)]]; rewrite Hd.
    + apply opposite_socket_neq.
    + apply opposite_bridge_neq.
  - intros (_ & _ & _ & Hd & _). rewrite Hd. apply opposite_socket_neq.
Qed.

(** With only peers of the origin's role registered nothing is sent. *)
Lemma fanned_same_role i w :
  all_of_role (origin_role i) w -> fanned i w = [].
Proof.
  intros [Hpeers Hclients].
  assert (Hsock : forall senderID data,
             socket_fanout (sel_forward senderID
                              (opposite_socket (origin_role i))) data w = []).
  { intros senderID data. apply socket_fanout_nil. intros k c Hc.
    unfold sel_forward. rewrite (Hclients k c Hc).
    destruct (String.eqb_spec (origin_role i)
                (opposite_socket (origin_role i))) as [He|_].
    - symmetry in He. destruct (opposite_socket_neq _ He).
    - apply Bool.andb_false_r. }
  assert (Hdg : forall t data, t <> origin_role i ->
                               datagram_fanout t data w = []).
  { intros t data Ht. apply datagram_fanout_nil. intros k p Hp.
    rewrite (Hpeers k p Hp). auto. }
  assert (Hbc : forall t data, t <> origin_role i ->
                               socket_fanout (sel_broadcast t) data w = []).
  { intros t data Ht. apply socket_fanout_nil. intros k c Hc.
    unfold sel_broadcast. rewrite (Hclients k c Hc).
    apply String.eqb_neq. auto. }
  assert (Hrt : forall t data, t <> origin_role i ->
                               router_fanout t data w = []).
  { intros t data Ht. unfold router_fanout.
    rewrite Hdg, Hbc by assumption.
    destruct (Wiring.router_wsManager _); reflexivity. }
  destruct i as [from data|c data|c msg]; cbn [fanned origin_role] in *.
  - destruct (Twist.DecodeTwist data); [|reflexivity].
    destruct (String.eqb_spec (Peer.Type_ from) PeerTypeWeb) as [Hw|_].
    { apply Hrt. rewrite Hw. discriminate. }
    destruct (String.eqb_spec (Peer.Type_ from) PeerTypePython) as [Hp|_].
    { apply Hrt. rewrite Hp. discriminate. }
    reflexivity.
  - destruct (Twist.DecodeTwist data); [|reflexivity].
    rewrite Hsock, Hdg by apply opposite_bridge_neq.
    destruct (Wiring.ws_peerManager _); reflexivity.
  - destruct (String.eqb _ "twist"); [apply Hsock|reflexivity].
Qed.

Lemma addForwarded_zero st :
  Word.is_uint64 (RouterStats.MessagesForwarded st) ->
  RouterStats.MessagesForwarded (RouterStats.addForwarded 0 st)
  = RouterStats.MessagesForwarded st.
Proof.
  intros H. unfold RouterStats.addForwarded, Word.add64, Word.to_uint64.
  cbn [RouterStats.MessagesForwarded].
  rewrite Z.mod_0_l, Z.add_0_r by lia. apply Z.mod_small. exact H.
Qed.

Lemma socket_fanout_length sel data w :
  length (List.filter (taken sel) (map_to_list (dataClients w)))
  = length (socket_fanout sel data w).
Proof. unfold socket_fanout. symmetry. apply length_map. Qed.

(** [forwardData] leaves the counters alone when it enqueues nothing. *)
Lemma forwardData_stats_nil senderID senderType data w :
  socket_fanout (sel_forward senderID (opposite_socket senderType)) data w
    = [] ->
  stats (WSManager.forwardData senderID senderType data w) = stats w.
Proof.
  intros Hnil.
  destruct (forwardData_spec senderID senderType data w)
    as (_ & _ & _ & _ & Hs & _).
  rewrite Hs, (socket_fanout_length _ data), Hnil. cbn [length].
  rewrite Bool.andb_false_r. reflexivity.
Qed.

(** The forwarded counter does not move when nothing was handed out. *)
Lemma route_forwarded_unchanged now i w w' :
  route now i w = Some w' ->
  fanned i w = [] ->
  Word.is_uint64 (RouterStats.MessagesForwarded (stats w)) ->
  RouterStats.MessagesForwarded (stats w')
  = RouterStats.MessagesForwarded (stats w).
Proof.
  intros Hroute Hnil Hwf.
  destruct i as [from data|c data|c msg]; cbn [route fanned] in *.
  - inversion Hroute; subst w'; clear Hroute.
    unfold MessageRouter.HandleMessage.
    destruct (Twist.DecodeTwist data) as [twist|e]; [|reflexivity].
    set (w0 := if negb (Twist.IsZero twist) then _ else _).
    assert (H0 : peers w0 = peers w /\ wiring w0 = wiring w /\
                 dataClients w0 = dataClients w /\
                 RouterStats.MessagesForwarded (stats w0)
                 = RouterStats.MessagesForwarded (stats w))
      by (subst w0; destruct (negb _); cbn; auto).
    clearbody w0. destruct H0 as (Hp & Hw & Hdc & Hmf).
    assert (Harm : forall t kind,
               router_fanout t data w = [] ->
               RouterStats.MessagesForwarded
                 (stats (MessageRouter.route_to t kind data w0))
               = RouterStats.MessagesForwarded (stats w)).
    { intros t kind Hfan. unfold router_fanout in Hfan.
      apply app_eq_nil in Hfan as [Hdg Hsk].
      destruct (route_to_spec t kind data w0) as (_ & _ & _ & Hs & _).
      rewrite Hs, Hw.
      rewrite (datagram_fanout_ext t data w0 w Hp), Hdg.
      rewrite (socket_fanout_ext _ data w0 w Hdc).
      destruct (Wiring.router_wsManager (wiring w)).
      - rewrite Hsk. cbn [length Z.of_nat].
        rewrite !addForwarded_zero; [exact Hmf| |];
          rewrite ?addForwarded_zero; rewrite Hmf; exact Hwf.
      - cbn [length Z.of_nat].
        rewrite addForwarded_zero; [exact Hmf|]. rewrite Hmf. exact Hwf. }
    destruct (String.eqb (Peer.Type_ from) PeerTypeWeb); [auto|].
    destruct (String.eqb (Peer.Type_ from) PeerTypePython); [auto|].
    exact Hmf.
  - inversion Hroute; subst w'; clear Hroute.
    unfold WSInbound.handleBinaryData.
    set (w0 := if Wiring.ws_router (wiring w) then _ else w).
    assert (H0 : peers w0 = peers w /\ wiring w0 = wiring w /\
                 dataClients w0 = dataClients w /\
                 RouterStats.MessagesForwarded (stats w0)
                 = RouterStats.MessagesForwarded (stats w))
      by (subst w0; destruct (Wiring.ws_router _); cbn; auto).
    destruct (Twist.DecodeTwist data) as [twist|e]; [|cbn; tauto].
    set (w1 := if negb (Twist.IsZero twist) then _ else w0).
    assert (H1 : peers w1 = peers w /\ wiring w1 = wiring w /\
                 dataClients w1 = dataClients w /\
                 RouterStats.MessagesForwarded (stats w1)
                 = RouterStats.MessagesForwarded (stats w))
      by (subst w1; destruct (negb _); cbn; tauto).
    clearbody w1. clear H0. destruct H1 as (Hp & Hw & Hdc & Hmf).
    apply app_eq_nil in Hnil as [Hsk Hdg].
    destruct (forwardData_spec (WSClient.ID c) (WSClient.PeerType c) data w1)
      as (F1 & F2 & _).
    pose proof (forwardData_stats_nil (WSClient.ID c) (WSClient.PeerType c)
                  data w1) as Fs.
    rewrite (socket_fanout_ext _ data w1 w Hdc) in Fs.
    specialize (Fs Hsk).
    set (w2 := WSManager.forwardData _ _ data w1) in *.
    rewrite F2, Hw.
    destruct (Wiring.ws_peerManager (wiring w)); [|congruence].
    fold (opposite_bridge (WSClient.PeerType c)).
    pose proof (pm_broadcast_spec (opposite_bridge (WSClient.PeerType c))
                  data w2) as Hpm.
    cbn zeta in Hpm.
    destruct (PeerManager.BroadcastToType _ data w2) as [w3 sent].
    cbn [fst snd] in Hpm. destruct Hpm as (_ & _ & P3 & _ & _ & _ & P7).
    fold (datagram_fanout (opposite_bridge (WSClient.PeerType c)) data w2)
      in P7.
    rewrite (datagram_fanout_ext _ data w2 w) in P7 by congruence.
    rewrite Hdg in P7. cbn in P7. subst sent.
    change (0 <? Z.of_nat 0) with false. cbv iota. rewrite P3, Fs. exact Hmf.
  - destruct (handleDataMessage_wire now c msg w w' Hroute)
      as (_ & _ & Hs & _).
    rewrite Hs.
    destruct (String.eqb (DataMessage.Type_ msg) "twist"); [|reflexivity].
    rewrite forwardData_stats_nil by assumption. reflexivity.
Qed.

(** Every delivery goes to a record that is registered under the
    delivery's transport, id and role. *)
Lemma fanned_registered i w d :
  peers_keyed w -> In d (fanned i w) -> registered w d.
Proof.
  intros Hk.
  assert (Hsock : forall sel data,
             In d (socket_fanout sel data w) -> registered w d).
  { intros sel data Hin.
    apply in_socket_fanout in Hin as (k & c & Hc & _ & Hroom & ->).
    unfold registered. cbn. exists k, c. auto. }
  assert (Hdg : forall t data,
             In d (datagram_fanout t data w) -> registered w d).
  { intros t data Hin.
    apply (datagram_delivery_role t data w d Hk) in Hin
      as (Ht & Hr & _ & p & Hp & Hty).
    unfold registered. rewrite Ht. exists p. split; [exact Hp|congruence]. }
  assert (Hrt : forall t data,
             In d (router_fanout t data w) -> registered w d).
  { intros t data Hin. unfold router_fanout in Hin.
    apply in_app_or in Hin as [Hin|Hin]; [exact (Hdg _ _ Hin)|].
    destruct (Wiring.router_wsManager _);
      [exact (Hsock _ _ Hin)|destruct Hin]. }
  destruct i as [from data|c data|c msg]; cbn [fanned].
  - destruct (Twist.DecodeTwist data); [|intros []].
    destruct (String.eqb _ PeerTypeWeb); [apply Hrt|].
    destruct (String.eqb _ PeerTypePython); [apply Hrt|intros []].
  - destruct (Twist.DecodeTwist data); [|intros []].
    intros Hin. apply in_app_or in Hin as [Hin|Hin];
      [exact (Hsock _ _ Hin)|].
    destruct (Wiring.ws_peerManager _); [exact (Hdg _ _ Hin)|destruct Hin].
  - destruct (String.eqb _ "twist"); [apply Hsock|intros []].
Qed.

(** The socket registry after each inbound path. *)
Lemma HandleMessage_clients now from data w k :
  exists target,
    dataClients (MessageRouter.HandleMessage now from data w) !! k
    = dataClients w !! k \/
    (Peer.Type_ from <> target /\
     dataClients (MessageRouter.HandleMessage now from data w) !! k
     = after_fanout (sel_broadcast target) data <$> dataClients w !! k).
Proof.
  unfold MessageRouter.HandleMessage.
  destruct (Twist.DecodeTwist data) as [twist|e];
    [|exists ""; left; reflexivity].
  set (w0 := if negb (Twist.IsZero twist) then _ else _).
  assert (H0 : wiring w0 = wiring w /\ dataClients w0 = dataClients w)
    by (subst w0; destruct (negb _); cbn; auto).
  clearbody w0. destruct H0 as (Hw & Hdc).
  assert (Harm : forall t kind,
             dataClients (MessageRouter.route_to t kind data w0) !! k
             = dataClients w !! k \/
             dataClients (MessageRouter.route_to t kind data w0) !! k
             = after_fanout (sel_broadcast t) data <$> dataClients w !! k).
  { intros t kind.
    destruct (route_to_spec t kind data w0) as (_ & _ & _ & _ & Hc).
    rewrite Hc, Hdc. destruct (Wiring.router_wsManager _); auto. }
  destruct (String.eqb_spec (Peer.Type_ from) PeerTypeWeb) as [He|_].
  { exists PeerTypePython.
    destruct (Harm PeerTypePython "Python"); [left|right]; auto.
    split; [rewrite He; discriminate|assumption]. }
  destruct (String.eqb_spec (Peer.Type_ from) PeerTypePython) as [He|_].
  { exists PeerTypeWeb.
    destruct (Harm PeerTypeWeb "web"); [left|right]; auto.
    split; [rewrite He; discriminate|assumption]. }
  exists "". left. rewrite Hdc. reflexivity.
Qed.

Lemma handleBinaryData_clients now c data w k :
  dataClients (WSInbound.handleBinaryData now c data w) !! k
  = match Twist.DecodeTwist data with
    | Twist.Ok _ =>
        after_fanout
          (sel_forward (WSClient.ID c) (opposite_socket (WSClient.PeerType c)))
          data <$> dataClients w !! k
    | Twist.Err _ => dataClients w !! k
    end.
Proof.
  unfold WSInbound.handleBinaryData.
  set (w0 := if Wiring.ws_router (wiring w) then _ else w).
  assert (H0 : dataClients w0 = dataClients w)
    by (subst w0; destruct (Wiring.ws_router _); reflexivity).
  destruct (Twist.DecodeTwist data) as [twist|e]; [|cbn; congruence].
  set (w1 := if negb (Twist.IsZero twist) then _ else w0).
  assert (H1 : dataClients w1 = dataClients w)
    by (subst w1; destruct (negb _); cbn; congruence).
  clearbody w1. clear H0.
  destruct (forwardData_spec (WSClient.ID c) (WSClient.PeerType c) data w1)
    as (_ & _ & _ & _ & _ & Fc).
  set (w2 := WSManager.forwardData _ _ data w1) in *.
  rewrite <- H1, <- Fc.
  destruct (Wiring.ws_peerManager (wiring w2)); [|reflexivity].
  pose proof (pm_broadcast_spec
                (if String.eqb (WSClient.PeerType c) "web"
                 then PeerTypePython else PeerTypeWeb) data w2) as Hpm.
  cbn zeta in Hpm.
  destruct (PeerManager.BroadcastToType _ data w2) as [w3 sent].
  cbn [fst snd] in Hpm. destruct Hpm as (_ & P2 & _).
  destruct (0 <? sent); [|congruence].
  cbn [log wiring]. destruct (Wiring.ws_router (wiring w3));
    cbn [log set_stats dataClients]; congruence.
Qed.

End FanoutFacts.

(* ===================================================================== *)
(** ** Properties of the router *)
(* ===================================================================== *)

Section RouterProperties.
Import Word Twist.

Lemma handleDataMessage_twist now c msg w :
  DataMessage.Type_ msg = "twist" ->
  WSInbound.handleDataMessage now c msg w
  = Some (WSManager.forwardData (WSClient.ID c) (WSClient.PeerType c)
                                (DataMessage.Data msg) w).
Proof. unfold WSInbound.handleDataMessage. intros ->. reflexivity. Qed.

Lemma sel_forward_self senderID target c :
  WSClient.ID c = senderID -> sel_forward senderID target c = false.
Proof.
  intros H. unfold sel_forward. rewrite H, String.eqb_refl. reflexivity.
Qed.

(** C1 (as the code has it).  A frame that fails decoding is counted and
    dropped: [HandleMessage] increments the received and the parse-error
    counters, the socket binary path increments the received counter only
    and logs the frame, and on both paths nothing is handed to any
    transport, no buffer changes and the forwarded counter stays. *)
Theorem decode_failure_drops_frame (now : Z) (data : bytes) (e : error) :
  DecodeTwist data = Err e ->
  (forall from w,
     let w' := MessageRouter.HandleMessage now from data w in
     RouterStats.MessagesReceived (stats w')
       = add64 (RouterStats.MessagesReceived (stats w)) 1 /\
     RouterStats.ParseErrors (stats w')
       = add64 (RouterStats.ParseErrors (stats w)) 1 /\
     RouterStats.MessagesForwarded (stats w')
       = RouterStats.MessagesForwarded (stats w) /\
     wire w' = wire w /\ peers w' = peers w /\
     dataClients w' = dataClients w) /\
  (forall c w,
     let w' := WSInbound.handleBinaryData now c data w in
     RouterStats.MessagesReceived (stats w')
       = (if Wiring.ws_router (wiring w)
          then add64 (RouterStats.MessagesReceived (stats w)) 1
          else RouterStats.MessagesReceived (stats w)) /\
     RouterStats.ParseErrors (stats w') = RouterStats.ParseErrors (stats w) /\
     RouterStats.MessagesForwarded (stats w')
       = RouterStats.MessagesForwarded (stats w) /\
     logs w' = logs w ++ [LogWSInvalidTwist (WSClient.ID c) e] /\
     wire w' = wire w /\ peers w' = peers w /\
     dataClients w' = dataClients w).
Proof.
  intros Herr. split.
  - intros from w. cbn zeta.
    rewrite (HandleMessage_decode_error now from data w e Herr).
    cbn. repeat split; reflexivity.
  - intros c w. cbn zeta.
    rewrite (handleBinaryData_decode_error now c data w e Herr).
    destruct (Wiring.ws_router (wiring w)); cbn; repeat split; reflexivity.
Qed.

(** C2.  Whatever enters the relay, every peer that is handed the frame
    is a registered peer whose role differs from the origin's: a web
    origin reaches python peers only and a python origin web peers only.
    When every registered peer has the origin's role nothing is handed
    out and the forwarded counter does not move. *)
Theorem cross_role_delivery (now : Z) (i : Inbound) (w w' : World) :
  peers_keyed w ->
  route now i w = Some w' ->
  wire w' = wire w ++ fanned i w /\
  (forall d, In d (fanned i w) ->
     registered w d /\ Delivery.to_role d <> origin_role i) /\
  (origin_role i = PeerTypeWeb ->
     forall d, In d (fanned i w) -> Delivery.to_role d = PeerTypePython) /\
  (origin_role i = PeerTypePython ->
     forall d, In d (fanned i w) -> Delivery.to_role d = PeerTypeWeb) /\
  (all_of_role (origin_role i) w ->
   is_uint64 (RouterStats.MessagesForwarded (stats w)) ->
   fanned i w = [] /\ wire w' = wire w /\
   RouterStats.MessagesForwarded (stats w')
     = RouterStats.MessagesForwarded (stats w)).
Proof.
  intros Hk Hroute.
  destruct (route_wire now i w w' Hroute) as (_ & _ & Hwire).
  split; [exact Hwire|]. split; [|split; [|split]].
  - intros d Hin. split.
    + apply (fanned_registered i w d Hk Hin).
    + apply delivered_as_role, (fanned_delivered_as i w d Hk Hin).
  - intros Hrole d Hin.
    pose proof (fanned_delivered_as i w d Hk Hin) as Hd.
    destruct i as [from data|c data|c msg];
      cbn [delivered_as origin_role] in *.
    + destruct Hd as [_ [[_ Hd]|[Hf _]]]; [exact Hd|].
      rewrite Hrole in Hf. discriminate.
    + destruct Hd as [_ [(_ & Hd & _)|(_ & Hd)]];
        rewrite Hd, Hrole; reflexivity.
    + destruct Hd as (_ & _ & _ & Hd & _). rewrite Hd, Hrole. reflexivity.
  - intros Hrole d Hin.
    pose proof (fanned_delivered_as i w d Hk Hin) as Hd.
    destruct i as [from data|c data|c msg];
      cbn [delivered_as origin_role] in *.
    + destruct Hd as [_ [[Hf _]|[_ Hd]]]; [|exact Hd].
      rewrite Hrole in Hf. discriminate.
    + destruct Hd as [_ [(_ & Hd & _)|(_ & Hd)]];
        rewrite Hd, Hrole; reflexivity.
    + destruct Hd as (_ & _ & _ & Hd & _). rewrite Hd, Hrole. reflexivity.
  - intros Hall Hwf.
    pose proof (fanned_same_role i w Hall) as Hnil.
    split; [exact Hnil|]. split.
    + rewrite Hwire, Hnil. apply app_nil_r.
    + apply (route_forwarded_unchanged now i w w' Hroute Hnil Hwf).
Qed.

(** C3.  No entry point hands a frame back to its origin: no delivery
    carries the origin's transport, id and role; on the socket transport
    the sender's id is skipped outright and the sender's own record keeps
    its buffer; on the datagram transport the registry record under the
    origin's id is never a target. *)
Theorem no_delivery_to_origin (now : Z) (i : Inbound) (w w' : World) :
  peers_keyed w ->
  route now i w = Some w' ->
  wire w' = wire w ++ fanned i w /\
  peers w' = peers w /\
  (forall d, In d (fanned i w) ->
     ~ (Delivery.transport d = origin_transport i /\
        Delivery.to_id d = origin_id i /\
        Delivery.to_role d = origin_role i) /\
     (origin_transport i = Socket -> Delivery.transport d = Socket ->
      Delivery.to_id d <> origin_id i) /\
     (origin_transport i = Datagram -> Delivery.transport d = Datagram ->
      (forall p, peers w !! origin_id i = Some p ->
                 Peer.Type_ p = origin_role i) ->
      Delivery.to_id d <> origin_id i)) /\
  (forall c data k c0,
     i = FromSocketBinary c data ->
     dataClients w !! k = Some c0 -> WSClient.ID c0 = WSClient.ID c ->
     dataClients w' !! k = Some c0) /\
  (forall c msg k c0,
     i = FromSocketJson c msg -> DataMessage.Type_ msg = "twist" ->
     dataClients w !! k = Some c0 -> WSClient.ID c0 = WSClient.ID c ->
     dataClients w' !! k = Some c0).
Proof.
  intros Hk Hroute.
  destruct (route_wire now i w w' Hroute) as (Hpeers & _ & Hwire).
  split; [exact Hwire|]. split; [exact Hpeers|]. split; [|split].
  - intros d Hin.
    pose proof (fanned_delivered_as i w d Hk Hin) as Hd.
    pose proof (delivered_as_role i d Hd) as Hrole.
    pose proof (fanned_registered i w d Hk Hin) as Hreg.
    split; [intros (_ & _ & H); exact (Hrole H)|]. split.
    + intros Ho Ht.
      destruct i as [from data|c data|c msg];
        cbn [delivered_as origin_transport origin_id] in *;
        [discriminate| |].
      * destruct Hd as [_ [(_ & _ & Hd)|(Hd & _)]]; [exact Hd|congruence].
      * destruct Hd as (_ & _ & _ & _ & Hd). exact Hd.
    + intros Ho Ht Horigin Heq.
      unfold registered in Hreg. rewrite Ht in Hreg.
      destruct Hreg as (p & Hp & Hty).
      rewrite Heq in Hp. apply Hrole. rewrite <- Hty. apply Horigin, Hp.
  - intros c data k c0 -> Hc0 Hid. cbn [route] in Hroute.
    inversion Hroute; subst w'.
    rewrite handleBinaryData_clients, Hc0.
    destruct (DecodeTwist data); [|reflexivity].
    cbn. unfold after_fanout.
    rewrite sel_forward_self by assumption. reflexivity.
  - intros c msg k c0 -> Hty Hc0 Hid. cbn [route] in Hroute.
    rewrite handleDataMessage_twist in Hroute by assumption.
    inversion Hroute; subst w'.
    destruct (forwardData_spec (WSClient.ID c) (WSClient.PeerType c)
                (DataMessage.Data msg) w) as (_ & _ & _ & _ & _ & Fc).
    rewrite Fc, Hc0. cbn. unfold after_fanout.
    rewrite sel_forward_self by assumption. reflexivity.
Qed.

Lemma has_room_bounded w k c :
  buffers_bounded w -> dataClients w !! k = Some c ->
  has_room c
  = Nat.ltb (length (Chan.buf (WSClient.Send c))) WSManager.sendBufferSize.
Proof.
  intros Hb Hc. destruct (Hb k c Hc) as [Hcap _].
  unfold has_room. rewrite Hcap. reflexivity.
Qed.

Lemma enqueue_policy_intro sel data w w' :
  buffers_bounded w ->
  wire w' = wire w ++ socket_fanout sel data w ->
  logs w' = logs w ++
            List.map (fun kc => LogSendBufferFull (WSClient.ID (snd kc)))
              (List.filter (dropped sel) (map_to_list (dataClients w))) ->
  (forall k, dataClients w' !! k
             = after_fanout sel data <$> dataClients w !! k) ->
  enqueue_policy sel data w w'.
Proof.
  intros Hb Hwire Hlogs Hlook. split.
  - intros k c' Hc'. rewrite Hlook in Hc'.
    destruct (dataClients w !! k) as [c|] eqn:Hc; [|discriminate].
    cbn in Hc'. inversion Hc'; subst c'; clear Hc'.
    destruct (Hb k c Hc) as [Hcap Hlen].
    unfold after_fanout.
    destruct (sel c && has_room c) eqn:Hs; [|auto].
    apply Bool.andb_true_iff in Hs as [_ Hroom].
    unfold has_room in Hroom. apply Nat.ltb_lt in Hroom.
    unfold enqueued. cbn. rewrite length_app. cbn. split; [exact Hcap|lia].
  - eexists _, _. split; [exact Hwire|]. split; [exact Hlogs|].
    intros k c Hc. rewrite Hlook, Hc. cbn. unfold after_fanout.
    rewrite (has_room_bounded w k c Hb Hc).
    split; [intros ->; reflexivity|]. split.
    + intros Hsel Hfull. rewrite Hsel, Hfull. cbn [andb].
      rewrite Nat.ltb_irrefl. split; [reflexivity|].
      apply in_map_iff. exists (k, c). split; [reflexivity|].
      apply in_dropped. split; [exact Hc|]. split; [exact Hsel|].
      rewrite (has_room_bounded w k c Hb Hc), Hfull.
      apply Nat.ltb_irrefl.
    + intros Hsel Hlt. rewrite Hsel. cbn [andb].
      apply Nat.ltb_lt in Hlt. rewrite Hlt. split; [reflexivity|].
      apply in_socket_fanout. exists k, c.
      rewrite (has_room_bounded w k c Hb Hc). auto.
Qed.

Lemma HandleDataWS_ok ty uuid now w :
  WSManager.HandleDataWS true ty uuid now w
  = let peerType := if String.eqb ty "" then "web" else ty in
    log (LogWSClientConnected (short_id uuid) peerType)
      (set_dataClients
         (insert (short_id uuid)
            (WSClient.mk (short_id uuid) peerType
               (Chan.mk [Json (DataMessage.mk "welcome" (short_id uuid)
                                              peerType [] now)]
                        256)))
         w).
Proof. reflexivity. Qed.

Lemma HandleDataWS_bounded ok ty uuid now w :
  buffers_bounded w ->
  buffers_bounded (WSManager.HandleDataWS ok ty uuid now w).
Proof.
  intros Hb. destruct ok; [|exact Hb].
  rewrite HandleDataWS_ok. cbn zeta.
  unfold buffers_bounded. cbn [log set_dataClients dataClients].
  intros k c Hc.
  destruct (decide (short_id uuid = k)) as [<-|Hne].
  - rewrite lookup_insert_eq in Hc. inversion Hc; subst c.
    cbn [WSClient.Send Chan.cap Chan.buf length].
    unfold WSManager.sendBufferSize. split; [reflexivity|lia].
  - rewrite lookup_insert_ne in Hc by assumption. exact (Hb k c Hc).
Qed.

(** C7.  A socket client's buffer is made with capacity 256 and never
    holds more.  Both fan-out loops (total functions: they never wait)
    leave a selected client whose buffer is full exactly as it was and log
    "send buffer full" for it, while every selected client with room gets
    the frame, whatever the state of the other buffers. *)
Theorem send_buffer_policy (data : bytes) (w : World) :
  buffers_bounded w ->
  (forall ok ty uuid now,
     buffers_bounded (WSManager.HandleDataWS ok ty uuid now w) /\
     (ok = true ->
      exists c,
        dataClients (WSManager.HandleDataWS ok ty uuid now w) !! short_id uuid
          = Some c /\
        Chan.cap (WSClient.Send c) = 256%nat)) /\
  (forall senderID senderType,
     enqueue_policy (sel_forward senderID (opposite_socket senderType)) data
       w (WSManager.forwardData senderID senderType data w)) /\
  (forall target,
     enqueue_policy (sel_broadcast target) data
       w (fst (WSManager.BroadcastToType target data w))).
Proof.
  intros Hb. split; [|split].
  - intros ok ty uuid now. split; [apply HandleDataWS_bounded, Hb|].
    intros ->. rewrite HandleDataWS_ok. cbn zeta.
    cbn [log set_dataClients dataClients].
    eexists. rewrite lookup_insert_eq. split; reflexivity.
  - intros senderID senderType.
    destruct (forwardData_spec senderID senderType data w)
      as (_ & _ & F3 & F4 & _ & F6).
    apply enqueue_policy_intro; assumption.
  - intros target.
    destruct (ws_broadcast_spec target data w)
      as (_ & _ & _ & S4 & S5 & _ & S7).
    apply enqueue_policy_intro; assumption.
Qed.

(** C10.  A JSON envelope of type "twist" always returns, and does what
    [forwardData] does with the carried bytes and nothing more: the bytes
    go to socket clients of the opposite type other than the sender, each
    such client with room receives them whether or not they decode as a
    frame, no datagram peer is handed anything, and neither the received
    nor the parse-error counter moves. *)
Theorem json_twist_stays_on_socket
    (now : Z) (c : WSClient.t) (msg : DataMessage.t) (w : World) :
  DataMessage.Type_ msg = "twist" ->
  exists w',
    WSInbound.handleDataMessage now c msg w = Some w' /\
    w' = WSManager.forwardData (WSClient.ID c) (WSClient.PeerType c)
                               (DataMessage.Data msg) w /\
    peers w' = peers w /\
    RouterStats.MessagesReceived (stats w')
      = RouterStats.MessagesReceived (stats w) /\
    RouterStats.ParseErrors (stats w') = RouterStats.ParseErrors (stats w) /\
    exists ds,
      wire w' = wire w ++ ds /\
      (forall d, In d ds ->
         Delivery.transport d = Socket /\
         Delivery.to_role d = opposite_socket (WSClient.PeerType c) /\
         Delivery.to_id d <> WSClient.ID c /\
         Delivery.payload d = DataMessage.Data msg) /\
      (forall k c0,
         dataClients w !! k = Some c0 ->
         WSClient.PeerType c0 = opposite_socket (WSClient.PeerType c) ->
         WSClient.ID c0 <> WSClient.ID c ->
         has_room c0 = true ->
         In (socket_delivery (DataMessage.Data msg) (k, c0)) ds /\
         dataClients w' !! k = Some (enqueued (DataMessage.Data msg) c0)).
Proof.
  intros Hty. eexists. split; [apply handleDataMessage_twist, Hty|].
  split; [reflexivity|].
  destruct (forwardData_spec (WSClient.ID c) (WSClient.PeerType c)
              (DataMessage.Data msg) w) as (F1 & F2 & F3 & F4 & F5 & F6).
  split; [exact F1|].
  split; [rewrite F5; destruct (_ && _); reflexivity|].
  split; [rewrite F5; destruct (_ && _); reflexivity|].
  eexists. split; [exact F3|]. split.
  - intros d Hin.
    fold (socket_fanout (sel_forward (WSClient.ID c)
                           (opposite_socket (WSClient.PeerType c)))
                        (DataMessage.Data msg) w) in Hin.
    apply in_forward_fanout in Hin. tauto.
  - intros k c0 Hc0 Hrole Hid Hroom.
    assert (Hsel : sel_forward (WSClient.ID c)
                     (opposite_socket (WSClient.PeerType c)) c0 = true).
    { unfold sel_forward. rewrite Hrole, String.eqb_refl.
      apply String.eqb_neq in Hid. rewrite Hid. reflexivity. }
    split.
    + apply in_map_iff. exists (k, c0). split; [reflexivity|].
      apply in_taken. auto.
    + rewrite F6, Hc0. cbn. unfold after_fanout.
      rewrite Hsel, Hroom. reflexivity.
Qed.

End RouterProperties.

(* ===================================================================== *)
(** ** Keepalive of a socket data client *)
(* ===================================================================== *)

Section KeepaliveProperties.
Import Keepalive.


Lemma removeDataClient_other id k w :
  k <> id ->
  dataClients (WSManager.removeDataClient id w) !! k = dataClients w !! k.
Proof.
  intros Hne. unfold WSManager.removeDataClient.
  destruct (dataClients w !! id); [|reflexivity].
  cbn. apply lookup_delete_ne. auto.
Qed.


Lemma readLoop_returns c : forall events conn w,
  (forall t msg, In (InText t (Some msg)) events ->
                 DataMessage.Type_ msg <> "ping") ->
  exists r, readLoop c conn events w = Some r.
Proof.
  induction events as [|ev rest IH]; intros conn w Hnp; cbn [readLoop].
  - eauto.
  - assert (Hrest : forall t msg, In (InText t (Some msg)) rest ->
                                  DataMessage.Type_ msg <> "ping")
      by (intros t msg Hin; apply (Hnp t); right; exact Hin).
    destruct (readDeadline conn <? arrival ev); [eauto|].
    destruct ev as [t|t message|t [msg|]|t unexpected]; eauto.
    assert (Hmsg : DataMessage.Type_ msg <> "ping")
      by (apply (Hnp t); left; reflexivity).
    apply String.eqb_neq in Hmsg.
    unfold WSInbound.handleDataMessage. rewrite Hmsg.
    destruct (String.eqb (DataMessage.Type_ msg) "twist"); eauto.
Qed.






End KeepaliveProperties.

(* ===================================================================== *)
(** ** The /offer admission *)
(* ===================================================================== *)

Section SignalingProperties.
Import Signaling.

Lemma RemovePeer_peers id w :
  peers (PeerManager.RemovePeer id w) = delete id (peers w).
Proof.
  unfold PeerManager.RemovePeer.
  destruct (peers w !! id) eqn:H; [reflexivity|].
  symmetry. apply delete_id. exact H.
Qed.

Lemma RemovePeer_rest id w :
  dataClients (PeerManager.RemovePeer id w) = dataClients w /\
  stats (PeerManager.RemovePeer id w) = stats w /\
  wire (PeerManager.RemovePeer id w) = wire w.
Proof.
  unfold PeerManager.RemovePeer. destruct (peers w !! id); auto.
Qed.

(** The state a failed admission leaves behind. *)
Lemma failed_offer_world req env w :
  newPeerConnection env = None ->
  (setRemoteDescription env <> None \/ createAnswer env <> None \/
   setLocalDescription env <> None) ->
  let w' := fst (handleOffer "POST" (inr req) env w) in
  peers w' = delete (short_id (uuid env)) (peers w) /\
  dataClients w' = dataClients w /\ stats w' = stats w /\ wire w' = wire w.
Proof.
  intros Hpc Hfail. unfold handleOffer, PeerManager.CreatePeer.
  rewrite Hpc. cbn [String.eqb Ascii.eqb Bool.eqb negb andb fst snd Peer.ID].
  set (w1 := log _ (set_peers _ w)).
  assert (H1 : delete (short_id (uuid env)) (peers w1)
               = delete (short_id (uuid env)) (peers w))
    by (subst w1; cbn; apply delete_insert_eq).
  assert (H2 : dataClients w1 = dataClients w /\ stats w1 = stats w /\
               wire w1 = wire w) by (subst w1; cbn; auto).
  clearbody w1.
  pose proof (RemovePeer_peers (short_id (uuid env)) w1) as Hp.
  pose proof (RemovePeer_rest (short_id (uuid env)) w1) as (R1 & R2 & R3).
  destruct H2 as (D1 & D2 & D3).
  destruct (setRemoteDescription env);
    [cbn [fst]; repeat split; congruence|].
  destruct (createAnswer env);
    [cbn [fst]; repeat split; congruence|].
  destruct (setLocalDescription env);
    [cbn [fst]; repeat split; congruence|].
  exfalso. destruct Hfail as [H|[H|H]]; apply H; reflexivity.
Qed.

(** The log of a failed admission: the peer is created and then
    removed. *)
Lemma failed_offer_logs req env w :
  newPeerConnection env = None ->
  (setRemoteDescription env <> None \/ createAnswer env <> None \/
   setLocalDescription env <> None) ->
  exists role,
    (role = PeerTypeWeb \/ role = PeerTypePython) /\
    logs (fst (handleOffer "POST" (inr req) env w))
    = logs w ++ [LogPeerCreated (short_id (uuid env)) role;
                 LogPeerRemoved (short_id (uuid env))].
Proof.
  intros Hpc Hfail. unfold handleOffer, PeerManager.CreatePeer.
  rewrite Hpc. cbn [String.eqb Ascii.eqb Bool.eqb negb andb fst snd Peer.ID].
  set (role := if negb (String.eqb (offerPeerType req) PeerTypeWeb) &&
                  negb (String.eqb (offerPeerType req) PeerTypePython)
               then PeerTypeWeb else offerPeerType req).
  assert (Hrole : role = PeerTypeWeb \/ role = PeerTypePython).
  { subst role.
    destruct (String.eqb_spec (offerPeerType req) PeerTypeWeb) as [->|_];
      cbn [negb andb]; [left; reflexivity|].
    destruct (String.eqb_spec (offerPeerType req) PeerTypePython) as [->|_];
      cbn [negb]; [right|left]; reflexivity. }
  exists role. split; [exact Hrole|].
  set (w1 := log _ (set_peers _ w)).
  assert (Hrm : logs (PeerManager.RemovePeer (short_id (uuid env)) w1)
                = logs w ++ [LogPeerCreated (short_id (uuid env)) role;
                             LogPeerRemoved (short_id (uuid env))]).
  { unfold PeerManager.RemovePeer. subst w1. cbn [log set_peers peers].
    rewrite lookup_insert_eq. cbn [log set_peers logs].
    rewrite <- app_assoc. reflexivity. }
  destruct (setRemoteDescription env); [exact Hrm|].
  destruct (createAnswer env); [exact Hrm|].
  destruct (setLocalDescription env); [exact Hrm|].
  exfalso. destruct Hfail as [H|[H|H]]; apply H; reflexivity.
Qed.

(** C9.  Ids are unique: the id drawn for the new peer is not in use.
    When applying the remote description, creating the answer or applying
    the local description fails, the peer that was just created is
    removed again before the error response is returned: the registry is
    the one before the admission, a lookup of the drawn id fails, clients,
    counters and deliveries are untouched, and the log shows the creation
    followed by the removal.  The response is 400 "Invalid SDP offer" for
    the remote description and 500 for the answer and the local
    description, each with an {error, details} body carrying the
    library's message. *)
Theorem failed_offer_removes_peer
    (req : OfferRequest) (env : Admission) (w : World) :
  newPeerConnection env = None ->
  peers w !! short_id (uuid env) = None ->
  (setRemoteDescription env <> None \/ createAnswer env <> None \/
   setLocalDescription env <> None) ->
  let r := handleOffer "POST" (inr req) env w in
  peers (fst r) = peers w /\
  PeerManager.GetPeer (short_id (uuid env)) (fst r) = None /\
  dataClients (fst r) = dataClients w /\
  stats (fst r) = stats w /\ wire (fst r) = wire w /\
  (exists role,
     logs (fst r) = logs w ++ [LogPeerCreated (short_id (uuid env)) role;
                               LogPeerRemoved (short_id (uuid env))]) /\
  (forall err, setRemoteDescription env = Some err ->
     snd r = mkResponse 400 (ErrorBody (mkError "Invalid SDP offer" err))) /\
  (forall err, setRemoteDescription env = None ->
     createAnswer env = Some err ->
     snd r = mkResponse 500
               (ErrorBody (mkError "Failed to create answer" err))) /\
  (forall err, setRemoteDescription env = None -> createAnswer env = None ->
     setLocalDescription env = Some err ->
     snd r = mkResponse 500
               (ErrorBody (mkError "Failed to set local description" err))).
Proof.
  intros Hpc Hfresh Hfail.
  destruct (failed_offer_world req env w Hpc Hfail) as (Hp & Hd & Hs & Hw).
  destruct (failed_offer_logs req env w Hpc Hfail) as (role & _ & Hlog).
  cbn zeta. split.
  { rewrite Hp. apply delete_id. exact Hfresh. }
  split.
  { unfold PeerManager.GetPeer. rewrite Hp. apply lookup_delete_eq. }
  split; [exact Hd|]. split; [exact Hs|]. split; [exact Hw|].
  split; [exists role; exact Hlog|].
  unfold handleOffer, PeerManager.CreatePeer. rewrite Hpc.
  cbn [String.eqb Ascii.eqb Bool.eqb negb andb fst snd Peer.ID].
  split; [|split].
  - intros err ->. reflexivity.
  - intros err -> ->. reflexivity.
  - intros err -> -> ->. reflexivity.
Qed.

End SignalingProperties.

(* ===================================================================== *)
(** ** The registry invariants hold in every state the relay reaches *)
(* ===================================================================== *)

Section Invariants.

Lemma emptyWorld_ok :
  peers_keyed emptyWorld /\ buffers_bounded emptyWorld.
Proof.
  split; intros k x H; cbn in H; rewrite lookup_empty in H; discriminate.
Qed.

Lemma CreatePeer_keyed uuid pcErr peerType w :
  peers_keyed w ->
  peers_keyed (fst (PeerManager.CreatePeer uuid pcErr peerType w)).
Proof.
  intros Hk. unfold PeerManager.CreatePeer.
  destruct pcErr; [exact Hk|].
  cbn [fst]. intros k p. cbn [log set_peers peers]. intros H.
  apply lookup_insert_Some in H as [[<- <-]|[_ H]]; [reflexivity|].
  exact (Hk k p H).
Qed.

Lemma RemovePeer_keyed id w :
  peers_keyed w -> peers_keyed (PeerManager.RemovePeer id w).
Proof.
  intros Hk k p. rewrite RemovePeer_peers. intros H.
  apply lookup_delete_Some in H as [_ H]. exact (Hk k p H).
Qed.

Lemma setupDataChannel_keyed id dc w :
  peers_keyed w -> peers_keyed (PeerManager.setupDataChannel id dc w).
Proof.
  intros Hk k p. unfold PeerManager.setupDataChannel.
  cbn [set_peers peers]. intros H.
  apply lookup_alter_Some in H as [(_ & q & Hq & ->)|[_ H]].
  - cbn. exact (Hk k q Hq).
  - exact (Hk k p H).
Qed.

Lemma route_keyed now i w w' :
  peers_keyed w -> route now i w = Some w' -> peers_keyed w'.
Proof.
  intros Hk Hroute k p.
  destruct (route_wire now i w w' Hroute) as (Hp & _).
  rewrite Hp. apply Hk.
Qed.

Lemma after_fanout_bounded sel data c :
  Chan.cap (WSClient.Send c) = WSManager.sendBufferSize /\
  (length (Chan.buf (WSClient.Send c)) <= WSManager.sendBufferSize)%nat ->
  Chan.cap (WSClient.Send (after_fanout sel data c))
    = WSManager.sendBufferSize /\
  (length (Chan.buf (WSClient.Send (after_fanout sel data c)))
   <= WSManager.sendBufferSize)%nat.
Proof.
  intros [Hcap Hlen]. unfold after_fanout.
  destruct (sel c && has_room c) eqn:Hs; [|auto].
  apply Bool.andb_true_iff in Hs as [_ Hroom].
  unfold has_room in Hroom. apply Nat.ltb_lt in Hroom.
  unfold enqueued. cbn. rewrite length_app. cbn. split; [exact Hcap|lia].
Qed.

Lemma bounded_by_lookup w w' :
  buffers_bounded w ->
  (forall k, dataClients w' !! k = dataClients w !! k \/
             exists sel data,
               dataClients w' !! k
               = after_fanout sel data <$> dataClients w !! k) ->
  buffers_bounded w'.
Proof.
  intros Hb Hlook k c' Hc'.
  destruct (Hlook k) as [H|(sel & data & H)]; rewrite H in Hc'.
  - exact (Hb k c' Hc').
  - destruct (dataClients w !! k) as [c|] eqn:Hc; [|discriminate].
    cbn in Hc'. inversion Hc'; subst c'.
    apply after_fanout_bounded. exact (Hb k c Hc).
Qed.

Lemma route_bounded now i w w' :
  buffers_bounded w -> route now i w = Some w' -> buffers_bounded w'.
Proof.
  intros Hb Hroute.
  destruct i as [from data|c data|c msg]; cbn [route] in Hroute.
  - inversion Hroute; subst w'. apply (bounded_by_lookup w); [exact Hb|].
    intros k.
    destruct (HandleMessage_clients now from data w k) as (t & [H|[_ H]]);
      [left; exact H|right; eauto].
  - inversion Hroute; subst w'. apply (bounded_by_lookup w); [exact Hb|].
    intros k. rewrite handleBinaryData_clients.
    destruct (Twist.DecodeTwist data); [right; eauto|left; reflexivity].
  - unfold WSInbound.handleDataMessage in Hroute.
    destruct (String.eqb (DataMessage.Type_ msg) "twist").
    { inversion Hroute; subst w'.
      apply (bounded_by_lookup w); [exact Hb|]. intros k. right.
      destruct (forwardData_spec (WSClient.ID c) (WSClient.PeerType c)
                  (DataMessage.Data msg) w) as (_ & _ & _ & _ & _ & Fc).
      eauto. }
    destruct (String.eqb (DataMessage.Type_ msg) "ping");
      [|inversion Hroute; subst w'; exact Hb].
    destruct (dataClients w !! WSClient.ID c) as [c0|] eqn:Hc0;
      [|inversion Hroute; subst w'; exact Hb].
    unfold Chan.try_send in Hroute.
    destruct (Nat.ltb _ _) eqn:Hroom; [|discriminate].
    inversion Hroute; subst w'. apply Nat.ltb_lt in Hroom.
    intros k c1. cbn [set_dataClients dataClients]. intros H.
    apply lookup_insert_Some in H as [[<- <-]|[_ H]];
      [|exact (Hb k c1 H)].
    destruct (Hb _ c0 Hc0) as [Hcap Hlen].
    cbn. rewrite length_app. cbn. split; [exact Hcap|lia].
Qed.

Lemma removeDataClient_bounded id w :
  buffers_bounded w -> buffers_bounded (WSManager.removeDataClient id w).
Proof.
  intros Hb k c. unfold WSManager.removeDataClient.
  destruct (dataClients w !! id); [|apply Hb].
  cbn [log set_dataClients dataClients]. intros H.
  apply lookup_delete_Some in H as [_ H]. exact (Hb k c H).
Qed.

Lemma handleOffer_world method req env w :
  let w' := fst (Signaling.handleOffer method req env w) in
  dataClients w' = dataClients w /\
  (peers_keyed w -> peers_keyed w').
Proof.
  unfold Signaling.handleOffer.
  destruct (negb (String.eqb method "POST")); [cbn; auto|].
  destruct req as [err|req]; [cbn; auto|].
  set (peerType :=
         if negb (String.eqb (Signaling.offerPeerType req) PeerTypeWeb) &&
            negb (String.eqb (Signaling.offerPeerType req) PeerTypePython)
         then PeerTypeWeb else Signaling.offerPeerType req).
  pose proof (CreatePeer_keyed (Signaling.uuid env)
                (Signaling.newPeerConnection env) peerType w) as Hcreate.
  assert (Hdc : dataClients (fst (PeerManager.CreatePeer
                  (Signaling.uuid env) (Signaling.newPeerConnection env)
                  peerType w)) = dataClients w)
    by (unfold PeerManager.CreatePeer;
        destruct (Signaling.newPeerConnection env); reflexivity).
  destruct (PeerManager.CreatePeer _ _ peerType w) as [w1 [peer|err]];
    cbn [fst] in *; [|auto].
  assert (Hrm : dataClients (PeerManager.RemovePeer (Peer.ID peer) w1)
                = dataClients w /\
                (peers_keyed w ->
                 peers_keyed (PeerManager.RemovePeer (Peer.ID peer) w1))).
  { split.
    - rewrite (proj1 (RemovePeer_rest (Peer.ID peer) w1)). exact Hdc.
    - intros Hk. apply RemovePeer_keyed, Hcreate, Hk. }
  destruct (Signaling.setRemoteDescription env); [exact Hrm|].
  destruct (Signaling.createAnswer env); [exact Hrm|].
  destruct (Signaling.setLocalDescription env); [exact Hrm|].
  cbn. auto.
Qed.

Lemma step_invariants w w' :
  step w w' ->
  peers_keyed w /\ buffers_bounded w ->
  peers_keyed w' /\ buffers_bounded w'.
Proof.
  intros Hstep [Hk Hb].
  destruct Hstep as [uuid pcErr peerType|id dc|id|method req env|
                     ok ty uuid now|id|now i w' Hroute|
                     t id c conn conn' c' frame Hc Hwrite].
  - split; [apply CreatePeer_keyed, Hk|].
    unfold PeerManager.CreatePeer. destruct pcErr; exact Hb.
  - split; [apply setupDataChannel_keyed, Hk|exact Hb].
  - split; [apply RemovePeer_keyed, Hk|].
    intros k c. rewrite (proj1 (RemovePeer_rest id w)). apply Hb.
  - destruct (handleOffer_world method req env w) as [Hdc Hkeyed].
    split; [exact (Hkeyed Hk)|].
    intros k c. rewrite Hdc. apply Hb.
  - split; [|apply HandleDataWS_bounded, Hb].
    destruct ok; [rewrite HandleDataWS_ok|]; exact Hk.
  - split; [|apply removeDataClient_bounded, Hb].
    unfold WSManager.removeDataClient.
    destruct (dataClients w !! id); exact Hk.
  - split; [exact (route_keyed now i w w' Hk Hroute)|
            exact (route_bounded now i w w' Hb Hroute)].
  - split; [exact Hk|].
    unfold Keepalive.writePump_message, Chan.recv in Hwrite.
    destruct (Chan.buf (WSClient.Send c)) as [|v rest] eqn:Hbuf;
      [discriminate|].
    inversion Hwrite; subst conn' c' frame.
    destruct (Hb id c Hc) as [Hcap Hlen]. rewrite Hbuf in Hlen.
    intros k c1. cbn [set_dataClients dataClients]. intros H.
    apply lookup_insert_Some in H as [[<- <-]|[_ H]];
      [|exact (Hb k c1 H)].
    cbn in *. split; [exact Hcap|lia].
Qed.

(** Both invariants hold in every reachable state. *)
Lemma reachable_invariants w :
  reachable w -> peers_keyed w /\ buffers_bounded w.
Proof.
  induction 1 as [|w w' _ IH Hstep].
  - exact emptyWorld_ok.
  - exact (step_invariants w w' Hstep IH).
Qed.

Lemma Sample_world_ok :
  peers_keyed Sample.world /\ buffers_bounded Sample.world.
Proof.
  split.
  - intros k p. unfold Sample.world. cbn [peers]. intros H.
    repeat (apply lookup_insert_Some in H as [[<- <-]|[_ H]];
            [reflexivity|]).
    rewrite lookup_empty in H. discriminate.
  - intros k c. unfold Sample.world. cbn [dataClients]. intros H.
    repeat (apply lookup_insert_Some in H as [[<- <-]|[_ H]];
            [split; [reflexivity|];
             unfold WSManager.sendBufferSize; cbn; rewrite ?repeat_length;
             lia|]).
    rewrite lookup_empty in H. discriminate.
Qed.

Lemma Sample_webOnly_ok :
  peers_keyed Sample.webOnly /\ all_of_role "web" Sample.webOnly.
Proof.
  split; [|split].
  - intros k p. unfold Sample.webOnly. cbn [peers]. intros H.
    repeat (apply lookup_insert_Some in H as [[<- <-]|[_ H]];
            [reflexivity|]).
    rewrite lookup_empty in H. discriminate.
  - intros k p. unfold Sample.webOnly. cbn [peers]. intros H.
    repeat (apply lookup_insert_Some in H as [[<- <-]|[_ H]];
            [reflexivity|]).
    rewrite lookup_empty in H. discriminate.
  - intros k c. unfold Sample.webOnly. cbn [dataClients]. intros H.
    repeat (apply lookup_insert_Some in H as [[<- <-]|[_ H]];
            [reflexivity|]).
    rewrite lookup_empty in H. discriminate.
Qed.

End Invariants.

(* ===================================================================== *)
(** ** The properties at the sample data *)
(* ===================================================================== *)

Section Instances.
Import Word LittleEndian Twist Keepalive Signaling.

Lemma EncodeTwist_roundtrip_witness :
  wf_twist Sample.twist /\ Timestamp Sample.twist <> 0 /\
  exists g, DecodeTwist (EncodeTwist 5 Sample.twist) = Ok g /\
            EncodeTwist 9 g = EncodeTwist 5 Sample.twist.
Proof.
  assert (Hwf : wf_twist Sample.twist)
    by (unfold wf_twist, is_uint64; cbn; lia).
  assert (Hts : Timestamp Sample.twist <> 0) by (cbn; lia).
  split; [exact Hwf|]. split; [exact Hts|].
  exact (proj2 (EncodeTwist_roundtrip 5 9 Sample.twist Hwf Hts)).
Defined.

Lemma DecodeTwist_size_witness :
  DecodeTwist Sample.junk = Err (ErrInvalidMessageSize 3) /\
  exists twist, DecodeTwist Sample.frame = Ok twist.
Proof.
  split.
  - apply (proj1 (DecodeTwist_size Sample.junk)); cbn; lia.
  - apply (proj2 (DecodeTwist_size Sample.frame)). right. reflexivity.
Defined.

Lemma EncodeTwist_timestamp_witness :
  slice 48 56 (EncodeTwist 1234 Sample.unstamped)
    = PutUint64 (to_uint64 1234) /\
  slice 48 56 (EncodeTwist 1234 Sample.twist) = PutUint64 1700000000000 /\
  EncodeTwist 99 Sample.twist = EncodeTwist 1234 Sample.twist.
Proof.
  split.
  - apply (proj1 (EncodeTwist_timestamp 1234 Sample.unstamped)).
    reflexivity.
  - assert (Hts : Timestamp Sample.twist <> 0) by (cbn; lia).
    destruct (proj2 (EncodeTwist_timestamp 1234 Sample.twist) Hts)
      as (H1 & _ & H3).
    split; [exact H1|apply H3].
Defined.

Lemma decode_failure_drops_frame_witness :
  DecodeTwist Sample.junk = Err (ErrInvalidMessageSize 3) /\
  wire (MessageRouter.HandleMessage 0 Sample.webPeer Sample.junk
                                    Sample.world) = wire Sample.world /\
  wire (WSInbound.handleBinaryData 0 Sample.webClient Sample.junk
                                   Sample.world) = wire Sample.world.
Proof.
  split; [reflexivity|].
  destruct (decode_failure_drops_frame 0 Sample.junk
              (ErrInvalidMessageSize 3) eq_refl) as [Hrouter Hsocket].
  split.
  - destruct (Hrouter Sample.webPeer Sample.world) as (_ & _ & _ & H & _).
    exact H.
  - destruct (Hsocket Sample.webClient Sample.world)
      as (_ & _ & _ & _ & H & _).
    exact H.
Defined.

(** C1 as the specification states it fails: the junk frame has
    opposite-role targets that are ready (a valid frame from the same
    origin reaches both), yet it reaches neither of them, and on the
    socket path the parse-error counter is not incremented either. *)
Lemma decode_failure_not_forwarded :
  DecodeTwist Sample.junk = Err (ErrInvalidMessageSize 3) /\
  List.map Delivery.to_id
    (wire (MessageRouter.HandleMessage 0 Sample.webPeer Sample.frame
                                       Sample.world))
    = ["bbbb0002"; "dddd0004"] /\
  wire (MessageRouter.HandleMessage 0 Sample.webPeer Sample.junk
                                    Sample.world) = [] /\
  List.map Delivery.to_id
    (wire (WSInbound.handleBinaryData 0 Sample.webClient Sample.frame
                                      Sample.world))
    = ["dddd0004"; "bbbb0002"] /\
  wire (WSInbound.handleBinaryData 0 Sample.webClient Sample.junk
                                   Sample.world) = [] /\
  RouterStats.ParseErrors
    (stats (WSInbound.handleBinaryData 0 Sample.webClient Sample.junk
                                       Sample.world)) = 0.
Proof. vm_compute. repeat split; reflexivity. Qed.

Lemma cross_role_delivery_witness :
  peers_keyed Sample.world /\
  route 0 (FromDatagram Sample.webPeer Sample.frame) Sample.world
    = Some (MessageRouter.HandleMessage 0 Sample.webPeer Sample.frame
                                        Sample.world) /\
  (forall d,
     In d (fanned (FromDatagram Sample.webPeer Sample.frame) Sample.world) ->
     Delivery.to_role d = "python") /\
  fanned (FromSocketBinary Sample.webClient Sample.frame) Sample.webOnly
    = [].
Proof.
  pose proof (proj1 Sample_world_ok) as Hk.
  split; [exact Hk|]. split; [reflexivity|]. split.
  - destruct (cross_role_delivery 0
                (FromDatagram Sample.webPeer Sample.frame) Sample.world _
                Hk eq_refl) as (_ & _ & Hweb & _).
    apply Hweb. reflexivity.
  - destruct (cross_role_delivery 0
                (FromSocketBinary Sample.webClient Sample.frame)
                Sample.webOnly _ (proj1 Sample_webOnly_ok) eq_refl)
      as (_ & _ & _ & _ & Hsame).
    apply Hsame.
    + exact (proj2 Sample_webOnly_ok).
    + unfold is_uint64. cbn. lia.
Defined.

Lemma no_delivery_to_origin_witness :
  peers_keyed Sample.world /\
  route 0 (FromSocketBinary Sample.webClient Sample.frame) Sample.world
    = Some (WSInbound.handleBinaryData 0 Sample.webClient Sample.frame
                                       Sample.world) /\
  dataClients (WSInbound.handleBinaryData 0 Sample.webClient Sample.frame
                                          Sample.world) !! "cccc0003"
    = Some Sample.webClient.
Proof.
  pose proof (proj1 Sample_world_ok) as Hk.
  split; [exact Hk|]. split; [reflexivity|].
  destruct (no_delivery_to_origin 0
              (FromSocketBinary Sample.webClient Sample.frame) Sample.world _
              Hk eq_refl) as (_ & _ & _ & Hown & _).
  apply (Hown Sample.webClient Sample.frame); reflexivity.
Defined.

Lemma send_buffer_policy_witness :
  buffers_bounded Sample.world /\
  enqueue_policy (sel_broadcast "python") Sample.frame Sample.world
    (fst (WSManager.BroadcastToType "python" Sample.frame Sample.world)).
Proof.
  pose proof (proj2 Sample_world_ok) as Hb.
  split; [exact Hb|].
  destruct (send_buffer_policy Sample.frame Sample.world Hb)
    as (_ & _ & Hbroadcast).
  apply Hbroadcast.
Defined.

Lemma json_twist_stays_on_socket_witness :
  DecodeTwist Sample.junk = Err (ErrInvalidMessageSize 3) /\
  exists w',
    WSInbound.handleDataMessage 0 Sample.webClient
      (Sample.twistEnvelope Sample.junk) Sample.world = Some w' /\
    peers w' = peers Sample.world /\
    RouterStats.MessagesReceived (stats w') = 0.
Proof.
  split; [reflexivity|].
  destruct (json_twist_stays_on_socket 0 Sample.webClient
              (Sample.twistEnvelope Sample.junk) Sample.world eq_refl)
    as (w' & H1 & _ & H3 & H4 & _).
  exists w'. split; [exact H1|]. split; [exact H3|exact H4].
Defined.



Lemma failed_offer_removes_peer_witness :
  let env := mkAdmission "12345678-aaaa-4bbb-8ccc-dddddddddddd" None
                         (Some "bad sdp") None None "" in
  let r := handleOffer "POST" (inr (mkOffer "v=0" "offer" "python")) env
                       Sample.world in
  peers Sample.world !! "12345678" = None /\
  peers (fst r) = peers Sample.world /\
  snd r = mkResponse 400 (ErrorBody (mkError "Invalid SDP offer" "bad sdp")).
Proof.
  intros env r.
  assert (Hfresh : peers Sample.world !! "12345678" = None)
    by (vm_compute; reflexivity).
  assert (Hfail : setRemoteDescription env <> None \/
                  createAnswer env <> None \/
                  setLocalDescription env <> None)
    by (left; discriminate).
  destruct (failed_offer_removes_peer (mkOffer "v=0" "offer" "python") env
              Sample.world eq_refl Hfresh Hfail)
    as (Hsame & _ & _ & _ & _ & _ & H400 & _).
  split; [exact Hfresh|]. split; [exact Hsame|].
  apply H400. reflexivity.
Defined.

(** Why the uniqueness of ids is assumed: [CreatePeer] stores the peer
    under the first eight characters of the UUID and checks nothing, so a
    drawn id that repeats the id of a registered peer replaces that peer,
    and the removal that follows a failed step takes it out of the
    registry. *)
Lemma failed_offer_reused_id :
  let env := mkAdmission "bbbb0002-aaaa-4bbb-8ccc-dddddddddddd" None
                         (Some "bad sdp") None None "" in
  let r := handleOffer "POST" (inr (mkOffer "v=0" "offer" "web")) env
                       Sample.world in
  peers Sample.world !! "bbbb0002" = Some Sample.pyPeer /\
  peers (fst r) !! "bbbb0002" = None /\
  peers (fst r) <> peers Sample.world /\
  status (snd r) = 400.
Proof.
  intros env r.
  assert (H1 : peers Sample.world !! "bbbb0002" = Some Sample.pyPeer)
    by (vm_compute; reflexivity).
  assert (H2 : peers (fst r) !! "bbbb0002" = None)
    by (vm_compute; reflexivity).
  split; [exact H1|]. split; [exact H2|]. split; [|reflexivity].
  intros Heq. rewrite Heq, H1 in H2. discriminate.
Qed.

End Instances.

(* ===================================================================== *)
(** ** More on the frame codec *)
(* ===================================================================== *)

Section CodecRoundTrips.
Import Word LittleEndian Twist TwistOps.

Lemma byte_bit_out b m :
  is_byte b -> m < 0 \/ 8 <= m -> Z.testbit b m = false.
Proof.
  intros Hb [Hm|Hm]; [apply Z.testbit_neg_r; exact Hm|].
  destruct (Z.eq_dec b 0) as [->|Hnz]; [apply Z.bits_0|].
  apply Z.bits_above_log2; [unfold is_byte in Hb; lia|].
  unfold is_byte in Hb.
  assert (Z.log2 b < 8) by (apply Z.log2_lt_pow2; lia). lia.
Qed.

(** Bit [n] of the assembled word comes from byte [n / 8]. *)
Lemma Uint64_testbit b0 b1 b2 b3 b4 b5 b6 b7 n :
  0 <= n ->
  Z.testbit (Uint64 [b0; b1; b2; b3; b4; b5; b6; b7]) n
  = Z.testbit b0 n || (Z.testbit b1 (n - 8) || (Z.testbit b2 (n - 16) ||
    (Z.testbit b3 (n - 24) || (Z.testbit b4 (n - 32) ||
    (Z.testbit b5 (n - 40) || (Z.testbit b6 (n - 48) ||
     Z.testbit b7 (n - 56))))))).
Proof.
  intros Hn. unfold Uint64.
  rewrite !Z.lor_spec, !Z.shiftl_spec by lia. reflexivity.
Qed.

Ltac drop_foreign_bits :=
  repeat match goal with
         | H : is_byte ?b |- context [Z.testbit ?b ?m] =>
             rewrite (byte_bit_out b m H) by lia
         end.

Lemma byte_of_Uint64 b0 b1 b2 b3 b4 b5 b6 b7 s bk :
  is_byte b0 -> is_byte b1 -> is_byte b2 -> is_byte b3 ->
  is_byte b4 -> is_byte b5 -> is_byte b6 -> is_byte b7 ->
  (s = 0 /\ bk = b0) \/ (s = 8 /\ bk = b1) \/ (s = 16 /\ bk = b2) \/
  (s = 24 /\ bk = b3) \/ (s = 32 /\ bk = b4) \/ (s = 40 /\ bk = b5) \/
  (s = 48 /\ bk = b6) \/ (s = 56 /\ bk = b7) ->
  to_byte (Z.shiftr (Uint64 [b0; b1; b2; b3; b4; b5; b6; b7]) s) = bk.
Proof.
  intros H0 H1 H2 H3 H4 H5 H6 H7 Hs.
  apply Z.bits_inj'. intros n Hn.
  rewrite to_byte_testbit by exact Hn.
  assert (Hs0 : 0 <= s) by lia.
  rewrite Z.shiftr_spec by exact Hn.
  rewrite Uint64_testbit by lia.
  destruct (Z.ltb_spec n 8) as [Hlt|Hge].
  - rewrite Bool.andb_true_r.
    destruct Hs as [[-> ->]|[[-> ->]|[[-> ->]|[[-> ->]|[[-> ->]|[[-> ->]|
                   [[-> ->]|[-> ->]]]]]]]];
      drop_foreign_bits;
      rewrite ?Bool.orb_false_r, ?Bool.orb_false_l;
      f_equal; lia.
  - rewrite Bool.andb_false_r. symmetry.
    assert (Hk : is_byte bk)
      by (destruct Hs as [[_ ->]|[[_ ->]|[[_ ->]|[[_ ->]|[[_ ->]|[[_ ->]|
                         [[_ ->]|[_ ->]]]]]]]]; assumption).
    apply byte_bit_out; [exact Hk|lia].
Qed.

(** Splitting a word and assembling it again gives the eight bytes back. *)
Lemma PutUint64_Uint64 (word : bytes) :
  length word = 8%nat -> bytes_ok word -> PutUint64 (Uint64 word) = word.
Proof.
  intros Hlen Hok.
  destruct word as [|b0 [|b1 [|b2 [|b3 [|b4 [|b5 [|b6 [|b7 [|]]]]]]]]];
    try discriminate Hlen.
  unfold bytes_ok in Hok.
  repeat match goal with
         | H : Forall _ (_ :: _) |- _ =>
             apply Forall_cons in H; destruct H as [? H]
         end.
  unfold PutUint64.
  rewrite <- (Z.shiftr_0_r (Uint64 _)) at 1.
  repeat (f_equal; [apply byte_of_Uint64; try assumption; tauto|]).
  f_equal. apply byte_of_Uint64; try assumption; tauto.
Qed.

Lemma slice_ok lo hi (data : bytes) :
  bytes_ok data -> bytes_ok (slice lo hi data).
Proof.
  intros H. unfold slice, bytes_ok. apply Forall_take, Forall_drop. exact H.
Qed.

Lemma slice_length lo hi (data : bytes) :
  (lo <= hi)%nat -> (hi <= length data)%nat ->
  length (slice lo hi data) = (hi - lo)%nat.
Proof.
  intros H1 H2. unfold slice. rewrite length_take, length_drop. lia.
Qed.

Lemma frame_words (data : bytes) :
  length data = 56%nat ->
  data = slice 0 8 data ++ slice 8 16 data ++ slice 16 24 data ++
         slice 24 32 data ++ slice 32 40 data ++ slice 40 48 data ++
         slice 48 56 data.
Proof.
  intros Hlen.
  do 56 (destruct data as [|? data]; [discriminate Hlen|]).
  destruct data; [reflexivity|discriminate Hlen].
Qed.

Lemma legacy_words (data : bytes) :
  length data = 48%nat ->
  data = slice 0 8 data ++ slice 8 16 data ++ slice 16 24 data ++
         slice 24 32 data ++ slice 32 40 data ++ slice 40 48 data.
Proof.
  intros Hlen.
  do 48 (destruct data as [|? data]; [discriminate Hlen|]).
  destruct data; [reflexivity|discriminate Hlen].
Qed.

Lemma word_back lo hi (data : bytes) :
  bytes_ok data -> (hi <= length data)%nat -> (hi - lo = 8)%nat ->
  PutUint64 (Uint64 (slice lo hi data)) = slice lo hi data.
Proof.
  intros Hok Hhi Hlo. apply PutUint64_Uint64.
  - rewrite slice_length by lia. exact Hlo.
  - apply slice_ok, Hok.
Qed.

End CodecRoundTrips.

(* ===================================================================== *)
(** ** Properties of the codec beyond the stated ones *)
(* ===================================================================== *)

Section CodecExtras.
Import Word LittleEndian Twist TwistOps.

Lemma to_int64_small x : - 2 ^ 63 <= x < 2 ^ 63 -> to_int64 x = x.
Proof. intros H. unfold to_int64. rewrite Z.mod_small; lia. Qed.

Lemma encoded_timestamp_range now t :
  is_uint64 (Timestamp t) -> is_uint64 (encoded_timestamp now t).
Proof.
  intros H. unfold encoded_timestamp.
  destruct (Timestamp t =? 0); [apply to_uint64_range|exact H].
Qed.

Lemma decoded_stamp (now : Z) (f : TwistMessage) :
  wf_twist f ->
  DecodeTwist (EncodeTwist now f)
  = Ok (with_Timestamp f (encoded_timestamp now f)).
Proof.
  intros (H1 & H2 & H3 & H4 & H5 & H6 & H7).
  unfold EncodeTwist. rewrite DecodeTwist_words.
  pose proof (encoded_timestamp_range now f H7) as Hts.
  unfold Float64bits, to_uint64 at 1 2 3 4 5 6 7.
  rewrite !Z.mod_small by assumption.
  unfold with_Timestamp.
  destruct f as [[] [] ?]; reflexivity.
Qed.

(** X1.  Decoding what [EncodeTwist] wrote gives the frame back, with the
    timestamp the encoder chose: the caller's, or the clock reading when the
    caller's was zero. *)
Theorem DecodeTwist_EncodeTwist_stamped (now : Z) (f : TwistMessage) :
  wf_twist f ->
  DecodeTwist (EncodeTwist now f)
  = Ok (with_Timestamp f (if Timestamp f =? 0 then to_uint64 now
                          else Timestamp f)).
Proof.
  intros Hwf. rewrite (decoded_stamp now f Hwf).
  unfold encoded_timestamp. cbn zeta. reflexivity.
Qed.

Lemma DecodeTwist_accepts (data : bytes) :
  length data = 48%nat \/ length data = 56%nat ->
  exists t, DecodeTwist data = Ok t.
Proof.
  intros [H|H]; unfold DecodeTwist; rewrite H; eexists; reflexivity.
Qed.

Lemma velocity_words (data : bytes) :
  (48 <= length data)%nat ->
  slice 0 48 data
  = slice 0 8 data ++ slice 8 16 data ++ slice 16 24 data ++
    slice 24 32 data ++ slice 32 40 data ++ slice 40 48 data.
Proof.
  intros Hlen.
  do 48 (destruct data as [|? data]; [cbn in Hlen; lia|]).
  reflexivity.
Qed.

(** Re-encoding a decoded frame: the 48 velocity bytes are the input's. *)
Lemma EncodeTwist_of_decoded now (data : bytes) t :
  length data = 48%nat \/ length data = 56%nat ->
  bytes_ok data ->
  DecodeTwist data = Ok t ->
  EncodeTwist now t = slice 0 48 data ++ PutUint64 (encoded_timestamp now t).
Proof.
  intros Hlen Hok Hdec.
  assert (H48 : (48 <= length data)%nat) by lia.
  unfold DecodeTwist in Hdec.
  replace (negb (Nat.eqb (length data) TwistMessageSize) &&
           negb (Nat.eqb (length data) TwistMessageSizeLegacy)) with false
    in Hdec
    by (destruct Hlen as [-> | ->]; reflexivity).
  inversion Hdec as [Ht]; clear Hdec.
  unfold EncodeTwist, Float64bits, Float64frombits.
  cbn [Linear Angular X Y Z_].
  rewrite !word_back by (assumption || lia).
  rewrite (velocity_words data H48), <- !app_assoc. reflexivity.
Qed.

(** X2.  Decoding a 56-byte frame and encoding the result gives the same 56
    bytes, whatever the clock reads, when the frame carries a timestamp. *)
Theorem EncodeTwist_DecodeTwist (now : Z) (data : bytes) :
  length data = 56%nat ->
  bytes_ok data ->
  Uint64 (slice 48 56 data) <> 0 ->
  exists t, DecodeTwist data = Ok t /\ Timestamp t <> 0 /\
            EncodeTwist now t = data.
Proof.
  intros Hlen Hok Hts.
  destruct (DecodeTwist_accepts data (or_intror Hlen)) as [t Ht].
  exists t.
  assert (Hstamp : Timestamp t = Uint64 (slice 48 56 data)).
  { unfold DecodeTwist in Ht. rewrite Hlen in Ht. cbn in Ht.
    inversion Ht. reflexivity. }
  split; [exact Ht|]. split; [rewrite Hstamp; exact Hts|].
  rewrite (EncodeTwist_of_decoded now data t (or_intror Hlen) Hok Ht).
  rewrite encoded_timestamp_nonzero by (rewrite Hstamp; exact Hts).
  rewrite Hstamp, word_back by (assumption || lia).
  rewrite (velocity_words data) by lia.
  rewrite <- !app_assoc. symmetry. apply frame_words. exact Hlen.
Qed.

(** X3.  A 48-byte legacy frame decodes with timestamp zero, is re-encoded as
    the same 48 bytes followed by the clock reading, and decodes to the
    same velocities once eight timestamp bytes are appended. *)
Theorem DecodeTwist_legacy (now ts : Z) (data : bytes) :
  length data = 48%nat ->
  bytes_ok data ->
  exists t, DecodeTwist data = Ok t /\ Timestamp t = 0 /\
            EncodeTwist now t = data ++ PutUint64 (to_uint64 now) /\
            DecodeTwist (data ++ PutUint64 ts)
            = Ok (with_Timestamp t (to_uint64 ts)).
Proof.
  intros Hlen Hok.
  destruct (DecodeTwist_accepts data (or_introl Hlen)) as [t Ht].
  exists t.
  assert (Hstamp : Timestamp t = 0).
  { unfold DecodeTwist in Ht. rewrite Hlen in Ht. cbn in Ht.
    inversion Ht. reflexivity. }
  split; [exact Ht|]. split; [exact Hstamp|]. split.
  - rewrite (EncodeTwist_of_decoded now data t (or_introl Hlen) Hok Ht).
    unfold encoded_timestamp. rewrite Hstamp. cbn [Z.eqb].
    f_equal. unfold slice. cbn [Nat.sub skipn].
    apply firstn_all2. lia.
  - clear Hok. revert Ht.
    do 48 (destruct data as [|? data]; [discriminate Hlen|]).
    destruct data; [|discriminate Hlen].
    unfold DecodeTwist. cbn [length app Nat.eqb negb andb Nat.leb
                             TwistMessageSize TwistMessageSizeLegacy].
    intros Ht. inversion Ht; subst t; clear Ht.
    unfold with_Timestamp. cbn [Linear Angular].
    change (slice 48 56 _) with (PutUint64 ts).
    rewrite Uint64_PutUint64. reflexivity.
Qed.

(** X4.  The latency read off a frame that the encoder stamped at [sent] is the
    plain difference of the two clock readings, negative when the reader's
    clock is behind. *)
Theorem GetLatencyMs_after_stamping (sent now : Z) (f : TwistMessage) :
  wf_twist f ->
  Timestamp f = 0 ->
  0 < sent < 2 ^ 63 ->
  0 <= now < 2 ^ 63 ->
  exists g, DecodeTwist (EncodeTwist sent f) = Ok g /\
            GetLatencyMs now g = now - sent.
Proof.
  intros Hwf Hts Hsent Hnow.
  eexists. split; [apply decoded_stamp, Hwf|].
  unfold encoded_timestamp. cbn zeta. rewrite Hts. cbn [Z.eqb].
  assert (Hu : to_uint64 sent = sent)
    by (unfold to_uint64; apply Z.mod_small; lia).
  unfold GetLatencyMs, with_Timestamp. cbn [Timestamp]. rewrite Hu.
  destruct (Z.eqb_spec sent 0); [lia|].
  rewrite (to_int64_small sent) by lia.
  apply to_int64_small. lia.
Qed.

Lemma stop_word_iff (word : bytes) :
  length word = 8%nat -> bytes_ok word ->
  float_is_zero (Uint64 word) = true <-> stop_word word.
Proof.
  intros Hlen Hok. unfold float_is_zero, stop_word.
  rewrite Bool.orb_true_iff, !Z.eqb_eq. split.
  - intros [H|H]; pose proof (PutUint64_Uint64 word Hlen Hok) as Hback;
      rewrite H in Hback; [left|right]; rewrite <- Hback; reflexivity.
  - intros [-> | ->]; [left|right]; reflexivity.
Qed.

(** X5.  Which frames on the wire the relay treats as a stop command: exactly
    those whose six velocity words are +0.0 or -0.0; the timestamp plays no
    part. *)
Theorem IsZero_on_the_wire (data : bytes) (t : TwistMessage) :
  length data = 48%nat \/ length data = 56%nat ->
  bytes_ok data ->
  DecodeTwist data = Ok t ->
  IsZero t = true <->
  stop_word (slice 0 8 data) /\ stop_word (slice 8 16 data) /\
  stop_word (slice 16 24 data) /\ stop_word (slice 24 32 data) /\
  stop_word (slice 32 40 data) /\ stop_word (slice 40 48 data).
Proof.
  intros Hlen Hok Hdec.
  unfold DecodeTwist in Hdec.
  replace (negb (Nat.eqb (length data) TwistMessageSize) &&
           negb (Nat.eqb (length data) TwistMessageSizeLegacy)) with false
    in Hdec
    by (destruct Hlen as [-> | ->]; reflexivity).
  inversion Hdec as [Ht]; clear Hdec.
  unfold IsZero, Float64frombits. cbn [Linear Angular X Y Z_].
  rewrite !Bool.andb_true_iff.
  rewrite !stop_word_iff
    by (try (apply slice_ok; exact Hok); rewrite slice_length; lia).
  tauto.
Qed.

(** X6.  The emergency-stop frame: zero velocities, 48 zero bytes on the wire
    followed by its timestamp, and still a stop after a trip through the
    codec. *)
Theorem EmergencyStop_frame (now clock : Z) :
  IsEmergencyStop (EmergencyStop now) = true /\
  Clone (EmergencyStop now) = EmergencyStop now /\
  slice 0 48 (EncodeTwist clock (EmergencyStop now)) = repeat 0 48 /\
  exists g, DecodeTwist (EncodeTwist clock (EmergencyStop now)) = Ok g /\
            IsZero g = true /\
            Timestamp g = (if to_uint64 now =? 0 then to_uint64 clock
                           else to_uint64 now).
Proof.
  split; [reflexivity|]. split; [reflexivity|]. split; [reflexivity|].
  eexists. split.
  - apply decoded_stamp.
    unfold wf_twist, EmergencyStop, NewTwistMessage.
    cbn [Linear Angular X Y Z_ Timestamp].
    pose proof (to_uint64_range now).
    unfold is_uint64 in *. repeat split; lia.
  - split; reflexivity.
Qed.

End CodecExtras.

(* ===================================================================== *)
(** ** The registry of datagram peers *)
(* ===================================================================== *)

Section PeerRegistry.

(** X7.  [CreatePeer] registers the new peer under the first eight characters
    of the UUID, with the given type and no data channel: a lookup finds
    it, other ids are not touched, and the count grows by one unless the id
    was in use, in which case the earlier record is replaced.  When the
    peer connection cannot be created nothing changes. *)
Theorem CreatePeer_registers (uuid : string) (peerType : PeerType) (w : World) :
  let id := short_id uuid in
  let peer := Peer.mk id peerType None in
  let w' := fst (PeerManager.CreatePeer uuid None peerType w) in
  snd (PeerManager.CreatePeer uuid None peerType w) = inl peer /\
  PeerManager.GetPeer id w' = Some peer /\
  (forall k, k <> id -> PeerManager.GetPeer k w' = PeerManager.GetPeer k w) /\
  (PeerManager.GetPeer id w = None ->
   PeerManager.PeerCount w' = S (PeerManager.PeerCount w)) /\
  (is_Some (PeerManager.GetPeer id w) ->
   PeerManager.PeerCount w' = PeerManager.PeerCount w) /\
  (forall err, fst (PeerManager.CreatePeer uuid (Some err) peerType w) = w).
Proof.
  cbn zeta. unfold PeerManager.GetPeer, PeerManager.PeerCount.
  cbn [PeerManager.CreatePeer fst snd log set_peers peers].
  split; [reflexivity|]. split; [apply lookup_insert_eq|]. split.
  { intros k Hk. apply lookup_insert_ne. auto. }
  split; [apply map_size_insert_None|]. split.
  { intros Hsome. apply map_size_insert_Some. exact Hsome. }
  reflexivity.
Qed.

Lemma RemovePeer_absent id w :
  peers w !! id = None -> PeerManager.RemovePeer id w = w.
Proof. unfold PeerManager.RemovePeer. intros ->. reflexivity. Qed.

(** X8.  [RemovePeer]: afterwards a lookup of the id fails and no enumeration
    by type yields it; other ids are not touched; the count drops by one
    when the id was registered; removing an id that is not registered, in
    particular removing twice, changes nothing. *)
Theorem RemovePeer_removes (id : string) (w : World) :
  let w' := PeerManager.RemovePeer id w in
  PeerManager.GetPeer id w' = None /\
  (forall k, k <> id -> PeerManager.GetPeer k w' = PeerManager.GetPeer k w) /\
  (PeerManager.GetPeer id w = None -> w' = w) /\
  PeerManager.RemovePeer id w' = w' /\
  (is_Some (PeerManager.GetPeer id w) ->
   S (PeerManager.PeerCount w') = PeerManager.PeerCount w) /\
  (peers_keyed w ->
   forall t p, In p (PeerManager.GetPeersByType t w') -> Peer.ID p <> id).
Proof.
  cbn zeta. unfold PeerManager.GetPeer, PeerManager.PeerCount.
  assert (Hgone : peers (PeerManager.RemovePeer id w) !! id = None)
    by (rewrite RemovePeer_peers; apply lookup_delete_eq).
  split; [exact Hgone|]. split.
  { intros k Hk. rewrite RemovePeer_peers. apply lookup_delete_ne. auto. }
  split; [apply RemovePeer_absent|].
  split; [apply RemovePeer_absent, Hgone|]. split.
  { intros [p Hp]. rewrite RemovePeer_peers.
    rewrite (map_size_delete_Some id (peers w)) by eauto.
    pose proof (map_size_ne_0_lookup_2 (peers w) id (ltac:(eauto))). lia. }
  intros Hk t p Hin Hid.
  apply in_GetPeersByType in Hin as [[k Hp] _].
  pose proof (RemovePeer_keyed id w Hk k p Hp) as Hkey.
  rewrite <- Hkey, Hid in Hp. rewrite Hgone in Hp. discriminate.
Qed.

Lemma SendToPeer_delivery id data w :
  PeerManager.SendToPeer id data w
  = match peers w !! id with
    | Some p =>
        match Peer.DataChannel p with
        | Some dc =>
            match DataChannel.ReadyState dc with
            | DataChannelStateOpen =>
                if DataChannel.SendErr dc then (w, Some "send failed")
                else (deliver (Delivery.mk Datagram (Peer.ID p)
                                           (Peer.Type_ p) data) w, None)
            | _ => (w, Some "data channel not open")
            end
        | None => (w, Some "peer has no data channel")
        end
    | None => (w, Some "peer not found")
    end.
Proof. reflexivity. Qed.

(** X9.  [SendToPeer] returns a nil error exactly when the id is registered with
    a data channel that is open and whose send succeeds; then one delivery
    of the given bytes to that peer is made, and otherwise nothing at all
    changes. *)
Theorem SendToPeer_outcome (id : string) (data : bytes) (w : World) :
  (snd (PeerManager.SendToPeer id data w) = None <->
   exists p dc,
     PeerManager.GetPeer id w = Some p /\ Peer.DataChannel p = Some dc /\
     DataChannel.ReadyState dc = DataChannelStateOpen /\
     DataChannel.SendErr dc = false) /\
  (forall p, PeerManager.GetPeer id w = Some p ->
     snd (PeerManager.SendToPeer id data w) = None ->
     fst (PeerManager.SendToPeer id data w)
     = deliver (Delivery.mk Datagram (Peer.ID p) (Peer.Type_ p) data) w) /\
  (snd (PeerManager.SendToPeer id data w) <> None ->
   fst (PeerManager.SendToPeer id data w) = w).
Proof.
  rewrite SendToPeer_delivery. unfold PeerManager.GetPeer.
  destruct (peers w !! id) as [p|].
  2:{ cbn. split; [|split]; [split|..].
      - discriminate.
      - intros (p & dc & H & _). discriminate.
      - intros p H. discriminate.
      - reflexivity. }
  destruct (Peer.DataChannel p) as [dc|] eqn:Hdc.
  2:{ cbn. split; [|split]; [split|..].
      - discriminate.
      - intros (p' & dc & H & H' & _). inversion H; subst p'. congruence.
      - discriminate.
      - reflexivity. }
  destruct (DataChannel.ReadyState dc) eqn:Hst;
    try (cbn; split; [|split]; [split|..];
         [ discriminate
         | intros (p' & dc' & H & H' & H'' & _); inversion H; subst p';
           rewrite Hdc in H'; inversion H'; subst dc'; congruence
         | discriminate
         | reflexivity ]).
  destruct (DataChannel.SendErr dc) eqn:Herr; cbn.
  - split; [|split]; [split|..].
    + discriminate.
    + intros (p' & dc' & H & H' & _ & H''). inversion H; subst p'.
      rewrite Hdc in H'. inversion H'; subst dc'. congruence.
    + discriminate.
    + reflexivity.
  - split; [|split]; [split|..].
    + intros _. exists p, dc. auto.
    + reflexivity.
    + intros p' H _. inversion H. reflexivity.
    + intros H. exfalso. apply H. reflexivity.
Qed.

(** X10.  Nothing is sent to a peer that has been removed: a send to its id
    fails and leaves the state as it is, and no broadcast, whatever the
    type, reaches the id. *)
Theorem no_send_after_RemovePeer (id : string) (data : bytes) (w : World) :
  let w' := PeerManager.RemovePeer id w in
  PeerManager.SendToPeer id data w' = (w', Some "peer not found") /\
  (peers_keyed w ->
   forall t d, In d (wire (fst (PeerManager.BroadcastToType t data w'))) ->
               In d (wire w') \/ Delivery.to_id d <> id).
Proof.
  cbn zeta. split.
  - rewrite SendToPeer_delivery, RemovePeer_peers, lookup_delete_eq.
    reflexivity.
  - intros Hk t d Hin.
    destruct (pm_broadcast_spec t data (PeerManager.RemovePeer id w))
      as (_ & _ & _ & _ & _ & Hwire & _).
    rewrite Hwire in Hin. apply in_app_or in Hin as [Hin|Hin]; [left; exact Hin|].
    right. intros Hid.
    apply (datagram_delivery_role t data _ d (RemovePeer_keyed id w Hk)) in Hin
      as (_ & _ & _ & p & Hp & _).
    rewrite Hid, RemovePeer_peers, lookup_delete_eq in Hp. discriminate.
Qed.

Lemma length_omap_le {A B} (f : A -> option B) (l : list A) :
  (length (omap f l) <= length l)%nat.
Proof.
  induction l as [|a l IH]; [reflexivity|].
  cbn [omap list_omap]. destruct (f a); cbn [length]; lia.
Qed.

(** X11.  [BroadcastToType] returns the number of deliveries it made, which is
    at most the number of registered peers of that type; every delivery
    carries the given bytes to a registered peer of that type, and the
    registries, counters and log are left alone. *)
Theorem BroadcastToType_count (target : PeerType) (data : bytes) (w : World) :
  peers_keyed w ->
  let r := PeerManager.BroadcastToType target data w in
  exists ds,
    wire (fst r) = wire w ++ ds /\
    snd r = Z.of_nat (length ds) /\
    (length ds <= length (PeerManager.GetPeersByType target w))%nat /\
    (forall d, In d ds ->
       Delivery.transport d = Datagram /\ Delivery.to_role d = target /\
       Delivery.payload d = data /\
       is_Some (PeerManager.GetPeer (Delivery.to_id d) w)) /\
    peers (fst r) = peers w /\ dataClients (fst r) = dataClients w /\
    stats (fst r) = stats w /\ logs (fst r) = logs w.
Proof.
  intros Hk. cbn zeta.
  destruct (pm_broadcast_spec target data w)
    as (H1 & H2 & H3 & H4 & _ & H6 & H7).
  eexists. split; [exact H6|]. split; [exact H7|].
  split; [apply length_omap_le|]. split.
  - intros d Hin.
    apply (datagram_delivery_role target data w d Hk) in Hin
      as (Ht & Hr & Hp & p & Hlook & _).
    unfold PeerManager.GetPeer. rewrite Hlook. eauto.
  - auto.
Qed.

Lemma setupDataChannel_absent k dc w :
  peers w !! k = None -> PeerManager.setupDataChannel k dc w = w.
Proof.
  intros Hk. destruct w as [ps dcs st wi lg wr].
  unfold PeerManager.setupDataChannel, set_peers.
  cbn [peers dataClients stats wire logs wiring] in *.
  f_equal. apply map_eq. intros j.
  destruct (decide (k = j)) as [<-|Hkj].
  - rewrite lookup_alter_eq, Hk. reflexivity.
  - apply lookup_alter_ne. exact Hkj.
Qed.

(** X12.  The life of a data channel: a peer that was just created cannot be
    sent to; once an open channel is attached a send succeeds; with a
    channel in any other state, or one whose send fails, it does not; and a
    channel that could not be created leaves the state as it is. *)
Theorem data_channel_lifecycle
    (uuid : string) (peerType : PeerType) (dc : DataChannel.t)
    (data : bytes) (w : World) :
  let id := short_id uuid in
  let w1 := fst (PeerManager.CreatePeer uuid None peerType w) in
  let w2 := fst (PeerChannel.CreateDataChannel
                   (Peer.mk id peerType None) None dc w1) in
  PeerManager.SendToPeer id data w1 = (w1, Some "peer has no data channel") /\
  PeerManager.GetPeer id w2 = Some (Peer.mk id peerType (Some dc)) /\
  (snd (PeerManager.SendToPeer id data w2) = None <->
   DataChannel.ReadyState dc = DataChannelStateOpen /\
   DataChannel.SendErr dc = false) /\
  (forall err,
     fst (PeerChannel.CreateDataChannel (Peer.mk id peerType None)
            (Some err) dc w1) = w1) /\
  (forall k, PeerManager.GetPeer k w = None -> k <> id ->
     PeerManager.setupDataChannel k dc w1 = w1).
Proof.
  cbn zeta.
  set (id := short_id uuid).
  assert (H1 : peers (fst (PeerManager.CreatePeer uuid None peerType w)) !! id
               = Some (Peer.mk id peerType None))
    by (cbn; apply lookup_insert_eq).
  set (w1 := fst (PeerManager.CreatePeer uuid None peerType w)) in *.
  assert (H2 : peers (PeerManager.setupDataChannel id dc w1) !! id
               = Some (Peer.mk id peerType (Some dc))).
  { unfold PeerManager.setupDataChannel. cbn [set_peers peers].
    rewrite lookup_alter_eq, H1. reflexivity. }
  split.
  { rewrite SendToPeer_delivery, H1. reflexivity. }
  split; [exact H2|]. split.
  { cbn [PeerChannel.CreateDataChannel fst Peer.ID].
    rewrite SendToPeer_delivery, H2. cbn [Peer.DataChannel].
    destruct (DataChannel.ReadyState dc), (DataChannel.SendErr dc);
      cbn [snd];
      (split;
       [ intros H; try discriminate H; auto
       | intros [Ha Hb]; try discriminate Ha; try discriminate Hb;
         reflexivity ]). }
  split; [reflexivity|].
  intros k Hk Hne. apply setupDataChannel_absent.
  subst w1. cbn. rewrite lookup_insert_ne by auto. exact Hk.
Qed.

(** [Close] empties the registry: no lookup and no enumeration finds a
    peer, and a broadcast afterwards sends to nobody. *)
Theorem Close_empties (t : PeerType) (data : bytes) (w : World) :
  let w' := PeerManager.Close w in
  PeerManager.PeerCount w' = 0%nat /\
  (forall id, PeerManager.GetPeer id w' = None) /\
  PeerManager.GetPeersByType t w' = [] /\
  PeerManager.BroadcastToType t data w' = (w', 0) /\
  dataClients w' = dataClients w.
Proof.
  cbn zeta.
  assert (Hlist : PeerManager.GetPeersByType t (PeerManager.Close w) = []).
  { unfold PeerManager.GetPeersByType, PeerManager.Close.
    cbn [set_peers peers]. rewrite map_to_list_empty. reflexivity. }
  split; [apply map_size_empty|].
  split; [intros id; apply lookup_empty|].
  split; [exact Hlist|]. split; [|reflexivity].
  unfold PeerManager.BroadcastToType. rewrite Hlist. reflexivity.
Qed.

End PeerRegistry.

(* ===================================================================== *)
(** ** The counters of the router *)
(* ===================================================================== *)

Section Counters.
Import Word.

Lemma HandleMessage_stats now from data w :
  stats (MessageRouter.HandleMessage now from data w) = router_stats from data w.
Proof.
  unfold MessageRouter.HandleMessage, router_stats.
  destruct (Twist.DecodeTwist data) as [twist|e]; [|reflexivity].
  set (w0 := if negb (Twist.IsZero twist) then _ else _).
  assert (H0 : peers w0 = peers w /\ wiring w0 = wiring w /\
               dataClients w0 = dataClients w /\
               stats w0 = RouterStats.incReceived (stats w))
    by (subst w0; destruct (negb _); cbn; auto).
  clearbody w0. destruct H0 as (Hp & Hw & Hdc & Hs).
  assert (Harm : forall t kind,
             stats (MessageRouter.route_to t kind data w0)
             = arm_stats t data w (RouterStats.incReceived (stats w))).
  { intros t kind.
    destruct (route_to_spec t kind data w0) as (_ & _ & _ & Hst & _).
    rewrite Hst, Hw, Hs. unfold arm_stats.
    rewrite (datagram_fanout_ext t data w0 w Hp).
    rewrite (socket_fanout_ext _ data w0 w Hdc).
    destruct (Wiring.router_wsManager (wiring w)); reflexivity. }
  destruct (String.eqb (Peer.Type_ from) PeerTypeWeb); [apply Harm|].
  destruct (String.eqb (Peer.Type_ from) PeerTypePython); [apply Harm|].
  exact Hs.
Qed.

Lemma handleBinaryData_stats now c data w :
  stats (WSInbound.handleBinaryData now c data w) = binary_stats c data w.
Proof.
  unfold WSInbound.handleBinaryData, binary_stats.
  set (w0 := if Wiring.ws_router (wiring w) then _ else w).
  assert (H0 : peers w0 = peers w /\ wiring w0 = wiring w /\
               dataClients w0 = dataClients w /\
               stats w0 = (if Wiring.ws_router (wiring w)
                           then RouterStats.incReceived (stats w)
                           else stats w))
    by (subst w0; destruct (Wiring.ws_router _); cbn; auto).
  destruct (Twist.DecodeTwist data) as [twist|e]; [|cbn; tauto].
  set (w1 := if negb (Twist.IsZero twist) then _ else w0).
  assert (H1 : peers w1 = peers w /\ wiring w1 = wiring w /\
               dataClients w1 = dataClients w /\
               stats w1 = (if Wiring.ws_router (wiring w)
                           then RouterStats.incReceived (stats w)
                           else stats w))
    by (subst w1; destruct (negb _); cbn; tauto).
  clearbody w1. clear H0. destruct H1 as (Hp & Hw & Hdc & Hs).
  destruct (forwardData_spec (WSClient.ID c) (WSClient.PeerType c) data w1)
    as (F1 & F2 & _ & _ & F5 & _).
  rewrite (socket_fanout_length _ data w1) in F5.
  rewrite (socket_fanout_ext _ data w1 w Hdc), Hw, Hs in F5.
  set (w2 := WSManager.forwardData _ _ data w1) in *.
  rewrite F2, Hw. cbn zeta. rewrite <- F5.
  destruct (Wiring.ws_peerManager (wiring w)); [|reflexivity].
  fold (opposite_bridge (WSClient.PeerType c)).
  pose proof (pm_broadcast_spec (opposite_bridge (WSClient.PeerType c))
                data w2) as Hpm.
  cbn zeta in Hpm.
  destruct (PeerManager.BroadcastToType _ data w2) as [w3 sent].
  cbn [fst snd] in Hpm. destruct Hpm as (_ & _ & P3 & _ & P5 & _ & P7).
  fold (datagram_fanout (opposite_bridge (WSClient.PeerType c)) data w2) in P7.
  rewrite (datagram_fanout_ext _ data w2 w) in P7 by congruence.
  rewrite <- P7.
  destruct (0 <? sent); cbn [andb]; [|exact P3].
  cbn [log wiring]. rewrite P5, F2, Hw.
  destruct (Wiring.ws_router (wiring w)); cbn [log set_stats stats];
    rewrite P3; reflexivity.
Qed.

Lemma add64_to_uint64 x a : add64 x (to_uint64 a) = to_uint64 (x + a).
Proof. unfold add64, to_uint64. apply Zplus_mod_idemp_r. Qed.

Lemma add64_chain x a b :
  add64 (to_uint64 (x + a)) (to_uint64 b) = to_uint64 (x + (a + b)).
Proof.
  unfold add64, to_uint64.
  rewrite Zplus_mod_idemp_r, Zplus_mod_idemp_l. f_equal. lia.
Qed.

Lemma to_uint64_id x : is_uint64 x -> to_uint64 x = x.
Proof. intros H. unfold to_uint64. apply Z.mod_small. exact H. Qed.

Lemma forwarded_of_arm t data w s :
  RouterStats.MessagesForwarded (arm_stats t data w s)
  = to_uint64 (RouterStats.MessagesForwarded s +
               Z.of_nat (length (router_fanout t data w))).
Proof.
  unfold arm_stats, router_fanout.
  destruct (Wiring.router_wsManager (wiring w));
    cbn [RouterStats.addForwarded RouterStats.MessagesForwarded].
  - rewrite (add64_to_uint64 (RouterStats.MessagesForwarded s)).
    rewrite add64_chain, length_app, Nat2Z.inj_add. reflexivity.
  - rewrite add64_to_uint64, app_nil_r. reflexivity.
Qed.

(** X13.  The forwarded counter counts deliveries: after any inbound frame it has
    grown, modulo 2^64, by the number of frames handed to transports. *)
Theorem forwarded_counts_deliveries (now : Z) (i : Inbound) (w w' : World) :
  route now i w = Some w' ->
  Wiring.ws_router (wiring w) = true ->
  is_uint64 (RouterStats.MessagesForwarded (stats w)) ->
  RouterStats.MessagesForwarded (stats w')
  = to_uint64 (RouterStats.MessagesForwarded (stats w) +
               Z.of_nat (length (fanned i w))).
Proof.
  intros Hroute Hwired Hwf.
  assert (Hzero : RouterStats.MessagesForwarded (stats w)
                  = to_uint64 (RouterStats.MessagesForwarded (stats w)
                               + Z.of_nat 0))
    by (cbn [Z.of_nat]; rewrite Z.add_0_r, to_uint64_id; auto).
  destruct i as [from data|c data|c msg]; cbn [route fanned] in *.
  - inversion Hroute; subst w'. rewrite HandleMessage_stats.
    unfold router_stats.
    destruct (Twist.DecodeTwist data); [|exact Hzero].
    destruct (String.eqb (Peer.Type_ from) PeerTypeWeb);
      [rewrite forwarded_of_arm; reflexivity|].
    destruct (String.eqb (Peer.Type_ from) PeerTypePython);
      [rewrite forwarded_of_arm; reflexivity|].
    exact Hzero.
  - inversion Hroute; subst w'. rewrite handleBinaryData_stats.
    unfold binary_stats. rewrite Hwired.
    destruct (Twist.DecodeTwist data); [|exact Hzero].
    cbn zeta. cbn [andb]. rewrite Bool.andb_true_r.
    set (sk := socket_fanout _ data w).
    set (dg := datagram_fanout _ data w).
    assert (H1 : RouterStats.MessagesForwarded
                   (if 0 <? Z.of_nat (length sk)
                    then RouterStats.addForwarded (Z.of_nat (length sk))
                           (RouterStats.incReceived (stats w))
                    else RouterStats.incReceived (stats w))
                 = to_uint64 (RouterStats.MessagesForwarded (stats w)
                              + Z.of_nat (length sk))).
    { destruct (Z.ltb_spec 0 (Z.of_nat (length sk))) as [Hpos|Hnon].
      - cbn. apply add64_to_uint64.
      - replace (Z.of_nat (length sk)) with 0 by lia.
        cbn. rewrite Z.add_0_r, to_uint64_id; auto. }
    destruct (Wiring.ws_peerManager (wiring w)).
    + rewrite length_app, Nat2Z.inj_add.
      destruct (Z.ltb_spec 0 (Z.of_nat (length dg))) as [Hpos|Hnon].
      * cbn [RouterStats.addForwarded RouterStats.MessagesForwarded].
        rewrite H1. apply add64_chain.
      * replace (Z.of_nat (length dg)) with 0 by lia.
        rewrite Z.add_0_r. exact H1.
    + rewrite app_nil_r. exact H1.
  - destruct (handleDataMessage_wire now c msg w w' Hroute)
      as (_ & _ & Hs & _).
    rewrite Hs.
    destruct (String.eqb (DataMessage.Type_ msg) "twist"); [|exact Hzero].
    destruct (forwardData_spec (WSClient.ID c) (WSClient.PeerType c)
                (DataMessage.Data msg) w) as (_ & _ & _ & _ & F5 & _).
    rewrite F5, Hwired, (socket_fanout_length _ (DataMessage.Data msg)).
    cbn [andb].
    set (sk := socket_fanout _ _ w).
    destruct (Z.ltb_spec 0 (Z.of_nat (length sk))) as [Hpos|Hnon].
    + cbn. apply add64_to_uint64.
    + replace (Z.of_nat (length sk)) with 0 by lia. exact Hzero.
Qed.

(** X14.  The received counter counts binary frames, decodable or not: one per
    datagram message and one per binary socket message; a JSON message is
    not counted.  The parse-error counter moves only when a datagram
    message fails to decode. *)
Theorem received_counts_frames (now : Z) (i : Inbound) (w w' : World) :
  route now i w = Some w' ->
  Wiring.ws_router (wiring w) = true ->
  RouterStats.MessagesReceived (stats w')
  = match i with
    | FromDatagram _ _ | FromSocketBinary _ _ =>
        add64 (RouterStats.MessagesReceived (stats w)) 1
    | FromSocketJson _ _ => RouterStats.MessagesReceived (stats w)
    end /\
  RouterStats.ParseErrors (stats w')
  = match i with
    | FromDatagram _ data =>
        match Twist.DecodeTwist data with
        | Twist.Err _ => add64 (RouterStats.ParseErrors (stats w)) 1
        | Twist.Ok _ => RouterStats.ParseErrors (stats w)
        end
    | _ => RouterStats.ParseErrors (stats w)
    end.
Proof.
  intros Hroute Hwired.
  destruct i as [from data|c data|c msg]; cbn [route] in *.
  - inversion Hroute; subst w'. rewrite HandleMessage_stats.
    unfold router_stats, arm_stats.
    destruct (Twist.DecodeTwist data); [|split; reflexivity].
    destruct (String.eqb (Peer.Type_ from) PeerTypeWeb);
      [destruct (Wiring.router_wsManager _); split; reflexivity|].
    destruct (String.eqb (Peer.Type_ from) PeerTypePython);
      [destruct (Wiring.router_wsManager _); split; reflexivity|].
    split; reflexivity.
  - inversion Hroute; subst w'. rewrite handleBinaryData_stats.
    unfold binary_stats. rewrite Hwired.
    destruct (Twist.DecodeTwist data); [|split; reflexivity].
    cbn zeta.
    repeat match goal with
           | |- context [if ?b then _ else _] => destruct b
           end; split; reflexivity.
  - destruct (handleDataMessage_wire now c msg w w' Hroute)
      as (_ & _ & Hs & _).
    rewrite Hs.
    destruct (String.eqb (DataMessage.Type_ msg) "twist");
      [|split; reflexivity].
    destruct (forwardData_spec (WSClient.ID c) (WSClient.PeerType c)
                (DataMessage.Data msg) w) as (_ & _ & _ & _ & F5 & _).
    rewrite F5. destruct (_ && _); split; reflexivity.
Qed.

End Counters.

(* ===================================================================== *)
(** ** What a fan-out hands out *)
(* ===================================================================== *)

Section FanoutExtras.

Lemma in_datagram_fanout t data w d :
  In d (datagram_fanout t data w) ->
  Delivery.transport d = Datagram /\ Delivery.payload d = data.
Proof.
  unfold datagram_fanout. intros Hin.
  apply list_elem_of_In, list_elem_of_omap in Hin as (peer & _ & Hd).
  unfold datagram_delivery in Hd.
  destruct (peers w !! Peer.ID peer) as [p|]; [|discriminate].
  destruct (Peer.DataChannel p) as [dc|]; [|discriminate].
  destruct (DataChannel.ReadyState dc); try discriminate.
  destruct (DataChannel.SendErr dc); [discriminate|].
  inversion Hd. auto.
Qed.

Lemma in_socket_fanout_payload sel data w d :
  In d (socket_fanout sel data w) ->
  Delivery.transport d = Socket /\ Delivery.payload d = data.
Proof.
  intros Hin. apply in_socket_fanout in Hin as (k & c & _ & _ & _ & ->).
  auto.
Qed.

Lemma fanned_payload i w d :
  In d (fanned i w) -> Delivery.payload d = inbound_bytes i.
Proof.
  assert (Hrt : forall t data, In d (router_fanout t data w) ->
                               Delivery.payload d = data).
  { intros t data Hin. unfold router_fanout in Hin.
    apply in_app_or in Hin as [Hin|Hin].
    - apply in_datagram_fanout in Hin. tauto.
    - destruct (Wiring.router_wsManager _); [|destruct Hin].
      apply in_socket_fanout_payload in Hin. tauto. }
  destruct i as [from data|c data|c msg]; cbn [fanned inbound_bytes].
  - destruct (Twist.DecodeTwist data); [|intros []].
    destruct (String.eqb _ PeerTypeWeb); [apply Hrt|].
    destruct (String.eqb _ PeerTypePython); [apply Hrt|intros []].
  - destruct (Twist.DecodeTwist data); [|intros []].
    intros Hin. apply in_app_or in Hin as [Hin|Hin].
    + apply in_socket_fanout_payload in Hin. tauto.
    + destruct (Wiring.ws_peerManager _); [|destruct Hin].
      apply in_datagram_fanout in Hin. tauto.
  - destruct (String.eqb _ "twist"); [|intros []].
    intros Hin. apply in_socket_fanout_payload in Hin. tauto.
Qed.

Lemma after_fanout_cases sel data c :
  after_fanout sel data c = c \/ after_fanout sel data c = enqueued data c.
Proof. unfold after_fanout. destruct (_ && _); auto. Qed.

(** X15.  The relay forwards the bytes it received, untouched: every delivery
    carries exactly the inbound bytes, and a socket client's buffer either
    stays as it was or gains those bytes as one raw frame at its tail. *)
Theorem frames_forwarded_verbatim (now : Z) (i : Inbound) (w w' : World) :
  route now i w = Some w' ->
  wire w' = wire w ++ fanned i w /\
  (forall d, In d (fanned i w) -> Delivery.payload d = inbound_bytes i) /\
  ((forall c msg, i = FromSocketJson c msg ->
                  DataMessage.Type_ msg = "twist") ->
   forall k c, dataClients w !! k = Some c ->
     dataClients w' !! k = Some c \/
     dataClients w' !! k = Some (enqueued (inbound_bytes i) c)).
Proof.
  intros Hroute.
  destruct (route_wire now i w w' Hroute) as (_ & _ & Hwire).
  split; [exact Hwire|]. split; [intros d; apply fanned_payload|].
  intros Htwist k c Hc.
  destruct i as [from data|c0 data|c0 msg]; cbn [route inbound_bytes] in *.
  - inversion Hroute; subst w'.
    destruct (HandleMessage_clients now from data w k) as (t & [H|[_ H]]);
      rewrite H, Hc; [left; reflexivity|].
    cbn. destruct (after_fanout_cases (sel_broadcast t) data c) as [-> | ->];
      auto.
  - inversion Hroute; subst w'. rewrite handleBinaryData_clients, Hc.
    destruct (Twist.DecodeTwist data); [|left; reflexivity].
    cbn. destruct (after_fanout_cases
                     (sel_forward (WSClient.ID c0)
                        (opposite_socket (WSClient.PeerType c0))) data c)
      as [-> | ->]; auto.
  - rewrite handleDataMessage_twist in Hroute by (apply (Htwist c0); reflexivity).
    inversion Hroute; subst w'.
    destruct (forwardData_spec (WSClient.ID c0) (WSClient.PeerType c0)
                (DataMessage.Data msg) w) as (_ & _ & _ & _ & _ & Fc).
    rewrite Fc, Hc. cbn.
    destruct (after_fanout_cases
                (sel_forward (WSClient.ID c0)
                   (opposite_socket (WSClient.PeerType c0)))
                (DataMessage.Data msg) c) as [-> | ->]; auto.
Qed.

Lemma fanned_other_roles (w : World) :
  (forall from data,
     Peer.Type_ from <> PeerTypeWeb -> Peer.Type_ from <> PeerTypePython ->
     fanned (FromDatagram from data) w = []) /\
  (forall c data d,
     peers_keyed w ->
     WSClient.PeerType c <> "web" -> WSClient.PeerType c <> "python" ->
     In d (fanned (FromSocketBinary c data) w) ->
     (Delivery.transport d = Socket /\ Delivery.to_role d = "python") \/
     (Delivery.transport d = Datagram /\ Delivery.to_role d = "web")).
Proof.
  split.
  - intros from data Hw Hp. cbn [fanned].
    apply String.eqb_neq in Hw, Hp. rewrite Hw, Hp.
    destruct (Twist.DecodeTwist data); reflexivity.
  - intros c data d Hk Hw Hp Hin.
    pose proof (fanned_delivered_as _ w d Hk Hin) as Hd.
    cbn [delivered_as] in Hd. unfold opposite_socket, opposite_bridge in Hd.
    apply String.eqb_neq in Hw, Hp. rewrite Hw, Hp in Hd.
    destruct Hd as [_ [(Ht & Hr & _)|(Ht & Hr)]]; auto.
Qed.

(** X16.  Roles other than "web" and "python".  A frame from a datagram
    peer of another type is counted and dropped by [HandleMessage]:
    nothing is handed to a transport, no buffer changes and the forwarded
    counter stays.  /ws/data keeps whatever type the query named.  The
    frames [handleBinaryData] receives from a socket client of another
    type are handed to python socket clients and to web datagram peers
    only. *)
Theorem roles_outside_web_python (w : World) :
  (forall now from data,
     Peer.Type_ from <> PeerTypeWeb -> Peer.Type_ from <> PeerTypePython ->
     let w' := MessageRouter.HandleMessage now from data w in
     wire w' = wire w /\ dataClients w' = dataClients w /\
     peers w' = peers w /\
     RouterStats.MessagesForwarded (stats w')
     = RouterStats.MessagesForwarded (stats w) /\
     RouterStats.MessagesReceived (stats w')
     = Word.add64 (RouterStats.MessagesReceived (stats w)) 1) /\
  (forall ty uuid now,
     ty <> "" ->
     dataClients (WSManager.HandleDataWS true ty uuid now w) !! short_id uuid
     = Some (WSClient.mk (short_id uuid) ty
               (Chan.mk [Json (DataMessage.mk "welcome" (short_id uuid) ty
                                              [] now)] 256))) /\
  (forall now c data,
     peers_keyed w ->
     WSClient.PeerType c <> "web" -> WSClient.PeerType c <> "python" ->
     exists ds,
       wire (WSInbound.handleBinaryData now c data w) = wire w ++ ds /\
       forall d, In d ds ->
         (Delivery.transport d = Socket /\ Delivery.to_role d = "python") \/
         (Delivery.transport d = Datagram /\ Delivery.to_role d = "web")).
Proof.
  split; [|split].
  - intros now from data Hw Hp. cbn zeta.
    unfold MessageRouter.HandleMessage.
    apply String.eqb_neq in Hw, Hp. rewrite Hw, Hp.
    destruct (Twist.DecodeTwist data) as [t|e];
      [destruct (negb (Twist.IsZero t))|]; cbn; repeat split; reflexivity.
  - intros ty uuid now Hty. rewrite HandleDataWS_ok. cbn zeta.
    cbn [log set_dataClients dataClients]. rewrite lookup_insert_eq.
    apply String.eqb_neq in Hty. rewrite Hty. reflexivity.
  - intros now c data Hk Hw Hp.
    destruct (handleBinaryData_wire now c data w) as (_ & _ & Hwire).
    exists (fanned (FromSocketBinary c data) w). split; [exact Hwire|].
    intros d Hin.
    exact (proj2 (fanned_other_roles w) c data d Hk Hw Hp Hin).
Qed.

Lemma NoDup_map_filter {A B} (f : A -> B) (P : A -> bool) (l : list A) :
  NoDup (List.map f l) -> NoDup (List.map f (List.filter P l)).
Proof.
  induction l as [|a l IH]; cbn; intros Hnd; [constructor|].
  apply NoDup_cons in Hnd as [Hnotin Hnd].
  destruct (P a); cbn; [|auto].
  apply NoDup_cons. split; [|auto].
  intros Hin. apply Hnotin.
  apply list_elem_of_In in Hin. apply list_elem_of_In.
  apply in_map_iff in Hin as (x & Hx & Hin).
  apply filter_In in Hin as [Hin _].
  apply in_map_iff. exists x. auto.
Qed.

Lemma NoDup_map_omap {A B K} (key : A -> K) (g : A -> option B)
    (kb : B -> K) (l : list A) :
  NoDup (List.map key l) ->
  (forall a b, In a l -> g a = Some b -> kb b = key a) ->
  NoDup (List.map kb (omap g l)).
Proof.
  induction l as [|a l IH]; cbn [List.map omap list_omap];
    intros Hnd Hkey; [constructor|].
  apply NoDup_cons in Hnd as [Hnotin Hnd].
  assert (IH' : NoDup (List.map kb (omap g l)))
    by (apply IH; [exact Hnd|intros a' b' Hin; apply Hkey; right; exact Hin]).
  destruct (g a) as [b|] eqn:Hg; [|exact IH'].
  cbn [List.map]. apply NoDup_cons. split; [|exact IH'].
  intros Hin. apply Hnotin.
  apply list_elem_of_In in Hin. apply list_elem_of_In.
  apply in_map_iff in Hin as (b' & Hb' & Hin).
  apply list_elem_of_In, list_elem_of_omap in Hin as (a' & Ha' & Hg').
  apply list_elem_of_In in Ha'.
  apply in_map_iff. exists a'. split; [|exact Ha'].
  rewrite <- (Hkey a' b' (or_intror Ha') Hg'), Hb'.
  apply Hkey; [left; reflexivity|exact Hg].
Qed.

Lemma NoDup_datagram_ids t data w :
  peers_keyed w ->
  NoDup (List.map Delivery.to_id (datagram_fanout t data w)).
Proof.
  intros Hk. unfold datagram_fanout, PeerManager.GetPeersByType.
  apply (NoDup_map_omap Peer.ID).
  - apply NoDup_map_filter. rewrite map_map.
    rewrite (map_ext_in _ fst).
    + apply NoDup_fst_map_to_list.
    + intros [k p] Hin. cbn.
      apply list_elem_of_In, elem_of_map_to_list in Hin. exact (Hk k p Hin).
  - intros peer d Hin Hd.
    apply filter_In in Hin as [Hin _].
    apply in_map_iff in Hin as ([k p] & Hp & Hin). cbn in Hp. subst p.
    apply list_elem_of_In, elem_of_map_to_list in Hin.
    pose proof (Hk k peer Hin) as Hid.
    unfold datagram_delivery in Hd. rewrite Hid, Hin in Hd.
    destruct (Peer.DataChannel peer) as [dc|]; [|discriminate].
    destruct (DataChannel.ReadyState dc); try discriminate.
    destruct (DataChannel.SendErr dc); [discriminate|].
    inversion Hd. reflexivity.
Qed.

Lemma NoDup_socket_ids sel data w :
  clients_keyed w ->
  NoDup (List.map Delivery.to_id (socket_fanout sel data w)).
Proof.
  intros Hk. unfold socket_fanout. rewrite map_map.
  rewrite (map_ext_in _ fst).
  - apply NoDup_map_filter, NoDup_fst_map_to_list.
  - intros [k c] Hin. cbn.
    apply filter_In in Hin as [Hin _].
    apply list_elem_of_In, elem_of_map_to_list in Hin. exact (Hk k c Hin).
Qed.

Lemma NoDup_targets_same tr (l : list Delivery.t) :
  (forall d, In d l -> Delivery.transport d = tr) ->
  NoDup (List.map Delivery.to_id l) -> NoDup (List.map target l).
Proof.
  induction l as [|a l IH]; cbn [List.map]; intros Htr Hnd; [constructor|].
  apply NoDup_cons in Hnd as [Hnotin Hnd].
  apply NoDup_cons. split.
  - intros Hin. apply Hnotin.
    apply list_elem_of_In in Hin. apply list_elem_of_In.
    apply in_map_iff in Hin as (x & Hx & Hin).
    apply in_map_iff. exists x. split; [|exact Hin].
    unfold target in Hx. inversion Hx. reflexivity.
  - apply IH; [intros d Hd; apply Htr; right; exact Hd|exact Hnd].
Qed.

Lemma NoDup_targets_app (dg sk : list Delivery.t) :
  (forall d, In d dg -> Delivery.transport d = Datagram) ->
  (forall d, In d sk -> Delivery.transport d = Socket) ->
  NoDup (List.map Delivery.to_id dg) ->
  NoDup (List.map Delivery.to_id sk) ->
  NoDup (List.map target (dg ++ sk)) /\ NoDup (List.map target (sk ++ dg)).
Proof.
  intros Hdg Hsk Ndg Nsk.
  pose proof (NoDup_targets_same Datagram dg Hdg Ndg) as N1.
  pose proof (NoDup_targets_same Socket sk Hsk Nsk) as N2.
  assert (Hdisj : forall x, In x (List.map target dg) ->
                            In x (List.map target sk) -> False).
  { intros x H1 H2.
    apply in_map_iff in H1 as (d1 & E1 & I1).
    apply in_map_iff in H2 as (d2 & E2 & I2).
    pose proof (Hdg d1 I1) as T1. pose proof (Hsk d2 I2) as T2.
    unfold target in E1, E2. rewrite <- E2 in E1. inversion E1. congruence. }
  rewrite !map_app. split; apply NoDup_app.
  - split; [exact N1|]. split; [|exact N2].
    intros x H1 H2. apply list_elem_of_In in H1, H2. eauto.
  - split; [exact N2|]. split; [|exact N1].
    intros x H1 H2. apply list_elem_of_In in H1, H2. eauto.
Qed.

Lemma fanned_NoDup (i : Inbound) (w : World) :
  peers_keyed w -> clients_keyed w ->
  NoDup (List.map target (fanned i w)).
Proof.
  intros Hp Hc.
  assert (Hdg : forall t data d, In d (datagram_fanout t data w) ->
                                 Delivery.transport d = Datagram)
    by (intros t data d Hin; apply in_datagram_fanout in Hin; tauto).
  assert (Hsk : forall sel data d, In d (socket_fanout sel data w) ->
                                   Delivery.transport d = Socket)
    by (intros sel data d Hin; apply in_socket_fanout_payload in Hin; tauto).
  assert (Hboth : forall t sel data,
            NoDup (List.map target
                     (datagram_fanout t data w ++ socket_fanout sel data w)) /\
            NoDup (List.map target
                     (socket_fanout sel data w ++ datagram_fanout t data w))).
  { intros t sel data. apply NoDup_targets_app.
    - apply Hdg.
    - apply Hsk.
    - apply NoDup_datagram_ids, Hp.
    - apply NoDup_socket_ids, Hc. }
  assert (Hd1 : forall t data,
            NoDup (List.map target (datagram_fanout t data w)))
    by (intros t data; apply (NoDup_targets_same Datagram);
        [apply Hdg|apply NoDup_datagram_ids, Hp]).
  assert (Hs1 : forall sel data,
            NoDup (List.map target (socket_fanout sel data w)))
    by (intros sel data; apply (NoDup_targets_same Socket);
        [apply Hsk|apply NoDup_socket_ids, Hc]).
  assert (Hrt : forall t data, NoDup (List.map target (router_fanout t data w))).
  { intros t data. unfold router_fanout.
    destruct (Wiring.router_wsManager _).
    - apply Hboth.
    - rewrite app_nil_r. apply Hd1. }
  destruct i as [from data|c data|c msg]; cbn [fanned].
  - destruct (Twist.DecodeTwist data); [|constructor].
    destruct (String.eqb _ PeerTypeWeb); [apply Hrt|].
    destruct (String.eqb _ PeerTypePython); [apply Hrt|constructor].
  - destruct (Twist.DecodeTwist data); [|constructor].
    destruct (Wiring.ws_peerManager _).
    + apply Hboth.
    + rewrite app_nil_r. apply Hs1.
  - destruct (String.eqb _ "twist"); [|constructor].
    apply Hs1.
Qed.

(** X17.  At most once: in a state whose registries are keyed by the ids
    of their records, the frames an entry point hands to the transports
    for one inbound frame go to pairwise different peers. *)
Theorem fanout_at_most_once (now : Z) (i : Inbound) (w w' : World) :
  route now i w = Some w' ->
  peers_keyed w -> clients_keyed w ->
  exists ds, wire w' = wire w ++ ds /\ NoDup (List.map target ds).
Proof.
  intros Hroute Hp Hc.
  destruct (route_wire now i w w' Hroute) as (_ & _ & Hwire).
  exists (fanned i w). split; [exact Hwire|].
  apply fanned_NoDup; assumption.
Qed.

Lemma filter_length_mono {A} (P Q : A -> bool) (l : list A) :
  (forall x, In x l -> P x = true -> Q x = true) ->
  (length (List.filter P l) <= length (List.filter Q l))%nat.
Proof.
  induction l as [|a l IH]; intros H; [reflexivity|].
  assert (IH' : (length (List.filter P l) <= length (List.filter Q l))%nat)
    by (apply IH; intros x Hx; apply H; right; exact Hx).
  cbn [List.filter]. destruct (P a) eqn:HP.
  - rewrite (H a (or_introl eq_refl) HP). cbn [length]. lia.
  - destruct (Q a); cbn [length]; lia.
Qed.

Lemma datagram_fanout_bound t r data w :
  t <> r ->
  (length (datagram_fanout t data w)
   <= length (List.filter (fun p => negb (String.eqb (Peer.Type_ p) r))
                          (List.map snd (map_to_list (peers w)))))%nat.
Proof.
  intros Hne. unfold datagram_fanout.
  etransitivity; [apply length_omap_le|].
  unfold PeerManager.GetPeersByType. apply filter_length_mono.
  intros p _ Hp. apply String.eqb_eq in Hp. rewrite Hp.
  apply Bool.negb_true_iff, String.eqb_neq. exact Hne.
Qed.

Lemma socket_fanout_bound sel t r data w :
  t <> r ->
  (forall c, sel c = true -> WSClient.PeerType c = t) ->
  (length (socket_fanout sel data w)
   <= length (List.filter
                (fun kc => negb (String.eqb (WSClient.PeerType (snd kc)) r))
                (map_to_list (dataClients w))))%nat.
Proof.
  intros Hne Hsel. unfold socket_fanout. rewrite length_map.
  apply filter_length_mono. intros [k c] _ Ht.
  unfold taken in Ht. cbn [snd] in *.
  apply Bool.andb_true_iff in Ht as [Ht _].
  rewrite (Hsel c Ht). apply Bool.negb_true_iff, String.eqb_neq. exact Hne.
Qed.

Lemma fanned_bound (i : Inbound) (w : World) :
  (length (fanned i w) <= strangers (origin_role i) w)%nat.
Proof.
  unfold strangers.
  assert (Hbc : forall t, forall c, sel_broadcast t c = true ->
                                    WSClient.PeerType c = t)
    by (intros t c H; apply String.eqb_eq; exact H).
  assert (Hfw : forall id t, forall c, sel_forward id t c = true ->
                                       WSClient.PeerType c = t).
  { intros id t c H. unfold sel_forward in H.
    apply Bool.andb_true_iff in H as [_ H]. apply String.eqb_eq. exact H. }
  assert (Hrt : forall t data, t <> origin_role i ->
     (length (router_fanout t data w)
      <= length (List.filter
                   (fun p => negb (String.eqb (Peer.Type_ p) (origin_role i)))
                   (List.map snd (map_to_list (peers w)))) +
         length (List.filter
                   (fun kc => negb (String.eqb (WSClient.PeerType (snd kc))
                                               (origin_role i)))
                   (map_to_list (dataClients w))))%nat).
  { intros t data Hne. unfold router_fanout. rewrite length_app.
    pose proof (datagram_fanout_bound t _ data w Hne).
    pose proof (socket_fanout_bound (sel_broadcast t) t _ data w Hne (Hbc t)).
    destruct (Wiring.router_wsManager _); cbn [length]; lia. }
  destruct i as [from data|c data|c msg]; cbn [fanned origin_role] in *.
  - destruct (Twist.DecodeTwist data); [|cbn; lia].
    destruct (String.eqb_spec (Peer.Type_ from) PeerTypeWeb) as [Hw|_].
    { apply Hrt. rewrite Hw. discriminate. }
    destruct (String.eqb_spec (Peer.Type_ from) PeerTypePython) as [Hp|_].
    { apply Hrt. rewrite Hp. discriminate. }
    cbn; lia.
  - destruct (Twist.DecodeTwist data); [|cbn; lia].
    rewrite length_app.
    pose proof (socket_fanout_bound _ _ _ data w
                  (opposite_socket_neq (WSClient.PeerType c))
                  (Hfw (WSClient.ID c) _)).
    pose proof (datagram_fanout_bound _ _ data w
                  (opposite_bridge_neq (WSClient.PeerType c))).
    destruct (Wiring.ws_peerManager _); cbn [length]; lia.
  - destruct (String.eqb _ "twist"); [|cbn; lia].
    pose proof (socket_fanout_bound _ _ _ (DataMessage.Data msg) w
                  (opposite_socket_neq (WSClient.PeerType c))
                  (Hfw (WSClient.ID c) _)).
    lia.
Qed.

(** X18.  For one inbound frame an entry point hands out at most as many
    frames as there are registered peers and clients of a role other than
    the origin's. *)
Theorem fanout_bounded_by_strangers (now : Z) (i : Inbound)
    (w w' : World) :
  route now i w = Some w' ->
  exists ds, wire w' = wire w ++ ds /\
             (length ds <= strangers (origin_role i) w)%nat.
Proof.
  intros Hroute.
  destruct (route_wire now i w w' Hroute) as (_ & _ & Hwire).
  exists (fanned i w). split; [exact Hwire|apply fanned_bound].
Qed.

End FanoutExtras.

(* ===================================================================== *)
(** ** The reports of /stats and /status *)
(* ===================================================================== *)

Section Reports.
Import Signaling Endpoints.

Lemma filter_split_length {A} (P : A -> bool) (l : list A) :
  (length (List.filter P l) + length (List.filter (fun x => negb (P x)) l)
   = length l)%nat.
Proof.
  induction l as [|a l IH]; [reflexivity|].
  cbn [List.filter]. destruct (P a); cbn [negb length]; lia.
Qed.

Lemma count_loop l : forall a b,
  fold_left WSCounts.count_step l (a, b)
  = ((a + length (List.filter
                    (fun kc => String.eqb (WSClient.PeerType (snd kc)) "web")
                    l))%nat,
     (b + length (List.filter
                    (fun kc =>
                       negb (String.eqb (WSClient.PeerType (snd kc)) "web"))
                    l))%nat).
Proof.
  induction l as [|kc l IH]; intros a b; cbn [fold_left List.filter].
  - f_equal; cbn; lia.
  - unfold WSCounts.count_step at 2. cbn [fst snd].
    destruct (String.eqb (WSClient.PeerType (snd kc)) "web");
      rewrite IH; cbn [negb length]; f_equal; lia.
Qed.

Lemma filter_length_Permutation {A} (P : A -> bool) (l l' : list A) :
  l ≡ₚ l' -> length (List.filter P l) = length (List.filter P l').
Proof.
  induction 1 as [|x l l' _ IH|x y l|l l' l'' _ IH1 _ IH2].
  - reflexivity.
  - cbn [List.filter]. destruct (P x); cbn [length]; lia.
  - cbn [List.filter]. destruct (P x), (P y); reflexivity.
  - lia.
Qed.

(** X19.  The two counts of /stats add up to the size of the data pool, and a
    client that connects under a fresh id adds one to the web count when
    its type is "web" or was left out, and one to the python count for
    any other type. *)
Theorem data_clients_by_type (w : World) :
  let r := WSCounts.GetDataClientsByType w in
  (fst r + snd r)%nat = WSManager.GetDataClientCount w /\
  forall ty uuid now,
    dataClients w !! short_id uuid = None ->
    WSCounts.GetDataClientsByType (WSManager.HandleDataWS true ty uuid now w)
    = if String.eqb ty "" || String.eqb ty "web"
      then (S (fst r), snd r) else (fst r, S (snd r)).
Proof.
  cbn zeta. unfold WSCounts.GetDataClientsByType. rewrite count_loop.
  cbn [fst snd]. split.
  - unfold WSManager.GetDataClientCount.
    rewrite <- (length_map_to_list (dataClients w)).
    rewrite !Nat.add_0_l. apply filter_split_length.
  - intros ty uuid now Hfresh. rewrite HandleDataWS_ok. cbn zeta.
    cbn [log set_dataClients dataClients]. rewrite count_loop.
    set (c := WSClient.mk _ _ _).
    pose proof (map_to_list_insert (dataClients w) (short_id uuid) c Hfresh)
      as Hperm.
    rewrite (filter_length_Permutation _ _ _ Hperm).
    rewrite (filter_length_Permutation
               (fun kc => negb (String.eqb (WSClient.PeerType (snd kc)) "web"))
               _ _ Hperm).
    cbn [List.filter snd]. subst c. cbn [WSClient.PeerType].
    destruct (String.eqb_spec ty "") as [->|Hne]; cbn [orb].
    + cbn. reflexivity.
    + destruct (String.eqb ty "web"); cbn [negb length]; f_equal; lia.
Qed.

Lemma GetPeersByType_others w :
  (length (PeerManager.GetPeersByType PeerTypeWeb w) +
   length (PeerManager.GetPeersByType PeerTypePython w)
   <= PeerManager.PeerCount w)%nat /\
  (roles_known w ->
   (length (PeerManager.GetPeersByType PeerTypeWeb w) +
    length (PeerManager.GetPeersByType PeerTypePython w)
    = PeerManager.PeerCount w)%nat).
Proof.
  unfold PeerManager.GetPeersByType, PeerManager.PeerCount, roles_known.
  rewrite <- (length_map_to_list (peers w)).
  rewrite <- (length_map snd (map_to_list (peers w))).
  assert (Hin : forall p, In p (List.map snd (map_to_list (peers w))) ->
                          exists k, peers w !! k = Some p).
  { intros p Hp. apply in_map_iff in Hp as ([k p'] & <- & Hp).
    exists k. apply elem_of_map_to_list, list_elem_of_In. exact Hp. }
  revert Hin. generalize (List.map snd (map_to_list (peers w))) as l.
  induction l as [|p l IH]; intros Hin; [split; reflexivity|].
  assert (Hin' : forall q, In q l -> exists k, peers w !! k = Some q)
    by (intros q Hq; apply Hin; right; exact Hq).
  destruct (IH Hin') as [Hle Heq]. cbn [List.filter length]. split.
  - destruct (String.eqb_spec (Peer.Type_ p) PeerTypeWeb) as [->|_];
      [cbn; lia|].
    destruct (String.eqb (Peer.Type_ p) PeerTypePython); cbn [length]; lia.
  - intros Hk. specialize (Heq Hk).
    destruct (Hin p (or_introl eq_refl)) as [k Hp].
    destruct (Hk k p Hp) as [-> | ->]; cbn; lia.
Qed.

(** X20.  /status: the web and python counts never exceed the peer count, and
    add up to it when every registered peer is a web or a python peer. *)
Theorem status_counts (w : World) :
  exists s,
    handleStatus "GET" w = ReplyStatus StatusOK s /\
    Status s = "running" /\
    PeerCount s = size (peers w) /\
    (WebPeers s + PyPeers s <= PeerCount s)%nat /\
    (roles_known w -> (WebPeers s + PyPeers s = PeerCount s)%nat).
Proof.
  eexists. split; [reflexivity|]. cbn [Status PeerCount WebPeers PyPeers].
  split; [reflexivity|]. split; [reflexivity|].
  exact (GetPeersByType_others w).
Qed.

Lemma offer_role_known ty :
  let role := if negb (String.eqb ty PeerTypeWeb) &&
                 negb (String.eqb ty PeerTypePython)
              then PeerTypeWeb else ty in
  (role = PeerTypeWeb \/ role = PeerTypePython) /\
  role = if String.eqb ty PeerTypePython then PeerTypePython else PeerTypeWeb.
Proof.
  cbn zeta.
  destruct (String.eqb_spec ty PeerTypeWeb) as [->|Hw]; cbn [negb andb];
    [split; [left|]; reflexivity|].
  destruct (String.eqb_spec ty PeerTypePython) as [->|Hp]; cbn [negb];
    [split; [right|]; reflexivity|].
  split; [left|]; reflexivity.
Qed.

Lemma roles_known_insert k p w :
  roles_known w ->
  Peer.Type_ p = PeerTypeWeb \/ Peer.Type_ p = PeerTypePython ->
  forall k' p', <[k := p]> (peers w) !! k' = Some p' ->
    Peer.Type_ p' = PeerTypeWeb \/ Peer.Type_ p' = PeerTypePython.
Proof.
  intros Hk Hp k' p' H.
  apply lookup_insert_Some in H as [[_ <-]|[_ H]]; [exact Hp|].
  exact (Hk k' p' H).
Qed.

Lemma roles_known_delete (k : string) (m : gmap string Peer.t) :
  (forall k' p', m !! k' = Some p' ->
     Peer.Type_ p' = PeerTypeWeb \/ Peer.Type_ p' = PeerTypePython) ->
  forall k' p', delete k m !! k' = Some p' ->
    Peer.Type_ p' = PeerTypeWeb \/ Peer.Type_ p' = PeerTypePython.
Proof.
  intros Hm k' p' H. apply lookup_delete_Some in H as [_ H].
  exact (Hm k' p' H).
Qed.

(** X21.  The role a peer is registered with by /offer is web or python,
    whatever the request named: a world in which every peer is a web or a
    python peer stays so under any /offer request. *)
Theorem offers_keep_roles_known (method : string)
    (req : string + OfferRequest) (env : Admission) (w : World) :
  roles_known w -> roles_known (fst (handleOffer method req env w)).
Proof.
  intros Hk. unfold handleOffer.
  destruct (negb (String.eqb method "POST")); [exact Hk|].
  destruct req as [err|req]; [exact Hk|].
  destruct (offer_role_known (offerPeerType req)) as [Hrole _].
  cbn zeta in Hrole.
  set (role := if negb (String.eqb (offerPeerType req) PeerTypeWeb) &&
                  negb (String.eqb (offerPeerType req) PeerTypePython)
               then PeerTypeWeb else offerPeerType req) in *.
  unfold PeerManager.CreatePeer.
  destruct (newPeerConnection env); [exact Hk|]. cbn zeta.
  set (w1 := log _ (set_peers _ w)).
  assert (H1 : roles_known w1).
  { intros k p. subst w1. cbn [log set_peers peers].
    apply roles_known_insert; [exact Hk|exact Hrole]. }
  assert (Hrm : forall id, roles_known (PeerManager.RemovePeer id w1)).
  { intros id k p. rewrite RemovePeer_peers.
    apply roles_known_delete. exact H1. }
  cbn [Peer.ID].
  destruct (setRemoteDescription env); [apply Hrm|].
  destruct (createAnswer env); [apply Hrm|].
  destruct (setLocalDescription env); [apply Hrm|].
  cbn [fst]. intros k p. cbn [log peers]. apply H1.
Qed.

Lemma handleOffer_ok (req : OfferRequest) (env : Admission) (w : World) :
  newPeerConnection env = None -> setRemoteDescription env = None ->
  createAnswer env = None -> setLocalDescription env = None ->
  let id := short_id (uuid env) in
  let role := if String.eqb (offerPeerType req) PeerTypePython
              then PeerTypePython else PeerTypeWeb in
  handleOffer "POST" (inr req) env w
  = (log (LogOfferProcessed id role)
       (log (LogPeerCreated id role)
          (set_peers (insert id (Peer.mk id role None)) w)),
     mkResponse StatusOK (AnswerBody (mkAnswer (localSDP env) "answer" id))).
Proof.
  intros H1 H2 H3 H4. cbn zeta.
  destruct (offer_role_known (offerPeerType req)) as [_ Hrole].
  cbn zeta in Hrole.
  unfold handleOffer, PeerManager.CreatePeer.
  rewrite H1, H2, H3, H4. cbn [String.eqb Ascii.eqb Bool.eqb negb].
  cbn zeta. cbn [Peer.ID]. rewrite Hrole. reflexivity.
Qed.

(** X22.  An /offer request on which no step fails: the peer is registered
    under the first eight characters of the UUID, as a python peer when
    the request says python and as a web peer otherwise, with no data
    channel yet; the answer carries that id and the local description;
    nothing else changes. *)
Theorem handleOffer_admits (req : OfferRequest) (env : Admission)
    (w : World) :
  newPeerConnection env = None -> setRemoteDescription env = None ->
  createAnswer env = None -> setLocalDescription env = None ->
  let r := handleOffer "POST" (inr req) env w in
  let id := short_id (uuid env) in
  let role := if String.eqb (offerPeerType req) PeerTypePython
              then PeerTypePython else PeerTypeWeb in
  snd r = mkResponse StatusOK (AnswerBody (mkAnswer (localSDP env) "answer" id))
  /\ peers (fst r) = <[id := Peer.mk id role None]> (peers w)
  /\ dataClients (fst r) = dataClients w
  /\ stats (fst r) = stats w /\ wire (fst r) = wire w
  /\ logs (fst r) = logs w ++ [LogPeerCreated id role; LogOfferProcessed id role].
Proof.
  intros H1 H2 H3 H4. cbn zeta.
  rewrite (handleOffer_ok req env w H1 H2 H3 H4). cbn zeta.
  cbn [fst snd log set_peers peers dataClients stats wire logs].
  rewrite <- app_assoc. repeat split; reflexivity.
Qed.

Lemma handleOffer_handler (method : string) (req : string + OfferRequest)
    (env : Admission) (w : World) :
  let r := handleOffer method req env w in
  dataClients (fst r) = dataClients w /\
  stats (fst r) = stats w /\ wire (fst r) = wire w /\
  wiring (fst r) = wiring w /\
  (forall k, k <> short_id (uuid env) ->
             peers (fst r) !! k = peers w !! k) /\
  (status (snd r) = StatusOK <->
   method = "POST" /\ (exists q, req = inr q) /\
   newPeerConnection env = None /\ setRemoteDescription env = None /\
   createAnswer env = None /\ setLocalDescription env = None).
Proof.
  cbn zeta. unfold handleOffer.
  destruct (String.eqb_spec method "POST") as [->|Hm]; cbn [negb].
  2: { cbn. repeat split; try reflexivity; try discriminate.
       intros (Hp & _). contradiction. }
  destruct req as [err|req].
  { cbn. repeat split; try reflexivity; try discriminate.
    intros (_ & (q & Hq) & _). discriminate. }
  unfold PeerManager.CreatePeer.
  destruct (newPeerConnection env) as [e|].
  { cbn. repeat split; try reflexivity; try discriminate.
    intros (_ & _ & H & _). discriminate. }
  cbn zeta. cbn [Peer.ID].
  set (w1 := log _ (set_peers _ w)).
  assert (Hw1 : forall k, k <> short_id (uuid env) ->
                          peers w1 !! k = peers w !! k).
  { intros k Hk. subst w1. cbn [log set_peers peers].
    apply lookup_insert_ne. congruence. }
  assert (Hrm : forall k, k <> short_id (uuid env) ->
            peers (PeerManager.RemovePeer (short_id (uuid env)) w1) !! k
            = peers w !! k).
  { intros k Hk. rewrite RemovePeer_peers, lookup_delete_ne by congruence.
    apply Hw1, Hk. }
  pose proof (RemovePeer_rest (short_id (uuid env)) w1) as (R1 & R2 & R3).
  assert (Rw : wiring (PeerManager.RemovePeer (short_id (uuid env)) w1)
               = wiring w).
  { unfold PeerManager.RemovePeer. destruct (peers w1 !! _); reflexivity. }
  destruct (setRemoteDescription env) as [e|];
    [|destruct (createAnswer env) as [e|];
      [|destruct (setLocalDescription env) as [e|]]];
    cbn [fst snd status].
  1-3: rewrite R1, R2, R3, Rw; subst w1;
       cbn [log set_peers dataClients stats wire wiring];
       (repeat split; try reflexivity; try exact Hrm; try discriminate);
       intros (_ & _ & _ & Ha & Hb & Hc); discriminate.
  subst w1. cbn [log set_peers dataClients stats wire wiring peers] in *.
  repeat split; try reflexivity; try exact Hw1. eauto.
Qed.

(** X23.  The /offer route as it is served, behind the CORS wrapper.  Every
    reply carries the three CORS headers.  A preflight (OPTIONS) is
    answered 200 with no body and the handler does not run, so nothing
    changes.  For every request only the registry entry under the drawn
    id and the log can change, and the answer is 200 exactly for a
    preflight and for a POST with a decodable body on which none of the
    four transport calls fails. *)
Theorem handleOffer_frame (method : string) (req : string + OfferRequest)
    (env : Admission) (w : World) :
  let r := Routes.offerRoute method req env w in
  dataClients (fst r) = dataClients w /\
  stats (fst r) = stats w /\ wire (fst r) = wire w /\
  wiring (fst r) = wiring w /\
  (forall k, k <> short_id (uuid env) ->
             peers (fst r) !! k = peers w !! k) /\
  (forall h, In h Routes.corsHeaders -> In h (Routes.headers (snd r))) /\
  (method = "OPTIONS" ->
   fst r = w /\ Routes.sent (snd r) = None) /\
  (method <> "OPTIONS" ->
   fst r = fst (handleOffer method req env w) /\
   Routes.sent (snd r) = Some (body (snd (handleOffer method req env w))) /\
   Routes.code (snd r) = status (snd (handleOffer method req env w))) /\
  (Routes.code (snd r) = StatusOK <->
   method = "OPTIONS" \/
   (method = "POST" /\ (exists q, req = inr q) /\
    newPeerConnection env = None /\ setRemoteDescription env = None /\
    createAnswer env = None /\ setLocalDescription env = None)).
Proof.
  cbn zeta. unfold Routes.offerRoute, Routes.corsMiddleware.
  destruct (String.eqb_spec method "OPTIONS") as [->|Hopt].
  - cbn [fst snd Routes.headers Routes.code Routes.sent].
    do 4 (split; [reflexivity|]).
    split; [intros k _; reflexivity|].
    split; [intros h Hin; exact Hin|].
    split; [intros _; split; reflexivity|].
    split; [intros H; contradiction|].
    split; [intros _; left; reflexivity|intros _; reflexivity].
  - destruct (handleOffer_handler method req env w)
      as (Hd & Hs & Hw & Hwi & Hp & Hok).
    cbn zeta in *. cbn [fst snd Routes.headers Routes.code Routes.sent].
    split; [exact Hd|]. split; [exact Hs|]. split; [exact Hw|].
    split; [exact Hwi|]. split; [exact Hp|]. split.
    { intros h Hin. apply in_or_app. left. exact Hin. }
    split; [intros H; contradiction|].
    split; [intros _; repeat split; reflexivity|].
    rewrite Hok. split.
    + intros H. right. exact H.
    + intros [H|H]; [contradiction|exact H].
Qed.

(** X24.  /ice follows the registry: the id answered by an accepted /offer is
    accepted by /ice, and an id that has been removed is answered 404
    whatever the candidate. *)
Theorem ice_follows_registry (w : World) :
  (forall req env cand mid line,
     newPeerConnection env = None -> setRemoteDescription env = None ->
     createAnswer env = None -> setLocalDescription env = None ->
     let r := handleOffer "POST" (inr req) env w in
     exists a, body (snd r) = AnswerBody a /\
       handleICE "POST" (inr (mkICE (PeerID a) cand mid line)) None (fst r)
       = (ReplyObject StatusOK "status" "ok", [LogICEAdded (PeerID a)])) /\
  (forall ice addErr,
     handleICE "POST" (inr ice) addErr
               (PeerManager.RemovePeer (icePeerID ice) w)
     = (ReplyError StatusNotFound
                   (mkError "Peer not found" (icePeerID ice)), [])).
Proof.
  split.
  - intros req env cand mid line H1 H2 H3 H4.
    cbn zeta. rewrite (handleOffer_ok req env w H1 H2 H3 H4). cbn zeta.
    cbn [fst snd body]. eexists. split; [reflexivity|].
    cbn [PeerID]. unfold handleICE, PeerManager.GetPeer.
    cbn [String.eqb Ascii.eqb Bool.eqb negb icePeerID].
    cbn [log set_peers peers]. rewrite lookup_insert_eq. reflexivity.
  - intros ice addErr. unfold handleICE, PeerManager.GetPeer.
    cbn [String.eqb Ascii.eqb Bool.eqb negb].
    rewrite RemovePeer_peers, lookup_delete_eq. reflexivity.
Qed.

End Reports.

(* ===================================================================== *)
(** ** The pumps of a data client *)
(* ===================================================================== *)

Section Pumps.
Import Word LittleEndian Twist Keepalive.

Lemma first_byte_of_frame (data : bytes) :
  bytes_ok data -> (8 <= length data)%nat ->
  exists rest, data = Z.land (Uint64 (slice 0 8 data)) 255 :: rest.
Proof.
  intros Hok Hlen.
  pose proof (word_back 0 8 data Hok Hlen eq_refl) as Hback.
  remember (Uint64 (slice 0 8 data)) as v eqn:Hv. clear Hv.
  destruct data as [|b rest]; [cbn in Hlen; lia|].
  exists rest. f_equal.
  unfold slice in Hback. cbn [Nat.sub skipn firstn] in Hback.
  unfold PutUint64, to_byte in Hback. inversion Hback. reflexivity.
Qed.

(** X25.  A forwarded velocity frame on its way out: the writer takes it from
    the buffer with a fresh write deadline and writes it as a binary
    frame, unless the low byte of linear.x's bit pattern is 0x7B, the
    opening brace: then the same bytes go out as a text frame. *)
Theorem forwarded_frame_kind (t : Z) (c : WSClient.t) (conn : Conn)
    (data : bytes) (tw : TwistMessage) :
  DecodeTwist data = Ok tw -> bytes_ok data ->
  Chan.buf (WSClient.Send c) = [] ->
  writePump_message t (enqueued data c) conn
  = Some (SetWriteDeadline (t + writeTimeout) conn,
          WSClient.with_Send c (Chan.mk [] (Chan.cap (WSClient.Send c))),
          if Z.land (Float64bits (X (Linear tw))) 255 =? 123
          then TextMessage (Raw data) else BinaryMessage data).
Proof.
  intros Hdec Hok Hbuf.
  assert (Hlen : (8 <= length data)%nat).
  { unfold DecodeTwist, TwistMessageSize, TwistMessageSizeLegacy in Hdec.
    destruct (Nat.eqb_spec (length data) 56) as [->|_]; [lia|].
    destruct (Nat.eqb_spec (length data) 48) as [->|_]; [lia|].
    discriminate. }
  assert (Hx : Float64bits (X (Linear tw)) = Uint64 (slice 0 8 data)).
  { unfold DecodeTwist in Hdec.
    destruct (negb _ && negb _); [discriminate|].
    inversion Hdec. reflexivity. }
  destruct (first_byte_of_frame data Hok Hlen) as [rest Hdata].
  rewrite Hx.
  unfold writePump_message, enqueued, Chan.recv.
  cbn [WSClient.with_Send WSClient.Send Chan.buf Chan.cap WSClient.ID
       WSClient.PeerType].
  rewrite Hbuf. cbn [app]. unfold frame_of.
  rewrite Hdata at 1 2. rewrite <- Hdata. reflexivity.
Qed.

Lemma after_fanout_ID sel data c :
  WSClient.ID (after_fanout sel data c) = WSClient.ID c.
Proof. unfold after_fanout. destruct (_ && _); reflexivity. Qed.

Lemma handleDataMessage_domain now c msg w w' k :
  WSInbound.handleDataMessage now c msg w = Some w' ->
  (is_Some (dataClients w' !! k) <-> is_Some (dataClients w !! k)) /\
  (clients_keyed w -> forall c1, dataClients w' !! k = Some c1 ->
                                 WSClient.ID c1 = k).
Proof.
  unfold WSInbound.handleDataMessage.
  destruct (String.eqb (DataMessage.Type_ msg) "twist").
  { intros H. inversion H; subst w'.
    destruct (forwardData_spec (WSClient.ID c) (WSClient.PeerType c)
                (DataMessage.Data msg) w) as (_ & _ & _ & _ & _ & Fc).
    rewrite Fc. split; [apply fmap_is_Some|].
    intros Hk c1 H1. apply fmap_Some in H1 as (c0 & H0 & ->).
    rewrite after_fanout_ID. exact (Hk k c0 H0). }
  destruct (String.eqb (DataMessage.Type_ msg) "ping").
  2: { intros H. inversion H; subst w'. cbn [log dataClients].
       split; [reflexivity|]. intros Hk c1. apply Hk. }
  destruct (dataClients w !! WSClient.ID c) as [c0|] eqn:Hc0.
  2: { intros H. inversion H; subst w'.
       split; [reflexivity|]. intros Hk c1. apply Hk. }
  destruct (Chan.try_send _ _) as [ch'|]; [|discriminate].
  intros H. inversion H; subst w'. cbn [set_dataClients dataClients].
  destruct (decide (WSClient.ID c = k)) as [<-|Hne].
  - rewrite lookup_insert_eq, Hc0. split.
    + split; intros _; eexists; reflexivity.
    + intros Hk c1 H1. inversion H1. cbn. exact (Hk _ _ Hc0).
  - rewrite lookup_insert_ne by exact Hne. split; [reflexivity|].
    intros Hk c1. apply Hk.
Qed.

Lemma readLoop_keeps c : forall events conn w conn' w',
  readLoop c conn events w = Some (conn', w') ->
  closed conn' = closed conn /\ peers w' = peers w /\
  forall k, is_Some (dataClients w' !! k) <-> is_Some (dataClients w !! k).
Proof.
  induction events as [|ev rest IH]; intros conn w conn' w';
    cbn [readLoop].
  - intros H. inversion H. repeat split; auto.
  - destruct (readDeadline conn <? arrival ev).
    { intros H. inversion H. repeat split; auto. }
    destruct ev as [t|t message|t [msg|]|t unexpected].
    + intros H. apply IH in H as (H1 & H2 & H3).
      repeat split; auto; apply H3.
    + intros H. apply IH in H as (H1 & H2 & H3).
      destruct (handleBinaryData_wire (UnixMilli t) c message w)
        as (Hp & _).
      split; [exact H1|]. split; [congruence|].
      intros k. rewrite H3, handleBinaryData_clients.
      destruct (DecodeTwist message); [apply fmap_is_Some|reflexivity].
    + destruct (WSInbound.handleDataMessage (UnixMilli t) c msg w)
        as [w1|] eqn:Hmsg; [|discriminate].
      intros H. apply IH in H as (H1 & H2 & H3).
      destruct (handleDataMessage_wire _ _ _ _ _ Hmsg) as (Hp & _).
      split; [exact H1|]. split; [congruence|].
      intros k. rewrite H3.
      apply (handleDataMessage_domain _ _ _ _ _ k Hmsg).
    + intros H. apply IH in H as (H1 & H2 & H3).
      repeat split; auto; apply H3.
    + intros H. inversion H; subst conn' w'.
      destruct unexpected; repeat split; auto.
Qed.

(** X26.  The reader of a data client.  It returns whenever no JSON ping is
    among the events (a ping can suspend it on its own full buffer), and
    whenever it returns the connection is closed, the client is out of
    the pool, every other client is still registered, none was added,
    and the peer registry is as before. *)
Theorem reader_exit (c : WSClient.t) (t0 : Z) (conn : Conn)
    (events : list Incoming) (w : World) :
  ((forall t msg, In (InText t (Some msg)) events ->
                  DataMessage.Type_ msg <> "ping") ->
   exists r, readPumpData c t0 conn events w = Some r) /\
  (forall conn' w',
     readPumpData c t0 conn events w = Some (conn', w') ->
     closed conn' = true /\
     dataClients w' !! WSClient.ID c = None /\
     peers w' = peers w /\
     forall k, k <> WSClient.ID c ->
       (is_Some (dataClients w' !! k) <-> is_Some (dataClients w !! k))).
Proof.
  unfold readPumpData, readPump_from. split.
  - intros Hnp.
    destruct (readLoop_returns c events
                (SetReadDeadline (t0 + (pongTimeout + pingInterval))
                                 (SetReadLimit maxMessageSize conn)) w Hnp)
      as [r ->].
    cbn. eauto.
  - intros conn' w' H.
    destruct (readLoop c _ events w) as [[conn1 w1]|] eqn:Hloop;
      [|discriminate].
    cbn [option_map readPump_exit fst snd] in H.
    inversion H; subst conn' w'. clear H.
    apply readLoop_keeps in Hloop as (_ & Hp & Hdom).
    split; [reflexivity|].
    unfold WSManager.removeDataClient.
    destruct (dataClients w1 !! WSClient.ID c) eqn:Hc;
      cbn [log set_dataClients dataClients peers].
    + split; [apply lookup_delete_eq|]. split; [exact Hp|].
      intros k Hk. rewrite lookup_delete_ne by congruence. apply Hdom.
    + split; [exact Hc|]. split; [exact Hp|]. intros k _. apply Hdom.
Qed.

Lemma step_clients_keyed w w' :
  step w w' -> clients_keyed w -> clients_keyed w'.
Proof.
  intros Hstep Hk.
  destruct Hstep as [uuid pcErr peerType|id dc|id|method req env|
                     ok ty uuid now|id|now i w' Hroute|
                     t id c conn conn' c' frame Hc Hwrite].
  - unfold PeerManager.CreatePeer. destruct pcErr; exact Hk.
  - exact Hk.
  - intros k c. rewrite (proj1 (RemovePeer_rest id w)). apply Hk.
  - intros k c. rewrite (proj1 (handleOffer_world method req env w)).
    apply Hk.
  - destruct ok; [rewrite HandleDataWS_ok|exact Hk].
    intros k c. cbn zeta. cbn [log set_dataClients dataClients]. intros H.
    apply lookup_insert_Some in H as [[<- <-]|[_ H]];
      [reflexivity|exact (Hk k c H)].
  - unfold WSManager.removeDataClient.
    destruct (dataClients w !! id); [|exact Hk].
    intros k c. cbn [log set_dataClients dataClients]. intros H.
    apply lookup_delete_Some in H as [_ H]. exact (Hk k c H).
  - intros k c1 H1.
    destruct i as [from data|c data|c msg]; cbn [route] in Hroute.
    + inversion Hroute; subst w'.
      destruct (HandleMessage_clients now from data w k) as (tg & [H|[_ H]]);
        rewrite H in H1; [exact (Hk k c1 H1)|].
      apply fmap_Some in H1 as (c0 & H0 & ->).
      rewrite after_fanout_ID. exact (Hk k c0 H0).
    + inversion Hroute; subst w'. rewrite handleBinaryData_clients in H1.
      destruct (Twist.DecodeTwist data); [|exact (Hk k c1 H1)].
      apply fmap_Some in H1 as (c0 & H0 & ->).
      rewrite after_fanout_ID. exact (Hk k c0 H0).
    + exact (proj2 (handleDataMessage_domain now c msg w w' k Hroute)
               Hk c1 H1).
  - unfold Keepalive.writePump_message in Hwrite.
    destruct (Chan.recv (WSClient.Send c)) as [[out ch']|]; [|discriminate].
    inversion Hwrite; subst conn' c' frame.
    intros k c1. cbn [set_dataClients dataClients]. intros H.
    apply lookup_insert_Some in H as [[<- <-]|[_ H]];
      [exact (Hk id c Hc)|exact (Hk k c1 H)].
Qed.

(** X27.  In every state the relay reaches, both registries are keyed by the
    ids of the records they hold and no send buffer exceeds its 256
    slots. *)
Theorem reachable_registries_keyed (w : World) :
  reachable w -> peers_keyed w /\ clients_keyed w /\ buffers_bounded w.
Proof.
  induction 1 as [|w w' _ IH Hstep].
  - destruct emptyWorld_ok as [Hp Hb]. split; [exact Hp|].
    split; [|exact Hb]. intros k c H. cbn in H.
    rewrite lookup_empty in H. discriminate.
  - destruct IH as (Hp & Hc & Hb).
    destruct (step_invariants w w' Hstep (conj Hp Hb)) as [Hp' Hb'].
    split; [exact Hp'|]. split; [|exact Hb'].
    exact (step_clients_keyed w w' Hstep Hc).
Qed.

Lemma flood_cons ty d rest w :
  flood ty (d :: rest) w
  = flood ty rest (fst (WSManager.BroadcastToType ty d w)).
Proof. reflexivity. Qed.

Lemma flood_buffer ty : forall frames w k c,
  dataClients w !! k = Some c ->
  WSClient.PeerType c = ty ->
  (length (Chan.buf (WSClient.Send c)) <= Chan.cap (WSClient.Send c))%nat ->
  dataClients (flood ty frames w) !! k
  = Some (WSClient.with_Send c
            (Chan.mk (Chan.buf (WSClient.Send c) ++
                      List.map Raw
                        (firstn (Chan.cap (WSClient.Send c)
                                 - length (Chan.buf (WSClient.Send c)))
                                frames))
                     (Chan.cap (WSClient.Send c)))).
Proof.
  induction frames as [|d rest IH]; intros w k c Hc Hty Hlen.
  - cbn [flood fold_left]. rewrite firstn_nil. cbn [List.map].
    rewrite app_nil_r, Hc. destruct c as [id r [b n]]. reflexivity.
  - rewrite flood_cons.
    destruct (ws_broadcast_spec ty d w) as (_ & _ & _ & _ & _ & _ & Hcl).
    cbn zeta in Hcl.
    assert (Hsel : sel_broadcast ty c = true)
      by (unfold sel_broadcast; rewrite Hty; apply String.eqb_refl).
    specialize (Hcl k). rewrite Hc in Hcl. cbn [fmap option_fmap option_map] in Hcl.
    unfold after_fanout in Hcl. rewrite Hsel in Hcl. cbn [andb] in Hcl.
    unfold has_room in Hcl.
    destruct (Nat.ltb_spec (length (Chan.buf (WSClient.Send c)))
                           (Chan.cap (WSClient.Send c))) as [Hroom|Hfull].
    + rewrite (IH _ k _ Hcl); [|exact Hty|].
      2: { cbn. rewrite length_app. cbn. lia. }
      cbn [enqueued WSClient.with_Send WSClient.Send Chan.buf Chan.cap
           WSClient.ID WSClient.PeerType].
      rewrite length_app. cbn [length].
      replace (Chan.cap (WSClient.Send c)
               - length (Chan.buf (WSClient.Send c)))%nat
        with (S (Chan.cap (WSClient.Send c)
                 - (length (Chan.buf (WSClient.Send c)) + 1)))%nat by lia.
      cbn [firstn List.map]. rewrite <- app_assoc. reflexivity.
    + rewrite (IH _ k _ Hcl Hty Hlen).
      replace (Chan.cap (WSClient.Send c)
               - length (Chan.buf (WSClient.Send c)))%nat with 0%nat by lia.
      reflexivity.
Qed.

(** X28.  Back-pressure on a new client.  The welcome envelope takes the first
    of the 256 slots: with no writer draining, a client that has just
    connected is handed the first 255 frames broadcast to its role, in
    order, and every later one is dropped for it. *)
Theorem fresh_client_takes_255 (ty uuid : string) (now : Z)
    (frames : list bytes) (w : World) :
  let role := if String.eqb ty "" then "web" else ty in
  exists c,
    dataClients (flood role frames
                   (WSManager.HandleDataWS true ty uuid now w))
      !! short_id uuid = Some c /\
    WSClient.ID c = short_id uuid /\ WSClient.PeerType c = role /\
    Chan.buf (WSClient.Send c)
    = Json (DataMessage.mk "welcome" (short_id uuid) role [] now)
      :: List.map Raw (firstn 255 frames).
Proof.
  cbn zeta. rewrite HandleDataWS_ok. cbn zeta.
  set (role := if String.eqb ty "" then "web" else ty).
  set (c0 := WSClient.mk _ _ _).
  eexists. split.
  - apply (flood_buffer role frames _ (short_id uuid) c0).
    + cbn [log set_dataClients dataClients]. apply lookup_insert_eq.
    + reflexivity.
    + cbn. lia.
  - cbn. repeat split; reflexivity.
Qed.

End Pumps.

(* ===================================================================== *)
(** ** The signaling pool *)
(* ===================================================================== *)

Section SignalingPool.
Import SignalingWS.

Lemma broadcast_step_clients sender msg p k c :
  signalingClients p !! k = Some c ->
  signalingClients (broadcast_step sender (with_PeerID msg sender) p (k, c))
  = <[k := relayed sender msg c]> (signalingClients p).
Proof.
  intros Hc. unfold broadcast_step, relayed, try_send. cbn [fst snd].
  destruct (negb (String.eqb (ID c) sender)); cbn [andb].
  - destruct (Nat.ltb (length (Send c)) sendCap); cbn [signalingClients slog].
    + reflexivity.
    + symmetry. apply insert_id, Hc.
  - symmetry. apply insert_id, Hc.
Qed.

Lemma broadcast_loop_clients sender msg : forall l p,
  NoDup (List.map fst l) ->
  (forall k c, In (k, c) l -> signalingClients p !! k = Some c) ->
  forall k,
    signalingClients
      (fold_left (broadcast_step sender (with_PeerID msg sender)) l p) !! k
    = (if existsb (String.eqb k) (List.map fst l)
       then relayed sender msg else fun c => c) <$> signalingClients p !! k.
Proof.
  induction l as [|[k0 c0] l IH]; intros p Hnd Hin k.
  - cbn. destruct (signalingClients p !! k); reflexivity.
  - cbn [List.map fst] in Hnd. apply NoDup_cons in Hnd as [Hnotin Hnd].
    cbn [fold_left].
    assert (H0 : signalingClients p !! k0 = Some c0)
      by (apply Hin; left; reflexivity).
    pose proof (broadcast_step_clients sender msg p k0 c0 H0) as Hstep.
    rewrite IH; [|exact Hnd|].
    2: { intros k1 c1 H1. rewrite Hstep.
         rewrite lookup_insert_ne; [apply Hin; right; exact H1|].
         intros ->. apply Hnotin. apply list_elem_of_In.
         apply in_map_iff. exists (k1, c1). auto. }
    rewrite Hstep. cbn [List.map fst existsb].
    destruct (String.eqb_spec k k0) as [->|Hne]; cbn [orb].
    + rewrite lookup_insert_eq, H0.
      assert (Hex : existsb (String.eqb k0) (List.map fst l) = false).
      { apply Bool.not_true_is_false. intros Hex.
        apply existsb_exists in Hex as (x & Hx & Heq).
        apply String.eqb_eq in Heq. subst x.
        apply Hnotin, list_elem_of_In, Hx. }
      rewrite Hex. reflexivity.
    + rewrite lookup_insert_ne by congruence. reflexivity.
Qed.

Lemma broadcast_loop_logs sender m : forall l p,
  slogs (fold_left (broadcast_step sender m) l p)
  = slogs p ++
    List.map (fun kc => LogBufferFull (ID (snd kc)))
      (List.filter
         (fun kc => negb (String.eqb (ID (snd kc)) sender) &&
                    negb (Nat.ltb (length (Send (snd kc))) sendCap)) l).
Proof.
  induction l as [|[k c] l IH]; intros p; cbn [fold_left List.filter].
  - cbn. rewrite app_nil_r. reflexivity.
  - rewrite IH. unfold broadcast_step, try_send. cbn [fst snd].
    destruct (negb (String.eqb (ID c) sender)); cbn [andb];
      [|reflexivity].
    destruct (Nat.ltb (length (Send c)) sendCap); cbn [negb slogs slog];
      [reflexivity|].
    cbn [List.map snd]. rewrite <- app_assoc. reflexivity.
Qed.

Lemma broadcastSignaling_spec sender msg p :
  (forall k, signalingClients (broadcastSignaling sender msg p) !! k
             = relayed sender msg <$> signalingClients p !! k) /\
  slogs (broadcastSignaling sender msg p)
  = slogs p ++
    List.map (fun kc => LogBufferFull (ID (snd kc)))
      (List.filter
         (fun kc => negb (String.eqb (ID (snd kc)) sender) &&
                    negb (Nat.ltb (length (Send (snd kc))) sendCap))
         (map_to_list (signalingClients p))).
Proof.
  unfold broadcastSignaling. split; [|apply broadcast_loop_logs].
  intros k. rewrite broadcast_loop_clients.
  - destruct (signalingClients p !! k) as [c|] eqn:Hc; [|reflexivity].
    assert (Hex : existsb (String.eqb k)
                    (List.map fst (map_to_list (signalingClients p))) = true).
    { apply existsb_exists. exists k. split; [|apply String.eqb_refl].
      apply in_map_iff. exists (k, c). split; [reflexivity|].
      apply list_elem_of_In, elem_of_map_to_list. exact Hc. }
    rewrite Hex. reflexivity.
  - apply NoDup_fst_map_to_list.
  - intros k0 c0 H0. apply elem_of_map_to_list, list_elem_of_In. exact H0.
Qed.

(** X29.  An offer, an answer or an ICE message on the signaling socket is
    relayed to every other signaling client, whatever its role, with the
    sender's id written over the message's peer id: clients with the
    sender's id are skipped, a client with room gets the stamped message
    at the tail of its buffer, a client with a full buffer is skipped and
    logged, and no client is added or removed. *)
Theorem signaling_relay (now : Z) (c : Client) (msg : SignalingMessage)
    (p : Pool) :
  relayed_kind (Type_ msg) = true ->
  exists p',
    handleSignalingMessage now c msg p = Some p' /\
    (forall k, signalingClients p !! k = None ->
               signalingClients p' !! k = None) /\
    (forall k c0, signalingClients p !! k = Some c0 ->
       (ID c0 = ID c -> signalingClients p' !! k = Some c0) /\
       (ID c0 <> ID c -> (length (Send c0) < sendCap)%nat ->
        signalingClients p' !! k
        = Some (mkClient (ID c0) (Role c0)
                  (Send c0 ++
                   [mkMsg (Type_ msg) (ID c) (PeerType msg) (SDP msg)
                          (Candidate msg) (Error msg) (Timestamp msg)]))) /\
       (ID c0 <> ID c -> (sendCap <= length (Send c0))%nat ->
        signalingClients p' !! k = Some c0 /\
        In (LogBufferFull (ID c0)) (slogs p'))).
Proof.
  intros Hkind.
  assert (Hp' : exists l,
            handleSignalingMessage now c msg p
            = Some (broadcastSignaling (ID c) msg (slog l p))).
  { unfold handleSignalingMessage, relayed_kind in *.
    destruct (String.eqb (Type_ msg) "offer"); [eauto|].
    destruct (String.eqb (Type_ msg) "answer"); [eauto|].
    destruct (String.eqb (Type_ msg) "ice"); [eauto|discriminate]. }
  destruct Hp' as [l Hp']. eexists. split; [exact Hp'|].
  destruct (broadcastSignaling_spec (ID c) msg (slog l p)) as [Hcl Hlog].
  cbn [slog signalingClients] in Hcl, Hlog.
  split.
  - intros k Hk. rewrite Hcl, Hk. reflexivity.
  - intros k c0 Hc0. rewrite Hcl, Hc0. cbn [fmap option_fmap option_map].
    unfold relayed. split; [|split].
    + intros ->. rewrite String.eqb_refl. reflexivity.
    + intros Hne Hroom. apply String.eqb_neq in Hne. rewrite Hne.
      apply Nat.ltb_lt in Hroom. rewrite Hroom. reflexivity.
    + intros Hne Hfull. apply String.eqb_neq in Hne. rewrite Hne.
      assert (Hlt : Nat.ltb (length (Send c0)) sendCap = false)
        by (apply Nat.ltb_ge; exact Hfull).
      rewrite Hlt. split; [reflexivity|].
      rewrite Hlog. apply in_or_app. right.
      apply in_map_iff. exists (k, c0). split; [reflexivity|].
      apply filter_In. split.
      * apply list_elem_of_In, elem_of_map_to_list. exact Hc0.
      * cbn [snd]. rewrite Hne, Hlt. reflexivity.
Qed.

(** X30.  Joining and leaving, on both pools: a client that connects under a
    fresh id is registered with the welcome envelope as the only entry
    of its buffer and raises the count by one; removing it restores the
    registry; removing an id that is not registered changes nothing. *)
Theorem pool_lifecycle (ty uuid : string) (now : Z) :
  let role := if String.eqb ty "" then "web" else ty in
  let id := short_id uuid in
  (forall p,
     signalingClients p !! id = None ->
     let p1 := HandleSignalingWS true ty uuid now p in
     signalingClients p1 !! id
     = Some (mkClient id role [mkMsg "welcome" id role "" [] "" now]) /\
     GetSignalingClientCount p1 = S (GetSignalingClientCount p) /\
     signalingClients (removeSignalingClient id p1) = signalingClients p /\
     removeSignalingClient id p = p) /\
  (forall w,
     dataClients w !! id = None ->
     let w1 := WSManager.HandleDataWS true ty uuid now w in
     dataClients w1 !! id
     = Some (WSClient.mk id role
               (Chan.mk [Json (DataMessage.mk "welcome" id role [] now)] 256))
     /\ WSManager.GetDataClientCount w1 = S (WSManager.GetDataClientCount w)
     /\ dataClients (WSManager.removeDataClient id w1) = dataClients w
     /\ WSManager.removeDataClient id w = w).
Proof.
  cbn zeta. split.
  - intros p Hfresh.
    unfold HandleSignalingWS, try_send, GetSignalingClientCount,
      removeSignalingClient.
    cbn [negb length Nat.ltb Nat.leb sendCap app slog signalingClients].
    rewrite lookup_insert_eq, Hfresh.
    split; [reflexivity|]. split; [apply map_size_insert_None, Hfresh|].
    split; [|reflexivity].
    cbn [slog signalingClients]. rewrite delete_insert_eq.
    apply delete_id, Hfresh.
  - intros w Hfresh. rewrite HandleDataWS_ok. cbn zeta.
    unfold WSManager.GetDataClientCount, WSManager.removeDataClient.
    cbn [log set_dataClients dataClients].
    rewrite lookup_insert_eq, Hfresh.
    split; [reflexivity|]. split; [apply map_size_insert_None, Hfresh|].
    split; [|reflexivity].
    cbn [log set_dataClients dataClients]. rewrite delete_insert_eq.
    apply delete_id, Hfresh.
Qed.

End SignalingPool.

(* ===================================================================== *)
(** ** The further properties at the sample data *)
(* ===================================================================== *)

Section MoreInstances.
Import Word LittleEndian Twist TwistOps Keepalive Signaling.

Lemma bytes_ok_forallb (data : bytes) :
  forallb (fun b => (0 <=? b) && (b <? 256)) data = true -> bytes_ok data.
Proof.
  intros H. apply Forall_forall. intros b Hb.
  apply list_elem_of_In in Hb.
  rewrite forallb_forall in H. specialize (H b Hb).
  apply Bool.andb_true_iff in H as [H1 H2].
  unfold is_byte. lia.
Qed.

Lemma Sample_frame_ok : bytes_ok Sample.frame.
Proof. apply bytes_ok_forallb. vm_compute. reflexivity. Qed.

Lemma Sample_world_clients_keyed : clients_keyed Sample.world.
Proof.
  intros k c. unfold Sample.world. cbn [dataClients]. intros H.
  repeat (apply lookup_insert_Some in H as [[<- <-]|[_ H]];
          [reflexivity|]).
  rewrite lookup_empty in H. discriminate.
Qed.

Lemma Sample_world_roles_known : roles_known Sample.world.
Proof.
  intros k p. unfold Sample.world. cbn [peers]. intros H.
  repeat (apply lookup_insert_Some in H as [[<- <-]|[_ H]];
          [cbn; auto|]).
  rewrite lookup_empty in H. discriminate.
Qed.

Lemma DecodeTwist_EncodeTwist_stamped_witness :
  wf_twist Sample.unstamped /\
  DecodeTwist (EncodeTwist 1234 Sample.unstamped)
  = Ok (with_Timestamp Sample.unstamped 1234).
Proof.
  assert (Hwf : wf_twist Sample.unstamped)
    by (unfold wf_twist, is_uint64; cbn; lia).
  split; [exact Hwf|].
  exact (DecodeTwist_EncodeTwist_stamped 1234 Sample.unstamped Hwf).
Defined.

Lemma EncodeTwist_DecodeTwist_witness :
  length Sample.frame = 56%nat /\ bytes_ok Sample.frame /\
  Uint64 (slice 48 56 Sample.frame) = 1700000000000 /\
  exists t, DecodeTwist Sample.frame = Ok t /\
            EncodeTwist 77 t = Sample.frame.
Proof.
  assert (Hts : Uint64 (slice 48 56 Sample.frame) = 1700000000000)
    by (vm_compute; reflexivity).
  assert (Hnz : Uint64 (slice 48 56 Sample.frame) <> 0)
    by (rewrite Hts; lia).
  split; [reflexivity|]. split; [exact Sample_frame_ok|].
  split; [exact Hts|].
  destruct (EncodeTwist_DecodeTwist 77 Sample.frame eq_refl
              Sample_frame_ok Hnz) as (t & Hdec & _ & Henc).
  exists t. split; assumption.
Defined.

Lemma DecodeTwist_legacy_witness :
  length (slice 0 48 Sample.frame) = 48%nat /\
  bytes_ok (slice 0 48 Sample.frame) /\
  exists t, DecodeTwist (slice 0 48 Sample.frame) = Ok t /\
            Timestamp t = 0 /\
            EncodeTwist 5 t
            = slice 0 48 Sample.frame ++ PutUint64 (to_uint64 5).
Proof.
  assert (Hok : bytes_ok (slice 0 48 Sample.frame))
    by (apply slice_ok, Sample_frame_ok).
  split; [reflexivity|]. split; [exact Hok|].
  destruct (DecodeTwist_legacy 5 9 (slice 0 48 Sample.frame) eq_refl Hok)
    as (t & Hdec & Hts & Henc & _).
  exists t. repeat split; assumption.
Defined.

Lemma GetLatencyMs_after_stamping_witness :
  wf_twist Sample.unstamped /\
  exists g, DecodeTwist (EncodeTwist 1000 Sample.unstamped) = Ok g /\
            GetLatencyMs 1250 g = 250.
Proof.
  assert (Hwf : wf_twist Sample.unstamped)
    by (unfold wf_twist, is_uint64; cbn; lia).
  split; [exact Hwf|].
  apply (GetLatencyMs_after_stamping 1000 1250 Sample.unstamped Hwf).
  - reflexivity.
  - lia.
  - lia.
Defined.

Lemma IsZero_on_the_wire_witness :
  DecodeTwist Sample.frame = Ok Sample.twist /\
  (IsZero Sample.twist = true <->
   stop_word (slice 0 8 Sample.frame) /\
   stop_word (slice 8 16 Sample.frame) /\
   stop_word (slice 16 24 Sample.frame) /\
   stop_word (slice 24 32 Sample.frame) /\
   stop_word (slice 32 40 Sample.frame) /\
   stop_word (slice 40 48 Sample.frame)).
Proof.
  assert (Hdec : DecodeTwist Sample.frame = Ok Sample.twist)
    by (vm_compute; reflexivity).
  split; [exact Hdec|].
  exact (IsZero_on_the_wire Sample.frame Sample.twist
           (or_intror eq_refl) Sample_frame_ok Hdec).
Defined.

Lemma BroadcastToType_count_witness :
  peers_keyed Sample.world /\
  exists ds,
    wire (fst (PeerManager.BroadcastToType "python" Sample.frame
                                           Sample.world))
    = wire Sample.world ++ ds /\
    snd (PeerManager.BroadcastToType "python" Sample.frame Sample.world)
    = Z.of_nat (length ds).
Proof.
  pose proof (proj1 Sample_world_ok) as Hk.
  split; [exact Hk|].
  destruct (BroadcastToType_count "python" Sample.frame Sample.world Hk)
    as (ds & Hwire & Hn & _).
  exists ds. split; assumption.
Defined.

Lemma forwarded_counts_deliveries_witness :
  route 0 (FromDatagram Sample.webPeer Sample.frame) Sample.world
  = Some (MessageRouter.HandleMessage 0 Sample.webPeer Sample.frame
                                      Sample.world) /\
  RouterStats.MessagesForwarded
    (stats (MessageRouter.HandleMessage 0 Sample.webPeer Sample.frame
                                        Sample.world))
  = to_uint64
      (RouterStats.MessagesForwarded (stats Sample.world) +
       Z.of_nat (length (fanned (FromDatagram Sample.webPeer Sample.frame)
                                Sample.world))).
Proof.
  split; [reflexivity|].
  apply (forwarded_counts_deliveries 0
           (FromDatagram Sample.webPeer Sample.frame) Sample.world).
  - reflexivity.
  - reflexivity.
  - unfold is_uint64. cbn. lia.
Defined.

Lemma received_counts_frames_witness :
  route 0 (FromDatagram Sample.webPeer Sample.junk) Sample.world
  = Some (MessageRouter.HandleMessage 0 Sample.webPeer Sample.junk
                                      Sample.world) /\
  RouterStats.MessagesReceived
    (stats (MessageRouter.HandleMessage 0 Sample.webPeer Sample.junk
                                        Sample.world))
  = add64 (RouterStats.MessagesReceived (stats Sample.world)) 1 /\
  RouterStats.ParseErrors
    (stats (MessageRouter.HandleMessage 0 Sample.webPeer Sample.junk
                                        Sample.world))
  = add64 (RouterStats.ParseErrors (stats Sample.world)) 1.
Proof.
  split; [reflexivity|].
  exact (received_counts_frames 0
           (FromDatagram Sample.webPeer Sample.junk) Sample.world _
           eq_refl eq_refl).
Defined.

Lemma frames_forwarded_verbatim_witness :
  route 0 (FromSocketBinary Sample.webClient Sample.frame) Sample.world
  = Some (WSInbound.handleBinaryData 0 Sample.webClient Sample.frame
                                     Sample.world) /\
  wire (WSInbound.handleBinaryData 0 Sample.webClient Sample.frame
                                   Sample.world)
  = wire Sample.world ++
    fanned (FromSocketBinary Sample.webClient Sample.frame) Sample.world.
Proof.
  split; [reflexivity|].
  exact (proj1 (frames_forwarded_verbatim 0
                  (FromSocketBinary Sample.webClient Sample.frame)
                  Sample.world _ eq_refl)).
Defined.

Lemma fanout_at_most_once_witness :
  peers_keyed Sample.world /\ clients_keyed Sample.world /\
  exists ds,
    wire (MessageRouter.HandleMessage 0 Sample.webPeer Sample.frame
                                      Sample.world)
    = wire Sample.world ++ ds /\
    NoDup (List.map target ds).
Proof.
  pose proof (proj1 Sample_world_ok) as Hp.
  split; [exact Hp|]. split; [exact Sample_world_clients_keyed|].
  exact (fanout_at_most_once 0 (FromDatagram Sample.webPeer Sample.frame)
           Sample.world _ eq_refl Hp Sample_world_clients_keyed).
Defined.

Lemma fanout_bounded_by_strangers_witness :
  exists ds,
    wire (WSInbound.handleBinaryData 0 Sample.webClient Sample.frame
                                     Sample.world)
    = wire Sample.world ++ ds /\
    (length ds <= strangers "web" Sample.world)%nat.
Proof.
  exact (fanout_bounded_by_strangers 0
           (FromSocketBinary Sample.webClient Sample.frame)
           Sample.world _ eq_refl).
Defined.

Lemma roles_outside_web_python_witness :
  peers_keyed Sample.world /\
  exists ds,
    wire (WSInbound.handleBinaryData 0 SampleSignaling.robot Sample.frame
                                     Sample.world)
    = wire Sample.world ++ ds /\
    Forall (fun d =>
              (Delivery.transport d = Socket /\
               Delivery.to_role d = "python") \/
              (Delivery.transport d = Datagram /\
               Delivery.to_role d = "web")) ds.
Proof.
  pose proof (proj1 Sample_world_ok) as Hk.
  split; [exact Hk|].
  destruct (roles_outside_web_python Sample.world) as (_ & _ & Hrobot).
  destruct (Hrobot 0 SampleSignaling.robot Sample.frame Hk)
    as (ds & Hwire & Hds); [discriminate|discriminate|].
  exists ds. split; [exact Hwire|].
  apply Forall_forall. intros d Hd. apply Hds, list_elem_of_In, Hd.
Defined.

Lemma offers_keep_roles_known_witness :
  roles_known Sample.world /\
  roles_known (fst (handleOffer "POST" (inr SampleSignaling.offer)
                                SampleSignaling.admission Sample.world)).
Proof.
  split; [exact Sample_world_roles_known|].
  exact (offers_keep_roles_known "POST" (inr SampleSignaling.offer)
           SampleSignaling.admission Sample.world
           Sample_world_roles_known).
Defined.

Lemma handleOffer_admits_witness :
  snd (handleOffer "POST" (inr SampleSignaling.offer)
                   SampleSignaling.admission Sample.world)
  = mkResponse 200 (AnswerBody (mkAnswer "v=0 answer" "answer" "12345678"))
  /\
  peers (fst (handleOffer "POST" (inr SampleSignaling.offer)
                          SampleSignaling.admission Sample.world))
  = <["12345678" := Peer.mk "12345678" "web" None]> (peers Sample.world).
Proof.
  destruct (handleOffer_admits SampleSignaling.offer
              SampleSignaling.admission Sample.world
              eq_refl eq_refl eq_refl eq_refl) as (Hresp & Hpeers & _).
  split; [exact Hresp|exact Hpeers].
Defined.

Lemma forwarded_frame_kind_witness :
  writePump_message 7 (enqueued Sample.frame Sample.pyClient)
                    SampleSignaling.idleConn
  = Some (SetWriteDeadline (7 + writeTimeout) SampleSignaling.idleConn,
          Sample.pyClient, BinaryMessage Sample.frame) /\
  writePump_message 7 (enqueued SampleSignaling.braceFrame Sample.pyClient)
                    SampleSignaling.idleConn
  = Some (SetWriteDeadline (7 + writeTimeout) SampleSignaling.idleConn,
          Sample.pyClient, TextMessage (Raw SampleSignaling.braceFrame)).
Proof.
  split.
  - apply (forwarded_frame_kind 7 Sample.pyClient SampleSignaling.idleConn
             Sample.frame Sample.twist).
    + vm_compute. reflexivity.
    + exact Sample_frame_ok.
    + reflexivity.
  - apply (forwarded_frame_kind 7 Sample.pyClient SampleSignaling.idleConn
             SampleSignaling.braceFrame SampleSignaling.braceTwist).
    + vm_compute. reflexivity.
    + apply bytes_ok_forallb. vm_compute. reflexivity.
    + reflexivity.
Defined.

Lemma reachable_registries_keyed_witness :
  reachable SampleSignaling.connected /\
  peers_keyed SampleSignaling.connected /\
  clients_keyed SampleSignaling.connected /\
  buffers_bounded SampleSignaling.connected.
Proof.
  assert (Hr : reachable SampleSignaling.connected).
  { apply (reach_step emptyWorld); [apply reach_start|].
    exact (step_connect emptyWorld true "python"
             "dddd0004-9abc-4def-8012-3456789abcde" 0). }
  split; [exact Hr|].
  exact (reachable_registries_keyed SampleSignaling.connected Hr).
Defined.

Lemma signaling_relay_witness :
  SignalingWS.relayed_kind
    (SignalingWS.Type_ SampleSignaling.sdpOffer) = true /\
  exists p',
    SignalingWS.handleSignalingMessage 0 SampleSignaling.caller
      SampleSignaling.sdpOffer SampleSignaling.pool = Some p' /\
    SignalingWS.signalingClients p' !! "aaaa1111"
    = Some SampleSignaling.caller /\
    SignalingWS.signalingClients p' !! "bbbb2222"
    = Some (SignalingWS.mkClient "bbbb2222" "python"
              [SignalingWS.mkMsg "offer" "aaaa1111" "web" "v=0" [] "" 0]).
Proof.
  split; [reflexivity|].
  destruct (signaling_relay 0 SampleSignaling.caller
              SampleSignaling.sdpOffer SampleSignaling.pool eq_refl)
    as (p' & Hp' & _ & Hcl).
  exists p'. split; [exact Hp'|]. split.
  - apply (proj1 (Hcl "aaaa1111" SampleSignaling.caller eq_refl)).
    reflexivity.
  - apply (proj1 (proj2 (Hcl "bbbb2222" SampleSignaling.callee eq_refl))).
    + cbn. discriminate.
    + cbn. unfold SignalingWS.sendCap. lia.
Defined.

(** Why JSON pings are set apart in the keepalive theorem: the reply to a
    JSON ping is a plain channel send.  A python client that has just
    connected and is offered 255 frames holds 256 buffered entries; a JSON
    ping read from it then leaves the reader suspended on its own buffer,
    and the reader does not return. *)
Lemma json_ping_suspends_reader :
  let w := flood "python" (repeat Sample.frame 255)
             SampleSignaling.connected in
  option_map (fun c => length (Chan.buf (WSClient.Send c)))
             (dataClients w !! "dddd0004") = Some 256%nat /\
  readPumpData (WSClient.mk "dddd0004" "python" (Chan.make 256)) 0
    SampleSignaling.idleConn
    [InText 1 (Some (DataMessage.mk "ping" "" "" [] 0))] w = None.
Proof. vm_compute. split; reflexivity. Qed.

End MoreInstances.
